(** * House price prediction console: a shallow embedding of
      [model.py] (class [HousePriceModel]) and [main.py] (the menu loop).

    The session object, the console, the two files and the clock are one
    explicit state, threaded through a state-and-exception monad.  The
    pandas / scikit-learn entry points and the floating-point conversions
    are parameters of the development: each call site passes them exactly
    the arguments the Python code passes. *)

From Stdlib Require Import ZArith Ascii String List Lia Bool.
From stdpp Require Import base option list strings gmap pretty.

Local Open Scope Z_scope.

(* ================================================================== *)
(** * Python strings

    A [str] is modelled by a [string] holding its UTF-8 bytes.  Text read
    from the console is taken to be ASCII: there the decimal digits are
    ["0"] .. ["9"] and [str.isspace] holds for the code points listed in
    [isspace]; whitespace and decimal digits outside ASCII are not
    recognised by the model. *)
(* ================================================================== *)

Module PyStr.

(** [str.isspace] on one ASCII character (code points 9-13 and 28-32). *)
Definition isspace (c : ascii) : bool :=
  match c with
  | "009" | "010" | "011" | "012" | "013"
  | "028" | "029" | "030" | "031" | " " => true
  | _ => false
  end%char.

Fixpoint lstrip (s : string) : string :=
  match s with
  | String c s' => if isspace c then lstrip s' else s
  | EmptyString => EmptyString
  end.

Fixpoint rstrip (s : string) : string :=
  match s with
  | EmptyString => EmptyString
  | String c s' =>
      match rstrip s' with
      | EmptyString => if isspace c then EmptyString else String c EmptyString
      | r => String c r
      end
  end.

(** [s.strip()] on ASCII text: the blanks removed at both ends are the
    ASCII ones of [isspace]. *)
Definition strip (s : string) : string := rstrip (lstrip s).

(** [s.isascii()]: every character has a code point below 128.  The
    methods of this module are those of [str] on such text; on other
    text [str.strip] also removes blanks and [int] also reads digits that
    are not ASCII, so a statement that rests on what [strip] keeps or on
    what [int] rejects is made of ASCII text only. *)
Definition is_ascii (s : string) : bool :=
  forallb (fun c => (N_of_ascii c <? 128)%N) (list_ascii_of_string s).

(** [s.split(sep)] for a one-character separator: every occurrence of
    [sep] ends a field, so the result is never empty. *)
Fixpoint split (sep : ascii) (s : string) : list string :=
  match s with
  | EmptyString => [EmptyString]
  | String c s' =>
      if Ascii.eqb c sep then EmptyString :: split sep s'
      else match split sep s' with
           | t :: ts => String c t :: ts
           | [] => [String c EmptyString]
           end
  end.

(** [sep.join(parts)] *)
Fixpoint join (sep : string) (parts : list string) : string :=
  match parts with
  | [] => EmptyString
  | [p] => p
  | p :: ps => p +:+ sep +:+ join sep ps
  end.

(** [s * n] *)
Fixpoint repeat_str (s : string) (n : nat) : string :=
  match n with
  | O => EmptyString
  | S n' => s +:+ repeat_str s n'
  end.

(** [f"{i:>2}"] for a non-negative integer: decimal, right-aligned in a
    field of width two. *)
Definition fmt_right2 (n : nat) : string :=
  let d := pretty n in
  if (String.length d <? 2)%nat then " " +:+ d else d.

(** The value of an ASCII decimal digit (code points 48 to 57). *)
Definition digit_value (c : ascii) : option Z :=
  let code := Z.of_N (N_of_ascii c) in
  if (48 <=? code) && (code <=? 57) then Some (code - 48) else None.

(** The digit scan of [int(str)] in base ten: digits, with single
    underscores allowed between them.  Returns the value and the number
    of digit characters. *)
Fixpoint scan_digits (s : string) (prev_underscore : bool)
         (acc : Z) (ndigits : nat) : option (Z * nat) :=
  match s with
  | EmptyString => if prev_underscore then None else Some (acc, ndigits)
  | String c s' =>
      if Ascii.eqb c "_" then
        if prev_underscore then None else scan_digits s' true acc ndigits
      else
        match digit_value c with
        | Some d => scan_digits s' false (10 * acc + d) (S ndigits)
        | None => None
        end
  end.

(** [int(s)] on ASCII text: surrounding whitespace is ignored, one
    optional sign, then the digit scan over the ASCII digits.  [None]
    stands for [ValueError].  [max_str_digits]
    is the interpreter's limit on the number of digits of a converted
    string ([sys.get_int_max_str_digits()], 4300 by default, 0 for no
    limit). *)
Definition int (max_str_digits : nat) (s : string) : option Z :=
  let s := strip s in
  let '(neg, body) :=
    match s with
    | String "+" r => (false, r)
    | String "-" r => (true, r)
    | _ => (false, s)
    end in
  match body with
  | EmptyString => None
  | String "_" _ => None
  | _ =>
      match scan_digits body false 0 0 with
      | Some (v, n) =>
          if ((0 <? max_str_digits) && (max_str_digits <? n))%nat then None
          else Some (if neg then - v else v)
      | None => None
      end
  end.

End PyStr.


(** The line-feed character and the one-character string ["\n"]. *)
Definition LF : ascii := "010"%char.
Definition CR : ascii := "013"%char.
Definition nl : string := String LF EmptyString.

(* ================================================================== *)
(** * Text files, the clock, dictionaries and data frames *)
(* ================================================================== *)

Module TextFile.


(** [f.readlines()] on a file opened with [open(path, 'r')]: universal
    newlines, so ["\n"], ["\r"] and ["\r\n"] each end a line and are
    each read back as ["\n"]; a last line without terminator is
    returned as it is. *)
Fixpoint readlines (s : string) : list string :=
  match s with
  | EmptyString => []
  | String c s' =>
      if Ascii.eqb c LF then nl :: readlines s'
      else if Ascii.eqb c CR then
        match s' with
        | String c' s'' =>
            if Ascii.eqb c' LF then nl :: readlines s'' else nl :: readlines s'
        | EmptyString => [nl]
        end
      else
        match readlines s' with
        | l :: ls => String c l :: ls
        | [] => [String c EmptyString]
        end
  end.

(** [f.write(line)] on a file opened with [open(path, 'a')]: the text
    goes after the present content; a missing file is created.  (POSIX
    line endings: ["\n"] is written as it is.) *)
Definition append (path line : string) (fs : gmap string string)
  : gmap string string :=
  <[path := default EmptyString (fs !! path) +:+ line]> fs.

End TextFile.

Module DateTime.

(** The fields of a [datetime] the log line shows. *)
Record t := mk {
  year : nat; month : nat; day : nat;
  hour : nat; minute : nat; second : nat
}.

Definition digit_char (d : nat) : ascii :=
  match d with
  | 0 => "0" | 1 => "1" | 2 => "2" | 3 => "3" | 4 => "4"
  | 5 => "5" | 6 => "6" | 7 => "7" | 8 => "8" | _ => "9"
  end%nat%char.

(** [%m], [%d], [%H], [%M], [%S]: two digits, zero padded. *)
Definition pad2 (n : nat) (rest : string) : string :=
  String (digit_char (n / 10 mod 10)) (String (digit_char (n mod 10)) rest).

(** [%Y] for a four-digit year. *)
Definition pad4 (n : nat) (rest : string) : string :=
  String (digit_char (n / 1000 mod 10))
    (String (digit_char (n / 100 mod 10)) (pad2 n rest)).

(** [dt.strftime("%Y-%m-%d %H:%M:%S")] *)
Definition strftime (dt : t) : string :=
  pad4 (year dt) (String "-" (pad2 (month dt) (String "-" (pad2 (day dt)
    (String " " (pad2 (hour dt) (String ":" (pad2 (minute dt)
      (String ":" (pad2 (second dt) EmptyString)))))))))).

End DateTime.

Module Dict.

(** A Python [dict] with string keys: its items in insertion order,
    one per key. *)
Definition t (V : Type) : Type := list (string * V).

(** [d[k] = v]: an existing key keeps its position and gets the new
    value; a new key goes to the end. *)
Fixpoint set {V} (k : string) (v : V) (d : t V) : t V :=
  match d with
  | [] => [(k, v)]
  | (k', v') :: d' =>
      if String.eqb k' k then (k', v) :: d' else (k', v') :: set k v d'
  end.

Definition keys {V} (d : t V) : list string := map fst d.
Definition items {V} (d : t V) : list (string * V) := d.

End Dict.

(** The exceptions the program can meet. *)
Inductive exn : Type :=
| FileNotFoundError
| ValueError
| IndexError
| KeyError
| EOFError
| TypeError
| AttributeError
| NotFittedError
| LibraryError (name : string).

(** [l[i]] on a Python list: negative indices count from the end;
    [None] stands for [IndexError]. *)
Definition py_getitem {A} (l : list A) (i : Z) : option A :=
  if i <? 0 then
    if i + Z.of_nat (length l) <? 0 then None
    else l !! Z.to_nat (i + Z.of_nat (length l))
  else l !! Z.to_nat i.

Module Frame.
Section WithNumber.
Context {number : Type}.

(** The values of a column: of a numeric dtype, or anything else. *)
Inductive cells : Type :=
| Numbers (vs : list number)
| Objects (vs : list string).

Record column := mkcol { name : string; values : cells }.

(** A [DataFrame]: its row count and its columns in order. *)
Record t := mk { nrows : nat; columns : list column }.

Definition is_number (c : column) : bool :=
  match values c with Numbers _ => true | Objects _ => false end.

(** [df.columns] *)
Definition column_names (d : t) : list string := map name (columns d).

(** [df.select_dtypes(include='number').columns] *)
Definition number_column_names (d : t) : list string :=
  map name (filter (fun c => is_number c = true) (columns d)).

(** [df[key]] for one column label; [None] stands for [KeyError]. *)
Definition getitem (d : t) (key : string) : option column :=
  List.find (fun c => String.eqb (name c) key) (columns d).

(** [df[keys]] for a list of labels, in the order of the list. *)
Definition select (d : t) (keys : list string) : option t :=
  cols ← mapM (getitem d) keys; Some (mk (nrows d) cols).

(** [pd.DataFrame([row])] for one dict of numbers: one row, one
    column per key, in the dict's order. *)
Definition of_row (row : Dict.t number) : t :=
  mk 1 (map (fun kv => mkcol (fst kv) (Numbers [snd kv])) (Dict.items row)).

End WithNumber.
Arguments cells : clear implicits.
Arguments column : clear implicits.
Arguments t : clear implicits.
End Frame.

(* ================================================================== *)
(** * What the program imports

    Floating-point numbers and the library calls of [model.py] are not
    part of the repository; the embedding takes them as an interface.
    A call that can raise returns [inl] of the exception. *)
(* ================================================================== *)

Class Externals : Type := {
  (** Python's [float] *)
  float : Type;
  (** a fitted [LinearRegression] *)
  Regressor : Type;
  (** [sys.get_int_max_str_digits()] *)
  max_str_digits : nat;
  (** [float(s)]; [None] stands for [ValueError] *)
  float_of_str : string -> option float;
  (** [f"{v}"] *)
  str_of_float : float -> string;
  (** [f"{v:,.2f}"] *)
  fmt_comma_2f : float -> string;
  (** [f"{v:.4f}"] *)
  fmt_4f : float -> string;
  (** [f"{names}"] for a list of strings *)
  repr_str_list : list string -> string;
  (** the literal [0.2] *)
  float_0_2 : float;
  (** [pd.read_csv] on the text of an existing file *)
  parse_csv : string -> exn + Frame.t float;
  (** [df.head().to_string(index=False)] *)
  head_to_string : Frame.t float -> string;
  (** [train_test_split(X, y, test_size=.., random_state=..)], where
      [random_state] is an integer seed or [None]; the last argument is
      the state of numpy's global random generator, from which the rows
      are shuffled when no seed is given *)
  train_test_split :
    Frame.t float -> Frame.column float -> float -> option Z -> nat ->
    exn + (Frame.t float * Frame.t float * Frame.column float * Frame.column float);
  (** scikit-learn's contract for an integer seed: the split is then the
      same whatever the state of the global generator *)
  train_test_split_seeded :
    forall X y test_size seed g g',
      train_test_split X y test_size (Some seed) g
      = train_test_split X y test_size (Some seed) g';
  (** [LinearRegression().fit(X, y)] *)
  fit : Frame.t float -> Frame.column float -> exn + Regressor;
  (** [model.predict(X)] on a fitted model *)
  predict : Regressor -> Frame.t float -> exn + list float;
  (** [model.predict(X')] on the estimator that [fit(X, y)] has left
      when it raised *)
  predict_halted :
    Frame.t float -> Frame.column float -> Frame.t float -> exn + list float;
  (** [r2_score(y_true, y_pred)] *)
  r2_score : Frame.column float -> list float -> exn + float
}.

Section Program.
Context `{Ext : Externals}.

(* ---------------------------------------------------------------- *)
(** ** State *)

(** [self.model]: [LinearRegression()] before [fit], after a [fit] that
    returned, and after a call [fit(X, y)] that raised: [fit] works on
    the object itself, and what it has set by the time it raises stays
    on it. *)
Inductive estimator : Type :=
| Unfitted
| Fitted (r : Regressor)
| Halted (X : Frame.t float) (y : Frame.column float).

(** The attributes of a [HousePriceModel] object. *)
Record HousePriceModel : Type := mkHPM {
  csv_path : string;
  data_file : string;
  df : option (Frame.t float);
  model : option estimator;
  features : list string;
  r2 : option float;
  is_trained : bool
}.

(** The world outside the object: the files by path, the lines still to
    come on standard input, what was written to standard output, the
    clock readings to come, how often [pd.read_csv] was called, and the
    state of numpy's global random generator. *)
Record Env : Type := mkEnv {
  files : gmap string string;
  stdin : list string;
  stdout : list string;
  clock : nat -> DateTime.t;
  clock_reads : nat;
  csv_reads : nat;
  np_random : nat
}.

Record World : Type := mkWorld { self : HousePriceModel; env : Env }.

Definition set_df (v : option (Frame.t float)) (w : World) : World :=
  let s := self w in
  mkWorld (mkHPM (csv_path s) (data_file s) v (model s) (features s) (r2 s)
             (is_trained s)) (env w).
Definition set_model (v : option estimator) (w : World) : World :=
  let s := self w in
  mkWorld (mkHPM (csv_path s) (data_file s) (df s) v (features s) (r2 s)
             (is_trained s)) (env w).
Definition set_features (v : list string) (w : World) : World :=
  let s := self w in
  mkWorld (mkHPM (csv_path s) (data_file s) (df s) (model s) v (r2 s)
             (is_trained s)) (env w).
Definition set_r2 (v : option float) (w : World) : World :=
  let s := self w in
  mkWorld (mkHPM (csv_path s) (data_file s) (df s) (model s) (features s) v
             (is_trained s)) (env w).
Definition set_is_trained (v : bool) (w : World) : World :=
  let s := self w in
  mkWorld (mkHPM (csv_path s) (data_file s) (df s) (model s) (features s)
             (r2 s) v) (env w).

Definition set_files (v : gmap string string) (w : World) : World :=
  let e := env w in
  mkWorld (self w) (mkEnv v (stdin e) (stdout e) (clock e) (clock_reads e)
                      (csv_reads e) (np_random e)).
Definition set_stdin (v : list string) (w : World) : World :=
  let e := env w in
  mkWorld (self w) (mkEnv (files e) v (stdout e) (clock e) (clock_reads e)
                      (csv_reads e) (np_random e)).
Definition set_stdout (v : list string) (w : World) : World :=
  let e := env w in
  mkWorld (self w) (mkEnv (files e) (stdin e) v (clock e) (clock_reads e)
                      (csv_reads e) (np_random e)).
Definition set_clock_reads (v : nat) (w : World) : World :=
  let e := env w in
  mkWorld (self w) (mkEnv (files e) (stdin e) (stdout e) (clock e) v
                      (csv_reads e) (np_random e)).
Definition set_csv_reads (v : nat) (w : World) : World :=
  let e := env w in
  mkWorld (self w) (mkEnv (files e) (stdin e) (stdout e) (clock e)
                      (clock_reads e) v (np_random e)).

(* ---------------------------------------------------------------- *)
(** ** The monad: state and exceptions *)

(** A run returns a value, or raises, in either case leaving a world
    behind; [OutOfFuel] is the outcome of a bounded loop that has used
    up its bound. *)
Inductive Result (A : Type) : Type :=
| Ok (a : A) (w : World)
| Raise (e : exn) (w : World)
| OutOfFuel.
Arguments Ok {A} a w.
Arguments Raise {A} e w.
Arguments OutOfFuel {A}.

Definition M (A : Type) : Type := World -> Result A.

Definition ret {A} (a : A) : M A := fun w => Ok a w.
Definition raise {A} (e : exn) : M A := fun w => Raise e w.
Definition bind {A B} (m : M A) (k : A -> M B) : M B :=
  fun w => match m w with
           | Ok a w' => k a w'
           | Raise e w' => Raise e w'
           | OutOfFuel => OutOfFuel
           end.
Definition get : M World := fun w => Ok w w.
Definition modify (f : World -> World) : M unit := fun w => Ok tt (f w).

(** A library call: its exception, if any, is raised here. *)
Definition call {A} (r : exn + A) : M A :=
  match r with inl e => raise e | inr a => ret a end.

End Program.

Arguments Ok {Ext A} a w.
Arguments Raise {Ext A} e w.
Arguments OutOfFuel {Ext A}.

Declare Scope py_scope.
Delimit Scope py_scope with py.
Notation "x <- c ;; k" := (bind c (fun x => k))
  (at level 100, c at next level, k at level 200, right associativity) : py_scope.
Notation "c ;;; k" := (bind c (fun _ => k))
  (at level 100, k at level 200, right associativity) : py_scope.

(* ================================================================== *)
(** * The program *)
(* ================================================================== *)

Section Operations.
Context `{Ext : Externals}.
Local Open Scope py_scope.

(* ---------------------------------------------------------------- *)
(** ** Console, files, clock *)

(** [print(s)] *)
Definition print (s : string) : M unit :=
  modify (fun w => set_stdout (stdout (env w) ++ [s +:+ nl]) w).

(** [input(prompt)]: the prompt is written, one line is taken from
    standard input; at end of input [EOFError] is raised. *)
Definition input (prompt : string) : M string :=
  fun w =>
    let w := set_stdout (stdout (env w) ++ [prompt]) w in
    match stdin (env w) with
    | [] => Raise EOFError w
    | l :: rest => Ok l (set_stdin rest w)
    end.

(** [pd.read_csv(path)] *)
Definition pd_read_csv (path : string) : M (Frame.t float) :=
  fun w =>
    let w := set_csv_reads (S (csv_reads (env w))) w in
    match files (env w) !! path with
    | None => Raise FileNotFoundError w
    | Some text => call (parse_csv text) w
    end.

(** [datetime.now()] *)
Definition datetime_now : M DateTime.t :=
  fun w =>
    let n := clock_reads (env w) in
    Ok (clock (env w) n) (set_clock_reads (S n) w).

(** [with open(path, 'a') as f: f.write(text)] *)
Definition append_file (path text : string) : M unit :=
  modify (fun w => set_files (TextFile.append path text (files (env w))) w).

(** [with open(path, 'r') as f: lines = f.readlines()].  The files of
    the model hold text, what is on disk as it decodes; a file that does
    not decode, on which [readlines] raises [UnicodeDecodeError], has no
    counterpart here, and a statement about reading a log that is already
    there takes it to be ASCII text. *)
Definition read_file_lines (path : string) : M (list string) :=
  fun w =>
    match files (env w) !! path with
    | None => Raise FileNotFoundError w
    | Some text => Ok (TextFile.readlines text) w
    end.

(* ---------------------------------------------------------------- *)
(** ** Control structures *)

(** [for x in l: body(x)] *)
Fixpoint for_each {A} (l : list A) (body : A -> M unit) : M unit :=
  match l with
  | [] => ret tt
  | x :: l' => body x ;;; for_each l' body
  end.

(** A list comprehension whose element expression can raise. *)
Fixpoint comprehension {A B} (f : A -> M B) (l : list A) : M (list B) :=
  match l with
  | [] => ret []
  | x :: l' => y <- f x ;; ys <- comprehension f l' ;; ret (y :: ys)
  end.

(** [enumerate(l, start)] *)
Fixpoint enumerate {A} (start : nat) (l : list A) : list (nat * A) :=
  match l with
  | [] => []
  | x :: l' => (start, x) :: enumerate (S start) l'
  end.

(** [try: body except (the exceptions of handles): handler] *)
Definition try_except {A} (body : M A) (handles : exn -> bool)
           (handler : M A) : M A :=
  fun w => match body w with
           | Raise e w' => if handles e then handler w' else Raise e w'
           | r => r
           end.

(** [while True: body], where the body says [Some a] when it breaks
    out of the loop.  [fuel] bounds the number of iterations. *)
Fixpoint while_true {A} (fuel : nat) (body : M (option A)) : M A :=
  match fuel with
  | O => fun _ => OutOfFuel
  | S n => r <- body ;;
           match r with
           | Some a => ret a
           | None => while_true n body
           end
  end.

(** Every iteration of the two loops of the program starts by reading
    a line, and reading past the end raises: one more iteration than
    there are lines is all a loop can make. *)
Definition loop_bound (w : World) : nat := S (length (stdin (env w))).

(* ---------------------------------------------------------------- *)
(** ** class HousePriceModel *)

Definition DEFAULT_FEATURES : list string :=
  ["bedrooms"; "bathrooms"; "sqft_living"; "sqft_lot"; "floors";
   "waterfront"; "view"; "condition"; "grade"; "yr_built"].

(** [HousePriceModel()] *)
Definition init (csv data : string) : HousePriceModel :=
  mkHPM csv data None None DEFAULT_FEATURES None false.

Definition rule : string := PyStr.repeat_str "=" 60.
Definition dashes : string := PyStr.repeat_str "-" 60.

(** [self.df] where a data frame is needed. *)
Definition the_df : M (Frame.t float) :=
  w <- get ;;
  match df (self w) with
  | Some d => ret d
  | None => raise AttributeError
  end.

Definition load_dataset : M (Frame.t float) :=
  w <- get ;;
  d <- pd_read_csv (csv_path (self w)) ;;
  modify (set_df (Some d)) ;;;
  ret d.

(** [if self.df is None: self.load_dataset()] *)
Definition load_if_none : M unit :=
  w <- get ;;
  match df (self w) with
  | None => _ <- load_dataset ;; ret tt
  | Some _ => ret tt
  end.

Definition display_dataset_info : M unit :=
  load_if_none ;;;
  d <- the_df ;;
  print (nl +:+ rule) ;;;
  print "            KC HOUSE DATASET INFORMATION" ;;;
  print rule ;;;
  print ("  Rows    : " +:+ pretty (Frame.nrows d)) ;;;
  print ("  Columns : " +:+ pretty (length (Frame.columns d))) ;;;
  print dashes ;;;
  print "  Column Names:" ;;;
  for_each (enumerate 1 (Frame.column_names d))
    (fun ic => print ("    " +:+ PyStr.fmt_right2 (fst ic) +:+ ". " +:+ snd ic)) ;;;
  print dashes ;;;
  print "  First 5 rows:" ;;;
  print (head_to_string d) ;;;
  print rule.

Definition str_in (x : string) (l : list string) : bool :=
  existsb (String.eqb x) l.

(** The list [get_numeric_columns] returns for the data frame [d]. *)
Definition numeric_columns (d : Frame.t float) : list string :=
  let exclude := ["id"; "date"; "price"] in
  List.filter (fun c => negb (str_in c exclude)) (Frame.number_column_names d).

Definition get_numeric_columns : M (list string) :=
  load_if_none ;;;
  d <- the_df ;;
  ret (numeric_columns d).

(** [1 <= i <= n] *)
Definition in_range (n : nat) (i : Z) : bool := (1 <=? i) && (i <=? Z.of_nat n).

(** [int(x.strip())]; [None] stands for [ValueError]. *)
Definition parse_index (x : string) : option Z :=
  PyStr.int max_str_digits (PyStr.strip x).

Definition select_features : M unit :=
  available <- get_numeric_columns ;;
  print (nl +:+ rule) ;;;
  print "           FEATURE SELECTION" ;;;
  print rule ;;;
  print "  Available numeric columns:" ;;;
  for_each (enumerate 1 available)
    (fun ic =>
       let marker := if str_in (snd ic) DEFAULT_FEATURES then " *" else "" in
       print ("    " +:+ PyStr.fmt_right2 (fst ic) +:+ ". " +:+ snd ic +:+ marker)) ;;;
  print ("  (" +:+ "* = default feature)") ;;;
  print dashes ;;;
  print "  Enter column numbers separated by commas" ;;;
  print "  (or press Enter to use defaults):" ;;;
  raw <- input "  >> " ;;
  let user_input := PyStr.strip raw in
  (if String.eqb user_input "" then
     modify (set_features DEFAULT_FEATURES) ;;;
     w <- get ;;
     print (nl +:+ "  Using default features ("
              +:+ pretty (length (features (self w))) +:+ " selected).")
   else
     try_except
       (indices <- comprehension
                     (fun x => match parse_index x with
                               | Some i => ret i
                               | None => raise ValueError
                               end)
                     (PyStr.split "," user_input) ;;
        selected <- comprehension
                      (fun i => match py_getitem available (i - 1) with
                                | Some c => ret c
                                | None => raise IndexError
                                end)
                      (List.filter (in_range (length available)) indices) ;;
        match selected with
        | [] =>
            print "  No valid columns selected — falling back to defaults." ;;;
            modify (set_features DEFAULT_FEATURES)
        | _ =>
            modify (set_features selected) ;;;
            w <- get ;;
            print (nl +:+ "  Selected features: "
                     +:+ repr_str_list (features (self w)))
        end)
       (fun e => match e with ValueError | IndexError => true | _ => false end)
       (print "  Invalid input — using default features." ;;;
        modify (set_features DEFAULT_FEATURES))) ;;;
  modify (set_is_trained false) ;;;
  print rule.

(** The feature list [select_features] leaves behind, as a function of
    the available columns and of the stripped answer: the [if] / [try]
    of the method without its printing. *)
Definition selection (available : list string) (user_input : string)
  : list string :=
  if String.eqb user_input "" then DEFAULT_FEATURES
  else
    match mapM parse_index (PyStr.split "," user_input) with
    | None => DEFAULT_FEATURES
    | Some indices =>
        match mapM (fun i => py_getitem available (i - 1))
                   (List.filter (in_range (length available)) indices) with
        | None | Some [] => DEFAULT_FEATURES
        | Some selected => selected
        end
    end.

(** The data frame the session works on: the cached one, or the one
    the file at [csv_path] parses to when none is cached yet. *)
Definition dataset (w : World) (d : Frame.t float) : Prop :=
  df (self w) = Some d \/
  (df (self w) = None /\
   exists text, files (env w) !! csv_path (self w) = Some text /\
                parse_csv text = inr d).

Definition display_r_squared : M unit :=
  w <- get ;;
  print (nl +:+ rule) ;;;
  print "           MODEL EVALUATION" ;;;
  print rule ;;;
  print ("  Features used : " +:+ repr_str_list (features (self w))) ;;;
  score <- match r2 (self w) with
           | Some v => ret v
           | None => raise TypeError
           end ;;
  print ("  R-squared     : " +:+ fmt_4f score) ;;;
  print rule.

(** The first half of [train_model]: the data, and its split. *)
Definition train_split (test_size : float) (random_state : Z)
  : M (Frame.t float * Frame.t float * Frame.column float * Frame.column float) :=
  load_if_none ;;;
  d <- the_df ;;
  w <- get ;;
  X <- match Frame.select d (features (self w)) with
       | Some X => ret X
       | None => raise KeyError
       end ;;
  y <- match Frame.getitem d "price" with
       | Some y => ret y
       | None => raise KeyError
       end ;;
  call (train_test_split X y test_size (Some random_state)
          (np_random (env w))).

(** [self.model.predict(X)] *)
Definition model_predict (X : Frame.t float) : M (list float) :=
  w <- get ;;
  match model (self w) with
  | None => raise AttributeError
  | Some Unfitted => raise NotFittedError
  | Some (Fitted r) => call (predict r X)
  | Some (Halted X0 y0) => call (predict_halted X0 y0 X)
  end.

Definition train_model (test_size : float) (random_state : Z) : M unit :=
  parts <- train_split test_size random_state ;;
  let '(X_train, X_test, y_train, y_test) := parts in
  modify (set_model (Some Unfitted)) ;;;
  r <- match fit X_train y_train with
       | inl e => modify (set_model (Some (Halted X_train y_train))) ;;; raise e
       | inr r => ret r
       end ;;
  modify (set_model (Some (Fitted r))) ;;;
  y_pred <- model_predict X_test ;;
  score <- call (r2_score y_test y_pred) ;;
  modify (set_r2 (Some score)) ;;;
  modify (set_is_trained true) ;;;
  display_r_squared.

(** [train_model()] with its default arguments. *)
Definition train_model_default : M unit := train_model float_0_2 42.

(** The text of one log line. *)
Definition log_line (timestamp : string) (input_values : Dict.t float)
           (predicted_price : float) : string :=
  let features_str :=
    PyStr.join ", "
      (map (fun kv => fst kv +:+ "=" +:+ str_of_float (snd kv))
           (Dict.items input_values)) in
  timestamp +:+ " | " +:+ features_str +:+ " | Predicted: $"
    +:+ fmt_comma_2f predicted_price +:+ nl.

Definition save_prediction (input_values : Dict.t float)
           (predicted_price : float) : M unit :=
  now <- datetime_now ;;
  let timestamp := DateTime.strftime now in
  let line := log_line timestamp input_values predicted_price in
  w <- get ;;
  append_file (data_file (self w)) line ;;;
  print ("  [✓] Prediction saved to " +:+ data_file (self w)).

(** One turn of the inner loop of [predict_price]: ask, convert, store
    under the feature's name and break; or complain and go round. *)
Definition ask_turn (feat : string) (values : Dict.t float)
  : M (option (Dict.t float)) :=
  try_except
    (s <- input ("    " +:+ feat +:+ ": ") ;;
     val <- match float_of_str s with
            | Some v => ret v
            | None => raise ValueError
            end ;;
     ret (Some (Dict.set feat val values)))
    (fun e => match e with ValueError => true | _ => false end)
    (print "    Please enter a valid number." ;;; ret None).

(** The inner loop of [predict_price] for one feature: ask until the
    answer converts to a float. *)
Definition ask_value (feat : string) (values : Dict.t float)
  : M (Dict.t float) :=
  w <- get ;;
  while_true (loop_bound w) (ask_turn feat values).

(** [values = {}; for feat in self.features: ...] *)
Fixpoint ask_values (feats : list string) (values : Dict.t float)
  : M (Dict.t float) :=
  match feats with
  | [] => ret values
  | feat :: feats' =>
      values' <- ask_value feat values ;;
      ask_values feats' values'
  end.

Definition predict_price : M (option float) :=
  w <- get ;;
  if negb (is_trained (self w)) then
    print (nl +:+ "  [!] Model is not trained yet. Please train first.") ;;;
    ret None
  else
    print (nl +:+ rule) ;;;
    print "           PREDICT HOUSE PRICE" ;;;
    print rule ;;;
    print ("  Enter values for each feature:" +:+ nl) ;;;
    values <- ask_values (features (self w)) [] ;;
    let input_df := Frame.of_row values in
    ys <- model_predict input_df ;;
    predicted <- match py_getitem ys 0 with
                 | Some p => ret p
                 | None => raise IndexError
                 end ;;
    print dashes ;;;
    print ("  Predicted House Price: $" +:+ fmt_comma_2f predicted) ;;;
    print rule ;;;
    save_prediction values predicted ;;;
    ret (Some predicted).

Definition load_predictions : M unit :=
  print (nl +:+ rule) ;;;
  print "           PREDICTION HISTORY" ;;;
  print rule ;;;
  try_except
    (w <- get ;;
     lines <- read_file_lines (data_file (self w)) ;;
     match lines with
     | [] => print "  No predictions recorded yet."
     | _ =>
         for_each (enumerate 1 lines)
           (fun il => print ("  " +:+ pretty (fst il) +:+ ". "
                               +:+ PyStr.strip (snd il)))
     end)
    (fun e => match e with FileNotFoundError => true | _ => false end)
    (print "  No predictions recorded yet.") ;;;
  print rule.

(* ---------------------------------------------------------------- *)
(** ** main.py *)

Definition display_menu : M unit :=
  print (nl +:+ rule) ;;;
  print "       HOUSE PRICE PREDICTION SYSTEM" ;;;
  print "         (KC House Dataset — Linear Regression)" ;;;
  print rule ;;;
  print "  1. Load & Display Dataset Info" ;;;
  print "  2. Select Feature Columns" ;;;
  print "  3. Train Model & Display R-squared Score" ;;;
  print "  4. Predict House Price for New Input" ;;;
  print "  5. View Prediction History" ;;;
  print "  6. Exit" ;;;
  print rule.

(** The [if] / [elif] chain of the menu loop on the stripped answer;
    [Some tt] is the [break] of choice 6. *)
Definition menu_action (choice : string) : M (option unit) :=
  if String.eqb choice "1" then display_dataset_info ;;; ret None
  else if String.eqb choice "2" then select_features ;;; ret None
  else if String.eqb choice "3" then train_model_default ;;; ret None
  else if String.eqb choice "4" then _ <- predict_price ;; ret None
  else if String.eqb choice "5" then load_predictions ;;; ret None
  else if String.eqb choice "6" then
    print (nl +:+ "  Thank you for using House Price Prediction System!") ;;;
    print ("  Goodbye!" +:+ nl) ;;;
    ret (Some tt)
  else
    print (nl +:+ "  [!] Invalid choice. Please enter a number between 1 and 6.") ;;;
    ret None.

(** One turn of the menu loop. *)
Definition menu_turn : M (option unit) :=
  display_menu ;;;
  raw <- input "  Enter your choice (1-6): " ;;
  menu_action (PyStr.strip raw).

(** The loop of [main], on the model object it has made. *)
Definition menu_loop : M unit :=
  w <- get ;;
  while_true (loop_bound w) menu_turn.

(** [main()], in an environment [e]. *)
Definition main (e : Env) : Result unit :=
  menu_loop (mkWorld (init "kc_house_data.csv" "data.txt") e).

End Operations.

(* ================================================================== *)
(** * Vocabulary of the statements *)
(* ================================================================== *)

Section Vocabulary.
Context `{Ext : Externals}.
Local Open Scope py_scope.

(** [wp m Q w]: from [w], [m] returns, and [Q] holds of the value and
    of the world it leaves. *)
Definition wp {A} (m : M A) (Q : A -> World -> Prop) (w : World) : Prop :=
  match m w with
  | Ok a w' => Q a w'
  | _ => False
  end.




(** The lines [load_predictions] has to show: those of the log file,
    none when there is no file. *)
Definition history (w : World) : list string :=
  match files (env w) !! data_file (self w) with
  | Some text => TextFile.readlines text
  | None => []
  end.

(** What [load_predictions] prints between its heading and its closing
    rule for the lines [lines] of the log. *)
Definition shown (lines : list string) : list string :=
  match lines with
  | [] => ["  No predictions recorded yet." +:+ nl]
  | _ =>
      map (fun il => ("  " +:+ pretty (fst il) +:+ ". " +:+ PyStr.strip (snd il)) +:+ nl)
          (enumerate 1 lines)
  end.

(** The text of the log file, empty when there is no file. *)
Definition log_text (w : World) : string :=
  default EmptyString (files (env w) !! data_file (self w)).

(** Saving a series of predictions, one call each. *)
Definition save_all (records : list (Dict.t float * float)) : M unit :=
  for_each records (fun r => save_prediction (fst r) (snd r)).

(** The first line that converts to a float, and the lines after it. *)
Fixpoint first_float (lines : list string) : option (float * list string) :=
  match lines with
  | [] => None
  | l :: rest =>
      match float_of_str l with
      | Some v => Some (v, rest)
      | None => first_float rest
      end
  end.

(** What [ask_values] collects from the lines of standard input: for
    each feature in turn the first line that converts to a float, stored
    under the feature's name; [None] when the lines run out. *)
Fixpoint answers (feats : list string) (values : Dict.t float)
         (lines : list string) : option (Dict.t float * list string) :=
  match feats with
  | [] => Some (values, lines)
  | feat :: feats' =>
      match first_float lines with
      | Some (v, rest) => answers feats' (Dict.set feat v values) rest
      | None => None
      end
  end.

(** From [w] to [w'] only the console has moved. *)
Definition console_only (w w' : World) : Prop :=
  self w' = self w /\
  files (env w') = files (env w) /\
  clock (env w') = clock (env w) /\
  clock_reads (env w') = clock_reads (env w) /\
  csv_reads (env w') = csv_reads (env w).

(** The keys of the dict after [d[k] = ...] for each [k] of [feats] in
    turn, starting from the keys [ks]. *)
Fixpoint keys_after (feats ks : list string) : list string :=
  match feats with
  | [] => ks
  | k :: feats' =>
      keys_after feats' (if str_in k ks then ks else ks ++ [k])
  end.

(** What the library's [train_test_split] gives for [df[feats]],
    [df['price']], the test fraction and the integer seed, when the
    global generator is in state [g]. *)
Definition splitting_at (g : nat) (d : Frame.t float) (feats : list string)
           (test_size : float) (random_state : Z)
  : exn + (Frame.t float * Frame.t float * Frame.column float * Frame.column float) :=
  match Frame.select d feats with
  | None => inl KeyError
  | Some X =>
      match Frame.getitem d "price" with
      | None => inl KeyError
      | Some y => train_test_split X y test_size (Some random_state) g
      end
  end.

(** The split [train_split] hands back, as a function of the data
    frame, the feature list, the test fraction and the seed; by the
    library's contract for a seed the state of the generator does not
    matter, and it is read here at state 0. *)
Definition splitting (d : Frame.t float) (feats : list string)
           (test_size : float) (random_state : Z)
  : exn + (Frame.t float * Frame.t float * Frame.column float * Frame.column float) :=
  splitting_at 0 d feats test_size random_state.

(** The fitted model and the score [train_model] stores, as a function
    of the same four. *)
Definition training (d : Frame.t float) (feats : list string)
           (test_size : float) (random_state : Z) : exn + (Regressor * float) :=
  match splitting d feats test_size random_state with
  | inl e => inl e
  | inr (X_train, X_test, y_train, y_test) =>
      match fit X_train y_train with
      | inl e => inl e
      | inr r =>
          match predict r X_test with
          | inl e => inl e
          | inr y_pred =>
              match r2_score y_test y_pred with
              | inl e => inl e
              | inr score => inr (r, score)
              end
          end
      end
  end.

(** What a run did, without the world it left. *)
Definition outcome {A} (r : Result A) : option (exn + A) :=
  match r with
  | Ok a _ => Some (inr a)
  | Raise e _ => Some (inl e)
  | OutOfFuel => None
  end.

(** What a training run leaves in the session: the fitted model and
    its score, or the exception. *)
Definition trained_state (r : Result unit)
  : option (exn + (option estimator * option float * bool)) :=
  match r with
  | Ok _ w => Some (inr (model (self w), r2 (self w), is_trained (self w)))
  | Raise e _ => Some (inl e)
  | OutOfFuel => None
  end.

(** Loading the dataset in [w] fails with [e]: there is no file at
    [csv_path], or pandas rejects its text. *)
Definition load_failure (w : World) (e : exn) : Prop :=
  (files (env w) !! csv_path (self w) = None /\ e = FileNotFoundError) \/
  (exists text, files (env w) !! csv_path (self w) = Some text /\
                parse_csv text = inl e).

(** A run of [m] from [w] that ends without a call of [pd.read_csv]. *)
Definition reads_nothing {A} (m : M A) (w : World) : Prop :=
  match m w with
  | Ok _ w' | Raise _ w' => csv_reads (env w') = csv_reads (env w)
  | OutOfFuel => False
  end.

(** Progress of a session from [w] to [w'] along statements that
    return: no input line is given back, the data frame once cached
    stays cached, and the file is read only to fill an empty cache. *)
Definition steady (w w' : World) : Prop :=
  (length (stdin (env w')) <= length (stdin (env w)))%nat /\
  ((csv_reads (env w') = csv_reads (env w) /\
    (df (self w) <> None -> df (self w') <> None)) \/
   (df (self w) = None /\ df (self w') <> None /\
    csv_reads (env w') = S (csv_reads (env w)))).

(** From [w] to the world [w'] an exception leaves. *)
Definition aborted (w w' : World) : Prop :=
  (csv_reads (env w') <= S (csv_reads (env w)))%nat /\
  (df (self w) <> None -> csv_reads (env w') = csv_reads (env w)).

(** [m] never uses up a loop bound, and moves the session by [steady]
    when it returns, by [aborted] when it raises. *)
Definition sound {A} (m : M A) : Prop :=
  forall w, match m w with
            | Ok _ w' => steady w w'
            | Raise _ w' => aborted w w'
            | OutOfFuel => False
            end.

(** As [sound], and an exception too leaves a [steady] world. *)
Definition calm {A} (m : M A) : Prop :=
  forall w, match m w with
            | Ok _ w' | Raise _ w' => steady w w'
            | OutOfFuel => False
            end.

(* ---------------------------------------------------------------- *)
(** ** Vocabulary of the session properties *)

(** [m] raises [e] from [w], and [Q] holds of the world it leaves. *)
Definition wpx {A} (m : M A) (e : exn) (Q : World -> Prop) (w : World) : Prop :=
  match m w with
  | Raise e' w' => e' = e /\ Q w'
  | _ => False
  end.

(** Whenever [m] ends, by returning or by raising, the world it leaves is
    related to the one it started from by [R]. *)
Definition keeps (R : World -> World -> Prop) {A} (m : M A) : Prop :=
  forall w, match m w with
            | Ok _ w' | Raise _ w' => R w w'
            | OutOfFuel => True
            end.

(** A relation between worlds that allows any number of steps, and the
    steps of the console, of the clock and of the read counter. *)
Class Ambient (R : World -> World -> Prop) : Prop := {
  ambient_refl : forall w, R w w;
  ambient_trans : forall w1 w2 w3, R w1 w2 -> R w2 w3 -> R w1 w3;
  ambient_stdout : forall w out, R w (set_stdout out w);
  ambient_stdin :
    forall w l rest, stdin (env w) = l :: rest -> R w (set_stdin rest w);
  ambient_clock : forall w n, R w (set_clock_reads n w);
  ambient_csv_reads : forall w n, R w (set_csv_reads n w)
}.

(** The input left in [w'] is an end piece of the input of [w]. *)
Definition input_in_order (w w' : World) : Prop :=
  stdin (env w') `suffix_of` stdin (env w).

(** From [w] to [w'] no file but the log has changed, and the log has
    only grown at its end; the two paths are the same. *)
Definition log_only_grows (w w' : World) : Prop :=
  csv_path (self w') = csv_path (self w) /\
  data_file (self w') = data_file (self w) /\
  (forall path, path <> data_file (self w) ->
                files (env w') !! path = files (env w) !! path) /\
  exists added, log_text w' = log_text w +:+ added.

(** A data frame cached in [w] is the one cached in [w']. *)
Definition frame_kept (w w' : World) : Prop :=
  forall d, df (self w) = Some d -> df (self w') = Some d.

Definition orderly (w w' : World) : Prop :=
  input_in_order w w' /\ log_only_grows w w' /\ frame_kept w w'.

(** The feature list, the model, the score and the flag are the same in
    [w] and [w'], and a cached frame is kept. *)
Definition model_state_kept (w w' : World) : Prop :=
  features (self w') = features (self w) /\
  model (self w') = model (self w) /\
  r2 (self w') = r2 (self w) /\
  is_trained (self w') = is_trained (self w) /\
  frame_kept w w'.

(** The feature list is the same, and a cached frame is kept. *)
Definition features_kept (w w' : World) : Prop :=
  features (self w') = features (self w) /\ frame_kept w w'.

(** The state of a session between two menu actions: the feature list is
    not empty; it is the default list or made of numeric columns of the
    cached frame; and the flag is up only with a fitted model and a
    score. *)
Definition well_formed (w : World) : Prop :=
  features (self w) <> [] /\
  (features (self w) = DEFAULT_FEATURES \/
   exists d, df (self w) = Some d /\
             Forall (fun f => In f (numeric_columns d)) (features (self w))) /\
  (is_trained (self w) = true ->
   exists r score, model (self w) = Some (Fitted r) /\ r2 (self w) = Some score).

(** The worlds in which the menu is shown in a session started in [w0]:
    [w0], and the world after each turn that did not leave the loop. *)
Inductive at_menu (w0 : World) : World -> Prop :=
| at_menu_start : at_menu w0 w0
| at_menu_turn (w w' : World) :
    at_menu w0 w -> menu_turn w = Ok None w' -> at_menu w0 w'.

(** What [self.model.predict(X)] gives for the model [m] of the
    session: [AttributeError] on [None], [NotFittedError] on an estimator
    that was never fitted, and the library's answer on a fitted one and
    on one left by a [fit] that raised. *)
Definition model_answer (m : option estimator) (X : Frame.t float)
  : exn + list float :=
  match m with
  | None => inl AttributeError
  | Some Unfitted => inl NotFittedError
  | Some (Fitted r) => predict r X
  | Some (Halted X0 y0) => predict_halted X0 y0 X
  end.

(** The console output of one prompt of [ask_value] that got an answer
    that does not convert. *)
Definition refused_answer (feat : string) : list string :=
  ["    " +:+ feat +:+ ": "; "    Please enter a valid number." +:+ nl].

End Vocabulary.

(* ================================================================== *)
(** * A concrete environment for running the program

    Numbers are integers and the regression is a stand-in; the runs below
    that matter do not depend on what the stand-ins compute. *)
(* ================================================================== *)

Module Sample.

Definition num_col (name : string) (vs : list Z) : Frame.column Z :=
  Frame.mkcol name (Frame.Numbers vs).

(** Two rows under the header of the King County file. *)
Definition kc_frame : Frame.t Z :=
  Frame.mk 2
    [ num_col "id" [7129300520; 6414100192];
      Frame.mkcol "date" (Frame.Objects ["20141013T000000"; "20141209T000000"]);
      num_col "price" [221900; 538000];
      num_col "bedrooms" [3; 3];
      num_col "bathrooms" [1; 2];
      num_col "sqft_living" [1180; 2570];
      num_col "sqft_lot" [5650; 7242];
      num_col "floors" [1; 2];
      num_col "waterfront" [0; 0];
      num_col "view" [0; 0];
      num_col "condition" [3; 3];
      num_col "grade" [7; 7];
      num_col "sqft_above" [1180; 2170];
      num_col "sqft_basement" [0; 400];
      num_col "yr_built" [1955; 1951];
      num_col "yr_renovated" [0; 1991];
      num_col "zipcode" [98178; 98125];
      num_col "lat" [47; 47];
      num_col "long" [-122; -122];
      num_col "sqft_living15" [1340; 1690];
      num_col "sqft_lot15" [5650; 7639] ].

Definition quoted (s : string) : string := "'" +:+ s +:+ "'".

(** Decimal digits of a natural number, most significant first. *)
Fixpoint digits (fuel : nat) (n : N) (acc : string) : string :=
  match fuel with
  | O => acc
  | S fuel' =>
      let acc' := String (DateTime.digit_char (N.to_nat (n mod 10))) acc in
      if (n / 10 =? 0)%N then acc' else digits fuel' (n / 10)%N acc'
  end.

Definition decimal (z : Z) : string :=
  let n := Z.abs_N z in
  (if z <? 0 then "-" else "") +:+ digits (S (N.to_nat (N.log2 n))) n "".

(** A stand-in for the split: the rows are rotated by the seed, or by
    the state of the generator when there is no seed, and the first
    [ceil(n * test_size / 100)] of them are the test rows ([test_size]
    is read in hundredths here). *)
Definition rotate {A} (k : nat) (l : list A) : list A :=
  drop (k mod length l)%nat l ++ take (k mod length l)%nat l.

Definition on_rows (f : forall A, list A -> list A) (c : Frame.column Z)
  : Frame.column Z :=
  Frame.mkcol (Frame.name c)
    match Frame.values c with
    | Frame.Numbers vs => Frame.Numbers (f _ vs)
    | Frame.Objects vs => Frame.Objects (f _ vs)
    end.

Definition test_rows (n : nat) (test_size : Z) : nat :=
  Nat.min n (Z.to_nat ((Z.of_nat n * test_size + 99) / 100)).

Definition shuffle_split (X : Frame.t Z) (y : Frame.column Z) (test_size : Z)
           (random_state : option Z) (g : nat)
  : exn + (Frame.t Z * Frame.t Z * Frame.column Z * Frame.column Z) :=
  let k := match random_state with
           | Some seed => Z.to_nat (Z.abs seed)
           | None => g
           end in
  let t := test_rows (Frame.nrows X) test_size in
  let train := fun A (l : list A) => drop t (rotate k l) in
  let test := fun A (l : list A) => take t (rotate k l) in
  inr (Frame.mk (Frame.nrows X - t) (map (on_rows train) (Frame.columns X)),
       Frame.mk t (map (on_rows test) (Frame.columns X)),
       on_rows train y, on_rows test y).

#[export] Instance ext : Externals := {|
  float := Z;
  Regressor := unit;
  max_str_digits := 4300;
  float_of_str := PyStr.int 4300;
  str_of_float := fun v => decimal v +:+ ".0";
  fmt_comma_2f := fun v => decimal v +:+ ".00";
  fmt_4f := fun v => decimal v +:+ ".0000";
  repr_str_list := fun l => "[" +:+ PyStr.join ", " (map quoted l) +:+ "]";
  float_0_2 := 20;
  parse_csv := fun _ => inr kc_frame;
  head_to_string := fun _ => "";
  train_test_split := shuffle_split;
  train_test_split_seeded := fun _ _ _ _ _ _ => eq_refl;
  fit := fun _ _ => inr tt;
  predict := fun _ X => inr (repeat 0 (Frame.nrows X));
  predict_halted := fun _ _ _ => inl AttributeError;
  r2_score := fun _ _ => inr 1
|}.

(** One record of the log: the values entered and the price. *)
Definition record (items : list (string * Z)) (price : Z)
  : Dict.t (@float ext) * @float ext := (items, price).

Definition noon : DateTime.t := DateTime.mk 2024 3 9 12 0 5.

(** An environment: the files given, the lines given on standard
    input, an empty output and a clock standing at [noon]. *)
Definition env_of (fs : gmap string string) (lines : list string) : Env :=
  mkEnv fs lines [] (fun _ => noon) 0 0 0.

Definition csv_present : gmap string string :=
  {[ "kc_house_data.csv" := "id,date,price" ]}.

(** A fresh session, and one with the data frame already loaded. *)
Definition fresh (fs : gmap string string) (lines : list string) : World :=
  mkWorld (init "kc_house_data.csv" "data.txt") (env_of fs lines).

Definition loaded (fs : gmap string string) (lines : list string) : World :=
  set_df (Some kc_frame) (fresh fs lines).

(** A session after a successful training on [feats]. *)
Definition trained (feats : list string) (fs : gmap string string)
           (lines : list string) : World :=
  set_is_trained true
    (set_r2 (Some 1)
       (set_model (Some (Fitted tt))
          (set_features feats (loaded fs lines)))).

(** The same libraries with a [fit] that raises, and a session over
    them whose flag is up. *)
Definition unfit : Externals := {|
  float := Z;
  Regressor := unit;
  max_str_digits := 4300;
  float_of_str := PyStr.int 4300;
  str_of_float := fun v => decimal v +:+ ".0";
  fmt_comma_2f := fun v => decimal v +:+ ".00";
  fmt_4f := fun v => decimal v +:+ ".0000";
  repr_str_list := fun l => "[" +:+ PyStr.join ", " (map quoted l) +:+ "]";
  float_0_2 := 20;
  parse_csv := fun _ => inr kc_frame;
  head_to_string := fun _ => "";
  train_test_split := shuffle_split;
  train_test_split_seeded := fun _ _ _ _ _ _ => eq_refl;
  fit := fun _ _ => inl ValueError;
  predict := fun _ X => inr (repeat 0 (Frame.nrows X));
  predict_halted := fun _ _ _ => inl AttributeError;
  r2_score := fun _ _ => inr 1
|}.

Definition trained_unfit (feats : list string) (fs : gmap string string)
           (lines : list string) : @World unfit :=
  @mkWorld unfit
    (@mkHPM unfit "kc_house_data.csv" "data.txt" (Some kc_frame)
            (Some (@Fitted unfit tt)) feats (Some 1) true)
    (env_of fs lines).

(** The world [w] with numpy's global generator in state [g]. *)
Definition reseeded (g : nat) (w : World) : World :=
  let e := env w in
  mkWorld (self w)
    (mkEnv (files e) (stdin e) (stdout e) (clock e) (clock_reads e)
       (csv_reads e) g).

(** Ten answers, one for each default feature. *)
Definition ten_answers : list string :=
  ["1"; "2"; "3"; "4"; "5"; "6"; "7"; "8"; "9"; "10"].

Definition ten_values : Dict.t Z :=
  zip DEFAULT_FEATURES [1; 2; 3; 4; 5; 6; 7; 8; 9; 10].

End Sample.


(* ================================================================== *)
(** * Properties *)
(* ================================================================== *)

Section Properties.
Context `{Ext : Externals}.
Local Open Scope py_scope.

(* ---------------------------------------------------------------- *)
(** ** Running the monad *)

Lemma set_stdout_same (w : World) : set_stdout (stdout (env w)) w = w.
Proof. by destruct w as [s []]. Qed.

(** A loop that only prints adds its lines to the output. *)
Lemma for_each_print {A} (f : A -> string) (l : list A) (w : World) :
  for_each l (fun x => print (f x)) w
  = Ok tt (set_stdout (stdout (env w) ++ map (fun x => f x +:+ nl) l) w).
Proof.
  revert w; induction l as [|x l IH]; intros w; cbn.
  - by rewrite app_nil_r, set_stdout_same.
  - rewrite IH. cbn. by rewrite <- app_assoc.
Qed.

(** A comprehension over a partial function raises at the first
    element the function rejects, with the state untouched. *)
Lemma comprehension_option {A B} (f : A -> option B) (e : exn)
      (l : list A) (w : World) :
  comprehension
    (fun x => match f x with Some y => ret y | None => raise e end) l w
  = match mapM f l with
    | Some ys => Ok ys w
    | None => Raise e w
    end.
Proof.
  induction l as [|x l IH]; cbn; [done|].
  unfold bind. destruct (f x) as [y|]; cbn; [|done].
  rewrite IH. by destruct (mapM f l).
Qed.

Lemma wp_elim {A} (m : M A) Q w :
  wp m Q w -> exists a w', m w = Ok a w' /\ Q a w'.
Proof. unfold wp. destruct (m w); [eauto | done | done]. Qed.

Lemma wp_ret {A} (a : A) Q w : Q a w -> wp (ret a) Q w.
Proof. done. Qed.

Lemma wp_bind {A B} (m : M A) (k : A -> M B) Q w :
  wp m (fun a w' => wp (k a) Q w') w -> wp (x <- m ;; k x) Q w.
Proof. unfold wp, bind. by destruct (m w). Qed.

Lemma wp_get Q w : Q w w -> wp get Q w.
Proof. done. Qed.

Lemma wp_modify f Q w : Q tt (f w) -> wp (modify f) Q w.
Proof. done. Qed.

Lemma wp_print s Q w :
  Q tt (set_stdout (stdout (env w) ++ [s +:+ nl]) w) -> wp (print s) Q w.
Proof. done. Qed.

Lemma wp_for_each_print {A} (f : A -> string) (l : list A) Q w :
  Q tt (set_stdout (stdout (env w) ++ map (fun x => f x +:+ nl) l) w) ->
  wp (for_each l (fun x => print (f x))) Q w.
Proof. unfold wp. by rewrite for_each_print. Qed.

Lemma wp_input prompt Q w line rest :
  stdin (env w) = line :: rest ->
  Q line (set_stdin rest (set_stdout (stdout (env w) ++ [prompt]) w)) ->
  wp (input prompt) Q w.
Proof. unfold wp, input. cbn. by intros ->. Qed.

(** One step of symbolic execution along a sequence of statements. *)
(** Reading the fields of a world through the setters. *)
Ltac fields :=
  cbv [set_df set_model set_features set_r2 set_is_trained
       set_files set_stdin set_stdout set_clock_reads set_csv_reads] in *;
  cbn [self env csv_path data_file df model features r2 is_trained
       files stdin stdout clock clock_reads csv_reads np_random] in *.

Lemma wp_comprehension {A B} (f : A -> option B) (e : exn) (l : list A)
      (ys : list B) Q w :
  mapM f l = Some ys -> Q ys w ->
  wp (comprehension
        (fun x => match f x with Some y => ret y | None => raise e end) l) Q w.
Proof. intros Hm HQ. unfold wp. by rewrite comprehension_option, Hm. Qed.

Lemma wp_try_except_ok {A} (body handler : M A) handles Q w :
  wp body Q w -> wp (try_except body handles handler) Q w.
Proof. unfold wp, try_except. by destruct (body w). Qed.

Lemma wp_try_except_raise {A} (body handler : M A) handles Q w e w' :
  body w = Raise e w' -> handles e = true ->
  wp handler Q w' -> wp (try_except body handles handler) Q w.
Proof. unfold wp, try_except. by intros -> ->. Qed.

Lemma bind_raise {A B} (m : M A) (k : A -> M B) w e w' :
  m w = Raise e w' -> (x <- m ;; k x) w = Raise e w'.
Proof. unfold bind. by intros ->. Qed.

Ltac step :=
  cbv beta;
  lazymatch goal with
  | |- wp (bind _ _) _ _ => apply wp_bind
  | |- wp (print _) _ _ => apply wp_print
  | |- wp (for_each _ (fun _ => print _)) _ _ => apply wp_for_each_print
  | |- wp get _ _ => apply wp_get
  | |- wp (modify _) _ _ => apply wp_modify
  | |- wp (ret _) _ _ => apply wp_ret
  end;
  fields.
Ltac steps := repeat step; cbv beta.

Lemma wp_load_if_none (w : World) (d : Frame.t float) Q :
  dataset w d ->
  (forall w', df (self w') = Some d ->
              features (self w') = features (self w) ->
              model (self w') = model (self w) ->
              r2 (self w') = r2 (self w) ->
              is_trained (self w') = is_trained (self w) ->
              csv_path (self w') = csv_path (self w) ->
              data_file (self w') = data_file (self w) ->
              files (env w') = files (env w) ->
              stdin (env w') = stdin (env w) ->
              stdout (env w') = stdout (env w) ->
              clock (env w') = clock (env w) ->
              clock_reads (env w') = clock_reads (env w) ->
              Q tt w') ->
  wp load_if_none Q w.
Proof.
  intros [Hd | (Hd & text & Hf & Hp)] HQ; unfold load_if_none.
  - steps. rewrite Hd. step. by apply HQ.
  - steps. rewrite Hd. steps. unfold load_dataset. steps.
    unfold wp at 1, pd_read_csv. fields. rewrite Hf, Hp. cbn [call ret].
    steps. apply HQ; by fields.
Qed.

Lemma wp_the_df (w : World) (d : Frame.t float) Q :
  df (self w) = Some d -> Q d w -> wp the_df Q w.
Proof. intros Hd HQ. unfold the_df. steps. rewrite Hd. by step. Qed.

Lemma py_getitem_in_range {A} (available : list A) (i : Z) :
  in_range (length available) i = true ->
  exists x, py_getitem available (i - 1) = Some x /\
            available !! Z.to_nat (i - 1) = Some x.
Proof.
  unfold in_range. intros [H1 H2]%andb_true_iff.
  apply Z.leb_le in H1, H2.
  destruct (lookup_lt_is_Some_2 available (Z.to_nat (i - 1))) as [x Hx];
    [lia|].
  exists x. split; [|done]. unfold py_getitem.
  destruct (i - 1 <? 0) eqn:Hneg; [apply Z.ltb_lt in Hneg; lia|done].
Qed.

(** On a list of indices within range no lookup fails. *)
Lemma lookups_in_range {A} (available : list A) (indices : list Z) :
  Forall (fun i => in_range (length available) i = true) indices ->
  exists names,
    mapM (fun i => py_getitem available (i - 1)) indices = Some names /\
    Forall2 (fun i x => available !! Z.to_nat (i - 1) = Some x) indices names.
Proof.
  induction 1 as [|i l Hi _ (names & Hm & Hn)].
  - by exists [].
  - destruct (py_getitem_in_range _ _ Hi) as (x & Hg & Hx).
    exists (x :: names). split; [|by constructor].
    apply mapM_Some. constructor; [done|]. by apply mapM_Some.
Qed.

Lemma filter_in_range (n : nat) (indices : list Z) :
  Forall (fun i => in_range n i = true) (List.filter (in_range n) indices).
Proof.
  apply List.Forall_forall. intros i Hi. by apply filter_In in Hi as [_ ?].
Qed.

(** What [select_features] does to the session: it returns, with the
    feature list given by [selection], the flag down, the data frame
    cached, one line of input consumed and the files as they were. *)
Lemma select_features_run (w : World) (d : Frame.t float) (raw : string)
      (rest : list string) :
  dataset w d ->
  stdin (env w) = raw :: rest ->
  exists w',
    select_features w = Ok tt w' /\
    features (self w') = selection (numeric_columns d) (PyStr.strip raw) /\
    is_trained (self w') = false /\
    df (self w') = Some d /\
    model (self w') = model (self w) /\
    r2 (self w') = r2 (self w) /\
    stdin (env w') = rest /\
    files (env w') = files (env w).
Proof.
  intros Hd Hin.
  cut (wp select_features
         (fun _ w' =>
            features (self w') = selection (numeric_columns d) (PyStr.strip raw) /\
            is_trained (self w') = false /\
            df (self w') = Some d /\
            model (self w') = model (self w) /\
            r2 (self w') = r2 (self w) /\
            stdin (env w') = rest /\
            files (env w') = files (env w)) w).
  { intros (a & w' & Hrun & HQ)%wp_elim. destruct a. eauto. }
  unfold select_features, get_numeric_columns. steps.
  apply (wp_load_if_none _ d); [done|].
  intros w1 Hdf1 _ Hm1 Hr1 _ _ _ Hf1 Hin1 _ _ _.
  steps. apply (wp_the_df _ d); [done|]. steps.
  eapply wp_input; [fields; by rewrite Hin1, Hin|].
  steps. unfold selection.
  destruct (String.eqb (PyStr.strip raw) "").
  - steps. by rewrite Hdf1, Hm1, Hr1, Hf1.
  - destruct (mapM parse_index _) as [indices|] eqn:Hparse.
    + apply wp_try_except_ok. step.
      apply (wp_comprehension _ _ _ indices); [done|]. step.
      destruct (lookups_in_range (numeric_columns d) _
                  (filter_in_range _ indices)) as (names & Hnames & _).
      apply (wp_comprehension _ _ _ names); [done|].
      rewrite Hnames.
      destruct names; steps; by rewrite Hdf1, Hm1, Hr1, Hf1.
    + eapply wp_try_except_raise.
      * apply bind_raise. by rewrite comprehension_option, Hparse.
      * done.
      * steps. by rewrite Hdf1, Hm1, Hr1, Hf1.
Qed.

(* ---------------------------------------------------------------- *)
(** ** The selection policy *)

Lemma split_not_nil (sep : ascii) (s : string) : PyStr.split sep s <> [].
Proof.
  induction s as [|c s IH]; cbn; [done|].
  destruct (Ascii.eqb c sep); [done|]. by destruct (PyStr.split sep s).
Qed.

Lemma parse_index_empty : parse_index "" = None.
Proof. reflexivity. Qed.

Lemma selection_unparsed (available : list string) (user_input : string) :
  Exists (fun t => parse_index t = None) (PyStr.split "," user_input) ->
  selection available user_input = DEFAULT_FEATURES.
Proof.
  intros Hex. unfold selection.
  destruct (String.eqb user_input ""); [done|].
  by rewrite (mapM_None_2 _ _ Hex).
Qed.

Lemma selection_parsed (available : list string) (user_input : string)
      (indices : list Z) :
  Forall2 (fun t i => parse_index t = Some i)
          (PyStr.split "," user_input) indices ->
  let kept := List.filter (in_range (length available)) indices in
  (kept = [] -> selection available user_input = DEFAULT_FEATURES) /\
  (kept <> [] ->
   Forall2 (fun i name => available !! Z.to_nat (i - 1) = Some name)
           kept (selection available user_input)).
Proof.
  intros Hparse kept. unfold selection.
  destruct (String.eqb_spec user_input "") as [-> | _].
  { cbn in Hparse. apply Forall2_cons_inv_l in Hparse as (i & ? & Hi & _).
    by rewrite parse_index_empty in Hi. }
  rewrite (mapM_Some_2 _ _ _ Hparse).
  destruct (lookups_in_range available _ (filter_in_range _ indices))
    as (names & -> & Hnames).
  fold kept in Hnames |- *. split.
  - intros Hk. rewrite Hk in Hnames. by apply Forall2_nil_inv_l in Hnames as ->.
  - intros Hk. destruct names as [|name names]; [|done].
    apply Forall2_nil_inv_r in Hnames. done.
Qed.

Lemma filter_all_in_range (n : nat) (indices : list Z) :
  Forall (fun i => 1 <= i <= Z.of_nat n) indices ->
  List.filter (in_range n) indices = indices.
Proof.
  induction 1 as [|i l [H1 H2] _ IH]; cbn; [done|].
  unfold in_range at 1.
  apply Z.leb_le in H1, H2. rewrite H1, H2. cbn. by rewrite IH.
Qed.

Lemma bind_ok_inv {A B} (m : M A) (k : A -> M B) w b w' :
  (x <- m ;; k x) w = Ok b w' ->
  exists a w1, m w = Ok a w1 /\ k a w1 = Ok b w'.
Proof. unfold bind. destruct (m w) as [a w1| |]; [eauto | done | done]. Qed.

(** C2.  For the answer [raw] to the selection prompt, cut at the
    commas: if some token does not convert to an integer, the answer
    being ASCII text (on which the [int] and [strip] of this file are
    Python's), the feature list becomes the default list; if all convert,
    the indices outside
    1..N (N the number of available numeric columns) are dropped and the
    others kept, the feature list being the names at the kept indices,
    or the default list when none is kept. *)
Theorem select_features_policy (w : World) (d : Frame.t float)
        (raw : string) (rest : list string) :
  dataset w d ->
  stdin (env w) = raw :: rest ->
  exists w',
    select_features w = Ok tt w' /\
    let available := numeric_columns d in
    let tokens := PyStr.split "," (PyStr.strip raw) in
    (PyStr.is_ascii raw = true ->
     Exists (fun t => parse_index t = None) tokens ->
     features (self w') = DEFAULT_FEATURES) /\
    (forall indices,
       Forall2 (fun t i => parse_index t = Some i) tokens indices ->
       let kept := List.filter (in_range (length available)) indices in
       (kept = [] -> features (self w') = DEFAULT_FEATURES) /\
       (kept <> [] ->
        Forall2 (fun i name => available !! Z.to_nat (i - 1) = Some name)
                kept (features (self w')))).
Proof.
  intros Hd Hin.
  destruct (select_features_run w d raw rest Hd Hin) as (w' & Hrun & Hf & _).
  exists w'. split; [done|]. cbv zeta. rewrite Hf. split.
  - intros _. apply selection_unparsed.
  - intros indices Hparse. by apply selection_parsed.
Qed.

(** C3.  When every token of the answer converts to an integer within
    1..N, the feature list is the list of the names of the available
    numeric columns at these indices, in the order of the answer. *)
Theorem select_features_in_order (w : World) (d : Frame.t float)
        (raw : string) (rest : list string) (indices : list Z) :
  dataset w d ->
  stdin (env w) = raw :: rest ->
  Forall2 (fun t i => parse_index t = Some i)
          (PyStr.split "," (PyStr.strip raw)) indices ->
  Forall (fun i => 1 <= i <= Z.of_nat (length (numeric_columns d))) indices ->
  exists w',
    select_features w = Ok tt w' /\
    Forall2 (fun i name => numeric_columns d !! Z.to_nat (i - 1) = Some name)
            indices (features (self w')).
Proof.
  intros Hd Hin Hparse Hrange.
  destruct (select_features_run w d raw rest Hd Hin) as (w' & Hrun & Hf & _).
  exists w'. split; [done|]. rewrite Hf.
  destruct (selection_parsed (numeric_columns d) _ _ Hparse) as [_ Hkept].
  rewrite (filter_all_in_range _ _ Hrange) in Hkept. apply Hkept.
  intros ->. apply Forall2_nil_inv_r in Hparse.
  by apply split_not_nil in Hparse.
Qed.

(** C1, as amended.  If some token of the answer does not convert to
    an integer, the answer being ASCII text (on which the [int] and
    [strip] of this file are Python's), the feature list becomes the
    default list, whatever the other tokens are.  If all tokens convert
    and at least one index is
    within 1..N, there is no fallback: the indices out of range are
    dropped and the feature list is the names at the others. *)
Theorem select_features_fallback (w : World) (d : Frame.t float)
        (raw : string) (rest : list string) :
  dataset w d ->
  stdin (env w) = raw :: rest ->
  exists w',
    select_features w = Ok tt w' /\
    let available := numeric_columns d in
    let tokens := PyStr.split "," (PyStr.strip raw) in
    (PyStr.is_ascii raw = true ->
     Exists (fun t => parse_index t = None) tokens ->
     features (self w') = DEFAULT_FEATURES) /\
    (forall indices,
       Forall2 (fun t i => parse_index t = Some i) tokens indices ->
       Exists (fun i => in_range (length available) i = true) indices ->
       features (self w') <> [] /\
       Forall2 (fun i name => available !! Z.to_nat (i - 1) = Some name)
               (List.filter (in_range (length available)) indices)
               (features (self w'))).
Proof.
  intros Hd Hin.
  destruct (select_features_run w d raw rest Hd Hin) as (w' & Hrun & Hf & _).
  exists w'. split; [done|]. cbv zeta. rewrite Hf. split.
  - intros _. apply selection_unparsed.
  - intros indices Hparse Hex.
    destruct (selection_parsed (numeric_columns d) _ _ Hparse) as [_ Hkept].
    assert (Hne : List.filter (in_range (length (numeric_columns d))) indices <> []).
    { apply List.Exists_exists in Hex as (i & Hi & Hr).
      intros Hnil.
      assert (Hin' : In i (List.filter (in_range (length (numeric_columns d))) indices))
        by (apply filter_In; auto).
      by rewrite Hnil in Hin'. }
    specialize (Hkept Hne). split; [|done].
    intros Hnil. rewrite Hnil in Hkept.
    by apply Forall2_nil_inv_r in Hkept.
Qed.

(** C4.  Whenever [select_features] returns, the trained flag is down;
    and it does return, whatever the answer, as soon as the data frame
    is there and a line can be read. *)
Theorem select_features_resets_trained (w : World) :
  (forall a w', select_features w = Ok a w' -> is_trained (self w') = false) /\
  (forall d raw rest,
      dataset w d -> stdin (env w) = raw :: rest ->
      exists w', select_features w = Ok tt w' /\ is_trained (self w') = false).
Proof.
  split.
  - intros a w' H. unfold select_features in H.
    repeat match type of H with
           | bind (modify (set_is_trained false)) _ _ = _ => fail 1
           | bind _ _ _ = _ =>
               apply bind_ok_inv in H as (? & ? & _ & H); cbv beta zeta in H
           end.
    cbn in H. by inversion H.
  - intros d raw rest Hd Hin.
    destruct (select_features_run w d raw rest Hd Hin) as (w' & ? & _ & ? & _).
    eauto.
Qed.

(** C5.  With the trained flag down, [predict_price] returns [None]
    without raising; it prints the "not trained" message and nothing
    else, and leaves the session, the input and every file, the log
    among them, as they were. *)
Theorem predict_untrained (w : World) :
  is_trained (self w) = false ->
  exists w',
    predict_price w = Ok None w' /\
    stdout (env w') =
      stdout (env w)
        ++ [(nl +:+ "  [!] Model is not trained yet. Please train first.") +:+ nl] /\
    self w' = self w /\
    files (env w') = files (env w) /\
    history w' = history w /\
    stdin (env w') = stdin (env w).
Proof.
  intros Hflag. unfold predict_price. unfold bind at 1. cbn [get].
  rewrite Hflag. cbn [negb]. unfold bind, print, modify, ret.
  eexists. split; [reflexivity|].
  unfold history. fields. by repeat split.
Qed.

(* ---------------------------------------------------------------- *)
(** ** The prompts of [predict_price] *)

Lemma console_only_refl (w : World) : console_only w w.
Proof. by repeat split. Qed.

Lemma console_only_trans (w1 w2 w3 : World) :
  console_only w1 w2 -> console_only w2 w3 -> console_only w1 w3.
Proof.
  intros (? & ? & ? & ? & ?) (? & ? & ? & ? & ?).
  repeat split; congruence.
Qed.

Lemma ask_turn_eof (feat : string) (values : Dict.t float) (w : World) :
  stdin (env w) = [] ->
  exists w', ask_turn feat values w = Raise EOFError w' /\
             stdin (env w') = [] /\ console_only w w'.
Proof.
  intros Hin. unfold ask_turn, try_except, bind, input. fields. rewrite Hin.
  eexists. split; [reflexivity|]. by repeat split.
Qed.

Lemma ask_turn_valid (feat : string) (values : Dict.t float) (w : World)
      (l : string) (rest : list string) (v : float) :
  stdin (env w) = l :: rest -> float_of_str l = Some v ->
  exists w', ask_turn feat values w = Ok (Some (Dict.set feat v values)) w' /\
             stdin (env w') = rest /\ console_only w w'.
Proof.
  intros Hin Hl. unfold ask_turn, try_except, bind, input. fields.
  rewrite Hin, Hl. eexists. split; [reflexivity|]. by repeat split.
Qed.

Lemma ask_turn_invalid (feat : string) (values : Dict.t float) (w : World)
      (l : string) (rest : list string) :
  stdin (env w) = l :: rest -> float_of_str l = None ->
  exists w', ask_turn feat values w = Ok None w' /\
             stdin (env w') = rest /\ console_only w w'.
Proof.
  intros Hin Hl. unfold ask_turn, try_except, bind, input. fields.
  rewrite Hin, Hl. eexists. split; [reflexivity|]. by repeat split.
Qed.

(** The loop of [ask_value], for any bound above the number of lines. *)
Lemma ask_loop_run (feat : string) (values : Dict.t float)
      (lines : list string) :
  forall (fuel : nat) (w : World),
    stdin (env w) = lines ->
    (length lines < fuel)%nat ->
    match first_float lines with
    | Some (v, rest) =>
        exists w',
          while_true fuel (ask_turn feat values) w
            = Ok (Dict.set feat v values) w' /\
          stdin (env w') = rest /\ console_only w w'
    | None =>
        exists w',
          while_true fuel (ask_turn feat values) w = Raise EOFError w' /\
          console_only w w'
    end.
Proof.
  induction lines as [|l lines IH]; intros fuel w Hin Hfuel;
    (destruct fuel as [|fuel]; [cbn in Hfuel; lia|]);
    cbn [first_float while_true]; unfold bind.
  - destruct (ask_turn_eof feat values w Hin) as (w' & -> & _ & Hc). eauto.
  - destruct (float_of_str l) as [v|] eqn:Hl.
    + destruct (ask_turn_valid feat values w l lines v Hin Hl)
        as (w' & -> & ? & Hc).
      eauto.
    + destruct (ask_turn_invalid feat values w l lines Hin Hl)
        as (w1 & -> & Hin1 & Hc1).
      specialize (IH fuel w1 Hin1 ltac:(cbn in Hfuel; lia)).
      destruct (first_float lines) as [[v rest]|].
      * destruct IH as (w' & -> & ? & Hc). exists w'.
        split; [done|]. split; [done|]. by eapply console_only_trans.
      * destruct IH as (w' & -> & Hc). exists w'.
        split; [done|]. by eapply console_only_trans.
Qed.

Lemma ask_value_run (feat : string) (values : Dict.t float) (w : World) :
  match first_float (stdin (env w)) with
  | Some (v, rest) =>
      exists w', ask_value feat values w = Ok (Dict.set feat v values) w' /\
                 stdin (env w') = rest /\ console_only w w'
  | None =>
      exists w', ask_value feat values w = Raise EOFError w' /\
                 console_only w w'
  end.
Proof.
  unfold ask_value. unfold bind at 1. cbn [get].
  apply (ask_loop_run feat values (stdin (env w)) (loop_bound w) w eq_refl).
  unfold loop_bound. lia.
Qed.

Lemma ask_values_run (feats : list string) :
  forall (values : Dict.t float) (w : World),
    match answers feats values (stdin (env w)) with
    | Some (values', rest) =>
        exists w', ask_values feats values w = Ok values' w' /\
                   stdin (env w') = rest /\ console_only w w'
    | None =>
        exists w', ask_values feats values w = Raise EOFError w' /\
                   console_only w w'
    end.
Proof.
  induction feats as [|feat feats IH]; intros values w; cbn [answers ask_values].
  - exists w. split; [done|]. split; [done|]. apply console_only_refl.
  - pose proof (ask_value_run feat values w) as Hone. unfold bind.
    destruct (first_float (stdin (env w))) as [[v rest]|].
    + destruct Hone as (w1 & -> & Hin1 & Hc1).
      specialize (IH (Dict.set feat v values) w1). rewrite Hin1 in IH.
      destruct (answers feats _ rest) as [[values' rest']|].
      * destruct IH as (w' & -> & ? & Hc). exists w'.
        split; [done|]. split; [done|]. by eapply console_only_trans.
      * destruct IH as (w' & -> & Hc). exists w'.
        split; [done|]. by eapply console_only_trans.
    + destruct Hone as (w' & -> & Hc). by exists w'.
Qed.

(* ---------------------------------------------------------------- *)
(** ** The keys of the collected values *)

Lemma str_in_true (x : string) (l : list string) :
  str_in x l = true <-> x ∈ l.
Proof.
  unfold str_in. rewrite existsb_exists, list_elem_of_In. split.
  - by intros (y & Hy & ->%String.eqb_eq).
  - intros Hx. exists x. split; [done|]. apply String.eqb_refl.
Qed.

Lemma str_in_false (x : string) (l : list string) :
  str_in x l = false <-> x ∉ l.
Proof.
  rewrite <- str_in_true. destruct (str_in x l); split; congruence.
Qed.

Lemma dict_set_keys {V} (k : string) (v : V) (d : Dict.t V) :
  Dict.keys (Dict.set k v d)
  = if str_in k (Dict.keys d) then Dict.keys d else Dict.keys d ++ [k].
Proof.
  induction d as [|[k' v'] d IH]; cbn; [done|].
  rewrite (String.eqb_sym k k').
  destruct (String.eqb k' k); cbn; [done|].
  unfold Dict.keys, str_in in *. rewrite IH.
  by destruct (existsb (String.eqb k) (map fst d)).
Qed.

Lemma dict_set_fresh {V} (k : string) (v : V) (d : Dict.t V) :
  k ∉ Dict.keys d -> Dict.set k v d = d ++ [(k, v)].
Proof.
  induction d as [|[k' v'] d IH]; cbn; [done|].
  intros [Hne Hd]%not_elem_of_cons.
  destruct (String.eqb_spec k' k) as [->|_]; [done|].
  by rewrite IH.
Qed.

Lemma answers_keys (feats : list string) :
  forall (values : Dict.t float) (lines : list string) values' rest,
    answers feats values lines = Some (values', rest) ->
    Dict.keys values' = keys_after feats (Dict.keys values).
Proof.
  induction feats as [|feat feats IH]; intros values lines values' rest; cbn.
  - by intros [= <- _].
  - destruct (first_float lines) as [[v rest1]|]; [|done].
    intros H%IH. by rewrite H, dict_set_keys.
Qed.

Lemma keys_after_fresh (feats : list string) :
  forall ks, NoDup (ks ++ feats) -> keys_after feats ks = ks ++ feats.
Proof.
  induction feats as [|k feats IH]; intros ks Hnd; cbn.
  - by rewrite app_nil_r.
  - assert (Hk : k ∉ ks).
    { apply NoDup_app in Hnd as (_ & Hdis & _). intros Hin.
      apply (Hdis k Hin). by left. }
    apply str_in_false in Hk. rewrite Hk.
    rewrite IH; rewrite <- app_assoc; [done|]. exact Hnd.
Qed.

Lemma keys_after_length (feats : list string) :
  forall ks, (length (keys_after feats ks) <= length ks + length feats)%nat.
Proof.
  induction feats as [|k feats IH]; intros ks; cbn; [lia|].
  destruct (str_in k ks).
  - specialize (IH ks). lia.
  - specialize (IH (ks ++ [k])). rewrite length_app in IH. cbn in IH. lia.
Qed.

Lemma keys_after_repeated (feats : list string) :
  forall ks,
    NoDup ks -> ~ NoDup (ks ++ feats) ->
    (length (keys_after feats ks) < length ks + length feats)%nat.
Proof.
  induction feats as [|k feats IH]; intros ks Hks Hdup; cbn.
  - by rewrite app_nil_r in Hdup.
  - destruct (str_in k ks) eqn:Hk.
    + pose proof (keys_after_length feats ks). lia.
    + apply str_in_false in Hk.
      specialize (IH (ks ++ [k])). rewrite length_app in IH. cbn in IH.
      rewrite <- app_assoc in IH. cbn in IH.
      assert (NoDup (ks ++ [k])).
      { apply NoDup_app. split; [done|]. split; [|apply NoDup_singleton].
        intros x Hx ->%list_elem_of_singleton. done. }
      specialize (IH H Hdup). lia.
Qed.

Lemma answers_all_valid (feats : list string) :
  forall (values : Dict.t float) (lines : list string) (vals : list float)
         (rest : list string),
    NoDup (Dict.keys values ++ feats) ->
    Forall2 (fun a v => float_of_str a = Some v) lines vals ->
    length vals = length feats ->
    answers feats values (lines ++ rest) = Some (values ++ zip feats vals, rest).
Proof.
  induction feats as [|feat feats IH]; intros values lines vals rest Hnd Hv Hlen.
  - destruct vals; [|done]. apply Forall2_nil_inv_r in Hv as ->.
    cbn. by rewrite app_nil_r.
  - destruct vals as [|v vals]; [done|].
    apply Forall2_cons_inv_r in Hv as (a & lines' & Ha & Hv & ->).
    cbn. rewrite Ha.
    assert (Hfresh : feat ∉ Dict.keys values).
    { apply NoDup_app in Hnd as (_ & Hdis & _). intros Hin.
      apply (Hdis feat Hin). by left. }
    rewrite (dict_set_fresh _ _ _ Hfresh).
    rewrite (IH _ lines' vals rest); [by rewrite <- app_assoc|..|done| by injection Hlen].
    unfold Dict.keys in *. rewrite map_app. cbn. by rewrite <- app_assoc.
Qed.

(* ---------------------------------------------------------------- *)
(** ** Strings and lines *)

Lemma str_app_cons (c : ascii) (s t : string) :
  String c s +:+ t = String c (s +:+ t).
Proof. reflexivity. Qed.

Lemma str_app_nil_r (s : string) : s +:+ "" = s.
Proof. induction s as [|c s IH]; [done|]. by rewrite str_app_cons, IH. Qed.

Lemma str_app_assoc (s t u : string) : (s +:+ t) +:+ u = s +:+ t +:+ u.
Proof. induction s as [|c s IH]; [done|]. by rewrite !str_app_cons, IH. Qed.






















(* ---------------------------------------------------------------- *)
(** ** The prediction log *)




(** One call of [save_prediction]: it returns, and the log is the old
    log followed by the line. *)
Lemma save_prediction_run (values : Dict.t float) (price : float) (w : World) :
  exists w',
    save_prediction values price w = Ok tt w' /\
    log_text w' =
      log_text w +:+
      log_line (DateTime.strftime (clock (env w) (clock_reads (env w))))
               values price /\
    self w' = self w /\
    stdin (env w') = stdin (env w) /\
    clock (env w') = clock (env w).
Proof.
  unfold save_prediction, bind, datetime_now, get, append_file, print, modify.
  eexists. split; [reflexivity|].
  unfold log_text, TextFile.append. fields. by rewrite lookup_insert_eq.
Qed.

Lemma wp_read_file_lines (path text : string) Q (w : World) :
  files (env w) !! path = Some text ->
  Q (TextFile.readlines text) w ->
  wp (read_file_lines path) Q w.
Proof. intros Hf HQ. unfold wp, read_file_lines. by rewrite Hf. Qed.

(** [load_predictions] prints its heading, the lines of the history
    numbered from 1 (or that there are none), and a rule; it changes
    nothing but the console output. *)
Lemma load_predictions_run (w : World) :
  exists w',
    load_predictions w = Ok tt w' /\
    stdout (env w')
    = stdout (env w)
        ++ [(nl +:+ rule) +:+ nl; "           PREDICTION HISTORY" +:+ nl;
            rule +:+ nl]
        ++ shown (history w) ++ [rule +:+ nl] /\
    self w' = self w /\
    files (env w') = files (env w) /\
    stdin (env w') = stdin (env w).
Proof.
  cut (wp load_predictions
          (fun _ w' =>
             stdout (env w')
             = stdout (env w)
                 ++ [(nl +:+ rule) +:+ nl; "           PREDICTION HISTORY" +:+ nl;
                     rule +:+ nl]
                 ++ shown (history w) ++ [rule +:+ nl] /\
             self w' = self w /\
             files (env w') = files (env w) /\
             stdin (env w') = stdin (env w)) w).
  { intros ([] & w' & ? & ?)%wp_elim. eauto. }
  unfold load_predictions, history. steps.
  destruct (files (env w) !! data_file (self w)) as [text|] eqn:Hf.
  - apply wp_try_except_ok. steps.
    apply (wp_read_file_lines _ text); [by fields|].
    destruct (TextFile.readlines text) as [|l ls]; steps.
    + repeat split. by rewrite <- !app_assoc.
    + repeat split. unfold shown. by rewrite <- !app_assoc.
  - eapply wp_try_except_raise.
    + unfold bind at 1. cbn [get]. apply bind_raise.
      unfold read_file_lines. fields. by rewrite Hf.
    + done.
    + steps. repeat split. by rewrite <- !app_assoc.
Qed.



(* ---------------------------------------------------------------- *)
(** ** Sessions: no bound used up, the file read to fill the cache only *)

Lemma steady_refl (w : World) : steady w w.
Proof. split; [lia|]. by left. Qed.

Lemma steady_trans (w1 w2 w3 : World) :
  steady w1 w2 -> steady w2 w3 -> steady w1 w3.
Proof.
  intros [Hl1 H1] [Hl2 H2]. split; [lia|].
  destruct H1 as [[Hr1 Hd1] | (Hn1 & Hd1 & Hr1)],
           H2 as [[Hr2 Hd2] | (Hn2 & Hd2 & Hr2)].
  - left. split; [congruence | auto].
  - right. split; [|split; [done | congruence]].
    destruct (df (self w1)) eqn:E; [|done]. exfalso. by apply Hd1.
  - right. split; [done|]. split; [auto | congruence].
  - done.
Qed.

Lemma steady_aborted (w w' : World) : steady w w' -> aborted w w'.
Proof.
  intros [_ [[Hr _] | (Hn & _ & Hr)]]; (split; [lia|]); [done|congruence].
Qed.

Lemma steady_then_aborted (w1 w2 w3 : World) :
  steady w1 w2 -> aborted w2 w3 -> aborted w1 w3.
Proof.
  intros [_ H1] [Hle H2]. destruct H1 as [[Hr1 Hd1] | (Hn1 & Hd1 & Hr1)].
  - split; [lia|]. intros Hd. rewrite (H2 (Hd1 Hd)). done.
  - split; [|congruence]. rewrite (H2 Hd1). lia.
Qed.

(** A step that leaves the input, the read count and the cache alone. *)
Lemma steady_same (w w' : World) :
  stdin (env w') = stdin (env w) ->
  csv_reads (env w') = csv_reads (env w) ->
  df (self w') = df (self w) ->
  steady w w'.
Proof. intros H1 H2 H3. split; [by rewrite H1|]. left. by rewrite H2, H3. Qed.

Lemma console_only_steady (w w' : World) :
  console_only w w' ->
  (length (stdin (env w')) <= length (stdin (env w)))%nat ->
  steady w w'.
Proof.
  intros (Hs & _ & _ & _ & Hr) Hl. split; [done|]. left. by rewrite Hr, Hs.
Qed.

Lemma calm_sound {A} (m : M A) : calm m -> sound m.
Proof.
  intros H w. specialize (H w). destruct (m w); [done| |done].
  by apply steady_aborted.
Qed.

Lemma calm_ret {A} (a : A) : calm (ret a).
Proof. intros w. apply steady_refl. Qed.

Lemma calm_raise {A} (e : exn) : calm (@raise _ A e).
Proof. intros w. apply steady_refl. Qed.

Lemma calm_get : calm get.
Proof. intros w. apply steady_refl. Qed.

Lemma calm_call {A} (r : exn + A) : calm (call r).
Proof. intros w. destruct r; apply steady_refl. Qed.

Lemma calm_modify (f : World -> World) :
  (forall w, steady w (f w)) -> calm (modify f).
Proof. intros H w. apply H. Qed.

Lemma calm_print (s : string) : calm (print s).
Proof. apply calm_modify. intros w. by apply steady_same. Qed.

Lemma calm_input (prompt : string) : calm (input prompt).
Proof.
  intros w. unfold input. fields.
  destruct (stdin (env w)) as [|l rest] eqn:Hin.
  - apply steady_same; fields; by rewrite ?Hin.
  - split; fields; [rewrite Hin; cbn; lia|]. by left.
Qed.

Lemma calm_datetime_now : calm datetime_now.
Proof. intros w. by apply steady_same. Qed.

Lemma calm_append_file (path text : string) : calm (append_file path text).
Proof. apply calm_modify. intros w. by apply steady_same. Qed.

Lemma calm_read_file_lines (path : string) : calm (read_file_lines path).
Proof.
  intros w. unfold read_file_lines.
  destruct (files (env w) !! path); apply steady_refl.
Qed.

Lemma calm_bind {A B} (m : M A) (k : A -> M B) :
  calm m -> (forall a, calm (k a)) -> calm (x <- m ;; k x).
Proof.
  intros Hm Hk w. unfold bind. specialize (Hm w).
  destruct (m w) as [a w1|e w1|]; [|done|done].
  specialize (Hk a w1).
  destruct (k a w1); [|  |done]; by eapply steady_trans.
Qed.

Lemma sound_bind {A B} (m : M A) (k : A -> M B) :
  sound m -> (forall a, sound (k a)) -> sound (x <- m ;; k x).
Proof.
  intros Hm Hk w. unfold bind. specialize (Hm w).
  destruct (m w) as [a w1|e w1|]; [|done|done].
  specialize (Hk a w1).
  destruct (k a w1); [| |done];
    [by eapply steady_trans | by eapply steady_then_aborted].
Qed.

Lemma calm_for_each {A} (l : list A) (body : A -> M unit) :
  (forall x, calm (body x)) -> calm (for_each l body).
Proof.
  intros Hb. induction l as [|x l IH]; cbn [for_each].
  - apply calm_ret.
  - apply calm_bind; [apply Hb | by intros _].
Qed.

Lemma calm_comprehension {A B} (f : A -> M B) (l : list A) :
  (forall x, calm (f x)) -> calm (comprehension f l).
Proof.
  intros Hf. induction l as [|x l IH]; cbn [comprehension].
  - apply calm_ret.
  - apply calm_bind; [apply Hf | intros y].
    apply calm_bind; [apply IH | intros ys; apply calm_ret].
Qed.

Lemma calm_try_except {A} (body handler : M A) (handles : exn -> bool) :
  calm body -> calm handler -> calm (try_except body handles handler).
Proof.
  intros Hb Hh w. unfold try_except. specialize (Hb w).
  destruct (body w) as [a w1|e w1|]; [done| |done].
  destruct (handles e); [|done]. specialize (Hh w1).
  destruct (handler w1); [| |done]; by eapply steady_trans.
Qed.

(** A loop whose turns either break or take a line from the input stays
    within a bound above the number of lines. *)
Lemma while_true_rule {A} (X : World -> World -> Prop) (body : M (option A)) :
  (forall a b c, steady a b -> X b c -> X a c) ->
  (forall w, match body w with
             | Ok (Some _) w' => steady w w'
             | Ok None w' =>
                 steady w w' /\
                 (length (stdin (env w')) < length (stdin (env w)))%nat
             | Raise _ w' => X w w'
             | OutOfFuel => False
             end) ->
  forall fuel w,
    (length (stdin (env w)) < fuel)%nat ->
    match while_true fuel body w with
    | Ok _ w' => steady w w'
    | Raise _ w' => X w w'
    | OutOfFuel => False
    end.
Proof.
  intros HX Hbody. induction fuel as [|fuel IH]; intros w Hfuel; [lia|].
  cbn [while_true]. unfold bind. specialize (Hbody w).
  destruct (body w) as [[a|] w1|e w1|]; [done| |done|done].
  destruct Hbody as [Hst Hlt].
  specialize (IH w1 ltac:(lia)).
  destruct (while_true fuel body w1); [| |done];
    [by eapply steady_trans | by eapply HX].
Qed.

Ltac calm_tac :=
  repeat (cbv zeta;
          lazymatch goal with
          | |- calm (bind _ _) => apply calm_bind; [|intros ?]
          | |- calm (ret _) => apply calm_ret
          | |- calm (raise _) => apply calm_raise
          | |- calm get => apply calm_get
          | |- calm (print _) => apply calm_print
          | |- calm (input _) => apply calm_input
          | |- calm (call _) => apply calm_call
          | |- calm datetime_now => apply calm_datetime_now
          | |- calm (append_file _ _) => apply calm_append_file
          | |- calm (read_file_lines _) => apply calm_read_file_lines
          | |- calm (modify _) =>
              apply calm_modify; intros ?; by apply steady_same
          | |- calm (for_each _ _) => apply calm_for_each; intros ?
          | |- calm (comprehension _ _) => apply calm_comprehension; intros ?
          | |- calm (try_except _ _ _) => apply calm_try_except
          | |- calm (match ?x with _ => _ end) => destruct x
          | |- calm _ =>
              first [ assumption
                    | match goal with H : forall _, calm _ |- _ => apply H end ]
          end).

Lemma sound_load_if_none : sound load_if_none.
Proof.
  intros w. unfold load_if_none, bind, get.
  destruct (df (self w)) as [d|] eqn:Hd; [apply steady_refl|].
  unfold load_dataset, bind, get, pd_read_csv. fields.
  destruct (files (env w) !! csv_path (self w)) as [text|].
  - destruct (parse_csv text) as [e|d]; cbn; fields.
    + split; fields; [lia | congruence].
    + split; fields; [lia|]. right. by rewrite Hd.
  - split; fields; [lia | congruence].
Qed.

Lemma calm_the_df : calm the_df.
Proof. unfold the_df. calm_tac. Qed.

Lemma sound_display_dataset_info : sound display_dataset_info.
Proof.
  unfold display_dataset_info.
  apply sound_bind; [apply sound_load_if_none | intros _].
  apply calm_sound. pose proof calm_the_df. calm_tac.
Qed.

Lemma sound_get_numeric_columns : sound get_numeric_columns.
Proof.
  unfold get_numeric_columns.
  apply sound_bind; [apply sound_load_if_none | intros _].
  apply calm_sound. pose proof calm_the_df. calm_tac.
Qed.

Lemma sound_select_features : sound select_features.
Proof.
  unfold select_features.
  apply sound_bind; [apply sound_get_numeric_columns | intros available].
  apply calm_sound. calm_tac.
Qed.

Lemma calm_display_r_squared : calm display_r_squared.
Proof. unfold display_r_squared. calm_tac. Qed.

Lemma calm_model_predict (X : Frame.t float) : calm (model_predict X).
Proof. unfold model_predict. calm_tac. Qed.

Lemma sound_train_split (test_size : float) (random_state : Z) :
  sound (train_split test_size random_state).
Proof.
  unfold train_split.
  apply sound_bind; [apply sound_load_if_none | intros _].
  apply calm_sound. pose proof calm_the_df. calm_tac.
Qed.

Lemma sound_train_model (test_size : float) (random_state : Z) :
  sound (train_model test_size random_state).
Proof.
  unfold train_model.
  apply sound_bind; [apply sound_train_split | intros [[[X_train X_test] y_train] y_test]].
  apply calm_sound.
  pose proof calm_display_r_squared. pose proof calm_model_predict.
  calm_tac.
Qed.

Lemma calm_save_prediction (values : Dict.t float) (price : float) :
  calm (save_prediction values price).
Proof. unfold save_prediction. calm_tac. Qed.

Lemma calm_load_predictions : calm load_predictions.
Proof. unfold load_predictions. calm_tac. Qed.

Lemma calm_ask_value (feat : string) (values : Dict.t float) :
  calm (ask_value feat values).
Proof.
  intros w. unfold ask_value. unfold bind at 1. cbn [get].
  apply (while_true_rule steady (ask_turn feat values));
    [apply steady_trans | | unfold loop_bound; lia].
  clear w. intros w.
  destruct (stdin (env w)) as [|l rest] eqn:Hin.
  - destruct (ask_turn_eof feat values w Hin) as (w' & -> & Hin' & Hc).
    apply console_only_steady; [done|]. rewrite Hin', Hin. cbn. lia.
  - destruct (float_of_str l) as [v|] eqn:Hl.
    + destruct (ask_turn_valid feat values w l rest v Hin Hl)
        as (w' & -> & Hin' & Hc).
      apply console_only_steady; [done|]. rewrite Hin', Hin. cbn. lia.
    + destruct (ask_turn_invalid feat values w l rest Hin Hl)
        as (w' & -> & Hin' & Hc).
      split; [apply console_only_steady; [done|]|];
        rewrite ?Hin', ?Hin; cbn; lia.
Qed.

Lemma calm_ask_values (feats : list string) :
  forall values, calm (ask_values feats values).
Proof.
  induction feats as [|feat feats IH]; intros values; cbn [ask_values].
  - apply calm_ret.
  - apply calm_bind; [apply calm_ask_value | apply IH].
Qed.

Lemma calm_predict_price : calm predict_price.
Proof.
  unfold predict_price.
  pose proof calm_ask_values. pose proof calm_model_predict.
  pose proof calm_save_prediction.
  apply calm_bind; [apply calm_get | intros w].
  destruct (negb (is_trained (self w))); calm_tac.
  - apply H.
  - apply H1.
Qed.

Lemma sound_menu_action (choice : string) : sound (menu_action choice).
Proof.
  unfold menu_action, train_model_default.
  pose proof calm_predict_price. pose proof calm_load_predictions.
  repeat match goal with
         | |- sound (if ?b then _ else _) => destruct b
         end;
    try (apply sound_bind;
         [first [ apply sound_display_dataset_info
                | apply sound_select_features
                | apply sound_train_model ]
         | intros ?; apply calm_sound, calm_ret ]);
    apply calm_sound; calm_tac.
Qed.

Lemma display_menu_run (w : World) :
  exists w', display_menu w = Ok tt w' /\
             stdin (env w') = stdin (env w) /\ console_only w w'.
Proof. eexists. split; [reflexivity|]. by repeat split. Qed.

(** A turn of the menu either raises or takes at least the line of the
    choice from the input. *)
Lemma menu_turn_run (w : World) :
  match menu_turn w with
  | Ok _ w' =>
      steady w w' /\ (length (stdin (env w')) < length (stdin (env w)))%nat
  | Raise _ w' => aborted w w'
  | OutOfFuel => False
  end.
Proof.
  unfold menu_turn. unfold bind at 1.
  destruct (display_menu_run w) as (w0 & -> & Hin0 & Hc0).
  assert (Hs0 : steady w w0) by (apply console_only_steady; [done|]; by rewrite Hin0).
  unfold bind at 1.
  pose proof (calm_input "  Enter your choice (1-6): " w0) as Hinput.
  unfold input in *. fields.
  destruct (stdin (env w0)) as [|l rest] eqn:Hw0.
  - eapply steady_aborted, steady_trans; [exact Hs0 | exact Hinput].
  - match goal with
    | |- context [menu_action ?c ?w1] =>
        pose proof (sound_menu_action c w1) as Hact;
        destruct (menu_action c w1) as [r w'|e w'|]
    end; [| |done].
    + split; [by eapply steady_trans, Hact; eapply steady_trans|].
      destruct Hact as [Hle _]. fields. rewrite <- Hin0. cbn. lia.
    + eapply steady_then_aborted, Hact. by eapply steady_trans.
Qed.

(** The menu loop never uses up its bound. *)
Lemma sound_menu_loop : sound menu_loop.
Proof.
  intros w. unfold menu_loop. unfold bind at 1. cbn [get].
  apply (while_true_rule aborted menu_turn);
    [apply steady_then_aborted | | unfold loop_bound; lia].
  clear w. intros w. pose proof (menu_turn_run w) as H.
  destruct (menu_turn w) as [[[]|] w'|e w'|]; [by destruct H|done..].
Qed.

Lemma sound_reads_nothing {A} (m : M A) (w : World) :
  sound m -> df (self w) <> None -> reads_nothing m w.
Proof.
  intros Hm Hd. unfold reads_nothing. specialize (Hm w).
  destruct (m w) as [a w'|e w'|]; [| |done].
  - destruct Hm as [_ [[? _] | (? & _)]]; done.
  - destruct Hm as [_ Hm]. by apply Hm.
Qed.

Lemma load_dataset_reads (w : World) :
  match load_dataset w with
  | Ok _ w' | Raise _ w' => csv_reads (env w') = S (csv_reads (env w))
  | OutOfFuel => False
  end.
Proof.
  unfold load_dataset, bind, get, pd_read_csv. fields.
  destruct (files (env w) !! csv_path (self w)) as [text|]; [|done].
  by destruct (parse_csv text).
Qed.

(** C9, as amended.  In a menu session the dataset file is read at most
    once: the methods that need the data frame read the file when none
    is cached and never when one is, so a session whose frame is cached
    reads nothing more.  [load_dataset] itself makes no such check: every
    call of it reads the file. *)
Theorem dataset_read_once :
  (forall e : Env,
      match main e with
      | Ok _ w' | Raise _ w' => (csv_reads (env w') <= S (csv_reads e))%nat
      | OutOfFuel => False
      end) /\
  (forall w : World,
      df (self w) <> None ->
      reads_nothing display_dataset_info w /\
      reads_nothing get_numeric_columns w /\
      reads_nothing select_features w /\
      (forall test_size random_state,
          reads_nothing (train_model test_size random_state) w) /\
      reads_nothing predict_price w /\
      reads_nothing load_predictions w /\
      reads_nothing menu_loop w) /\
  (forall w : World,
      df (self w) = None ->
      match load_if_none w with
      | Ok _ w' | Raise _ w' => csv_reads (env w') = S (csv_reads (env w))
      | OutOfFuel => False
      end) /\
  (forall w : World,
      match load_dataset w with
      | Ok _ w' | Raise _ w' => csv_reads (env w') = S (csv_reads (env w))
      | OutOfFuel => False
      end).
Proof.
  split; [|split; [|split]].
  - intros e. unfold main.
    pose proof (sound_menu_loop (mkWorld (init "kc_house_data.csv" "data.txt") e)) as H.
    destruct (menu_loop _) as [a w'|err w'|]; [| |done].
    + destruct H as [_ [[-> _] | (_ & _ & ->)]]; cbn; lia.
    + destruct H as [H _]. exact H.
  - intros w Hd.
    repeat split; intros; apply sound_reads_nothing; try done;
      [ apply sound_display_dataset_info | apply sound_get_numeric_columns
      | apply sound_select_features | apply sound_train_model
      | apply calm_sound, calm_predict_price
      | apply calm_sound, calm_load_predictions | apply sound_menu_loop ].
  - intros w Hd. pose proof (load_dataset_reads w) as H.
    unfold load_if_none, bind, get. rewrite Hd.
    by destruct (load_dataset w).
  - apply load_dataset_reads.
Qed.

(* ---------------------------------------------------------------- *)
(** ** Training *)

Lemma load_if_none_run (w : World) (d : Frame.t float) :
  dataset w d ->
  exists w0,
    load_if_none w = Ok tt w0 /\
    df (self w0) = Some d /\
    features (self w0) = features (self w).
Proof.
  intros Hd.
  assert (H : wp load_if_none
                 (fun _ w0 => df (self w0) = Some d /\
                              features (self w0) = features (self w)) w).
  { apply (wp_load_if_none _ d); [done|]. by intros. }
  apply wp_elim in H as ([] & w0 & ? & ? & ?). eauto.
Qed.

Lemma train_split_run (w : World) (d : Frame.t float)
      (test_size : float) (random_state : Z) :
  dataset w d ->
  outcome (train_split test_size random_state w)
  = Some (splitting d (features (self w)) test_size random_state) /\
  match train_split test_size random_state w with
  | Ok _ w' | Raise _ w' => features (self w') = features (self w)
  | OutOfFuel => True
  end.
Proof.
  intros Hd. destruct (load_if_none_run w d Hd) as (w0 & Hload & Hdf & Hfeat).
  unfold train_split, splitting, splitting_at, the_df.
  unfold bind, get, ret, raise.
  rewrite Hload. cbv beta iota. rewrite Hdf. cbv beta iota. rewrite Hfeat.
  destruct (Frame.select d (features (self w))); [|done].
  destruct (Frame.getitem d "price"); [|done].
  rewrite (train_test_split_seeded _ _ _ _ (np_random (env w0)) 0).
  by destruct (train_test_split _ _ _ _ _).
Qed.

Lemma train_model_run (w : World) (d : Frame.t float)
      (test_size : float) (random_state : Z) :
  dataset w d ->
  trained_state (train_model test_size random_state w)
  = Some match training d (features (self w)) test_size random_state with
         | inl e => inl e
         | inr (r, score) => inr (Some (Fitted r), Some score, true)
         end.
Proof.
  intros Hd.
  destruct (train_split_run w d test_size random_state Hd) as [Hout _].
  unfold train_model, training. unfold bind at 1.
  destruct (train_split test_size random_state w)
    as [[[[X_train X_test] y_train] y_test] w0|e w0|]; [| |done];
    cbn in Hout; injection Hout as <-; [|done].
  unfold bind, modify, model_predict, get, display_r_squared, print, modify.
  fields.
  destruct (fit X_train y_train) as [e|r]; [done|]. cbn. fields.
  destruct (predict r X_test) as [e|y_pred]; [done|]. cbn.
  by destruct (r2_score y_test y_pred) as [e|score].
Qed.

Lemma splitting_at_any (g g' : nat) (d : Frame.t float) (feats : list string)
      (test_size : float) (random_state : Z) :
  splitting_at g d feats test_size random_state
  = splitting_at g' d feats test_size random_state.
Proof.
  unfold splitting_at. destruct (Frame.select d feats); [|done].
  destruct (Frame.getitem d "price"); [|done].
  apply train_test_split_seeded.
Qed.

(** C8.  Training passes the test fraction and the seed on to the
    library, and nothing that varies between runs.  By scikit-learn's
    contract for an integer seed ([train_test_split_seeded]), two
    sessions that work on the same data frame with the same feature list
    and train with the same fraction and seed get the same split, namely
    the library's split of [df[features]] and [df['price']] for this
    fraction and this seed, in whatever state numpy's global generator is
    in either session; and each leaves the model fitted on the training
    part of that split, its score on the test part and the flag up, or
    meets the same exception.  Whatever else differs between the sessions
    (the generator, an earlier model, score or flag, the console, the
    log, the clock) has no part in it.  So it is for the defaults 0.2 and
    42 of [train_model()]. *)
Theorem train_deterministic (w1 w2 : World) (d : Frame.t float)
        (test_size : float) (random_state : Z) :
  dataset w1 d ->
  dataset w2 d ->
  features (self w1) = features (self w2) ->
  let feats := features (self w1) in
  let stored ts rs :=
    Some match training d feats ts rs with
         | inl e => inl e
         | inr (r, score) => inr (Some (Fitted r), Some score, true)
         end in
  (forall g,
      outcome (train_split test_size random_state w1)
      = Some (splitting_at g d feats test_size random_state) /\
      outcome (train_split test_size random_state w2)
      = Some (splitting_at g d feats test_size random_state)) /\
  trained_state (train_model test_size random_state w1)
  = stored test_size random_state /\
  trained_state (train_model test_size random_state w2)
  = stored test_size random_state /\
  trained_state (train_model_default w1) = stored float_0_2 42 /\
  trained_state (train_model_default w2) = stored float_0_2 42.
Proof.
  intros H1 H2 Hf feats stored. unfold stored, feats.
  split.
  - intros g.
    destruct (train_split_run w1 d test_size random_state H1) as [-> _].
    destruct (train_split_run w2 d test_size random_state H2) as [-> _].
    unfold splitting. rewrite <- Hf.
    by rewrite (splitting_at_any 0 g).
  - unfold train_model_default.
    rewrite !(train_model_run w1 d), !(train_model_run w2 d), Hf; done.
Qed.

(* ---------------------------------------------------------------- *)
(** ** Failures and the menu loop *)

Lemma while_true_more_fuel {A} (body : M (option A)) (n : nat) :
  forall (m : nat) (w : World),
    (n <= m)%nat ->
    while_true n body w <> OutOfFuel ->
    while_true m body w = while_true n body w.
Proof.
  induction n as [|n IH]; intros m w Hle Hne; [done|].
  destruct m as [|m]; [lia|]. cbn [while_true] in *. unfold bind in *.
  destruct (body w) as [[a|] w1|e w1|]; [done| |done|done].
  apply IH; [lia|done].
Qed.

Lemma while_true_raise {A} (body : M (option A)) (fuel : nat) (w w' : World)
      (e : exn) :
  body w = Raise e w' -> while_true (S fuel) body w = Raise e w'.
Proof. intros H. cbn [while_true]. unfold bind. by rewrite H. Qed.

Lemma while_true_continue {A} (body : M (option A)) (fuel fuel1 : nat)
      (w w1 : World) :
  body w = Ok None w1 ->
  (fuel1 <= fuel)%nat ->
  while_true fuel1 body w1 <> OutOfFuel ->
  while_true (S fuel) body w = while_true fuel1 body w1.
Proof.
  intros H Hle Hne. cbn [while_true]. unfold bind. rewrite H.
  by apply while_true_more_fuel.
Qed.

Lemma menu_loop_unfold (w : World) :
  menu_loop w = while_true (S (length (stdin (env w)))) menu_turn w.
Proof. reflexivity. Qed.

Lemma menu_loop_raise (w : World) (e : exn) (w' : World) :
  menu_turn w = Raise e w' -> menu_loop w = Raise e w'.
Proof.
  intros H. rewrite menu_loop_unfold. by apply while_true_raise.
Qed.

(** After a turn that does not break, the loop goes on as a loop
    started in the world the turn has left. *)
Lemma menu_loop_continue (w w1 : World) :
  menu_turn w = Ok None w1 -> menu_loop w = menu_loop w1.
Proof.
  intros H. pose proof (menu_turn_run w) as Hrun. rewrite H in Hrun.
  destruct Hrun as [_ Hlt].
  pose proof (sound_menu_loop w1) as Hs.
  rewrite !menu_loop_unfold in *.
  apply while_true_continue; [done | lia |].
  intros Hout. by rewrite Hout in Hs.
Qed.

Lemma menu_turn_choice (w : World) (raw : string) (rest : list string) :
  stdin (env w) = raw :: rest ->
  exists w1,
    menu_turn w = menu_action (PyStr.strip raw) w1 /\
    stdin (env w1) = rest /\ console_only w w1.
Proof.
  intros Hin. unfold menu_turn. unfold bind at 1.
  destruct (display_menu_run w) as (w0 & -> & Hin0 & Hc0).
  unfold bind, input. fields. rewrite Hin0, Hin.
  eexists. split; [reflexivity|]. split; [done|].
  destruct Hc0 as (? & ? & ? & ? & ?). by repeat split.
Qed.

Lemma load_if_none_fails (w : World) (e : exn) :
  df (self w) = None ->
  load_failure w e ->
  exists w', load_if_none w = Raise e w' /\
             stdin (env w') = stdin (env w).
Proof.
  intros Hd Hfail. unfold load_if_none, load_dataset, bind, get, pd_read_csv.
  fields. rewrite Hd. fields.
  destruct Hfail as [[Hf ->] | (text & Hf & Hp)]; rewrite Hf.
  - eexists. by split.
  - rewrite Hp. eexists. by split.
Qed.

Lemma menu_action_load_failure (choice : string) (w : World) (e : exn) :
  In choice ["1"; "2"; "3"] ->
  df (self w) = None ->
  load_failure w e ->
  exists w', menu_action choice w = Raise e w' /\
             stdin (env w') = stdin (env w).
Proof.
  intros Hc Hd Hf.
  destruct (load_if_none_fails w e Hd Hf) as (w' & Hload & Hin).
  exists w'. split; [|done].
  destruct Hc as [<- | [<- | [<- | []]]]; unfold menu_action; cbn [String.eqb Ascii.eqb Bool.eqb].
  - unfold display_dataset_info. by do 2 apply bind_raise.
  - unfold select_features, get_numeric_columns. by do 3 apply bind_raise.
  - unfold train_model_default, train_model, train_split. by do 3 apply bind_raise.
Qed.

Lemma menu_action_untrained (w : World) :
  is_trained (self w) = false ->
  exists w',
    menu_action "4" w = Ok None w' /\
    stdin (env w') = stdin (env w) /\
    self w' = self w /\
    files (env w') = files (env w) /\
    last (stdout (env w'))
    = Some ((nl +:+ "  [!] Model is not trained yet. Please train first.") +:+ nl).
Proof.
  intros Hflag. unfold menu_action. cbn [String.eqb Ascii.eqb Bool.eqb].
  unfold predict_price. unfold bind at 1 2. cbn [get].
  rewrite Hflag. cbn [negb]. unfold bind, print, modify, ret.
  eexists. split; [reflexivity|]. fields. repeat split. apply last_snoc.
Qed.

Lemma load_predictions_no_file (w : World) :
  files (env w) !! data_file (self w) = None ->
  exists w',
    load_predictions w = Ok tt w' /\
    stdin (env w') = stdin (env w) /\
    self w' = self w /\
    files (env w') = files (env w) /\
    stdout (env w')
    = stdout (env w)
        ++ [(nl +:+ rule) +:+ nl; "           PREDICTION HISTORY" +:+ nl;
            rule +:+ nl; "  No predictions recorded yet." +:+ nl; rule +:+ nl].
Proof.
  intros Hf.
  unfold load_predictions, try_except, read_file_lines, bind, get, print, modify.
  fields. rewrite Hf. eexists. split; [reflexivity|]. fields.
  repeat split. by rewrite <- !app_assoc.
Qed.

Lemma menu_action_no_log (w : World) :
  files (env w) !! data_file (self w) = None ->
  exists w',
    menu_action "5" w = Ok None w' /\
    stdin (env w') = stdin (env w) /\
    self w' = self w /\
    ("  No predictions recorded yet." +:+ nl) ∈ stdout (env w').
Proof.
  intros Hf.
  destruct (load_predictions_no_file w Hf) as (w' & Hrun & Hin & Hself & _ & Hout).
  exists w'. unfold menu_action. cbn [String.eqb Ascii.eqb Bool.eqb].
  unfold bind. rewrite Hrun. split; [done|]. split; [done|]. split; [done|].
  rewrite Hout. apply elem_of_app. right. set_solver.
Qed.

Lemma menu_action_unknown (choice : string) (w : World) :
  ~ In choice ["1"; "2"; "3"; "4"; "5"; "6"] ->
  exists w',
    menu_action choice w = Ok None w' /\
    stdin (env w') = stdin (env w) /\
    self w' = self w /\
    files (env w') = files (env w) /\
    last (stdout (env w'))
    = Some ((nl +:+ "  [!] Invalid choice. Please enter a number between 1 and 6.")
              +:+ nl).
Proof.
  intros Hc. unfold menu_action.
  repeat match goal with
         | |- context [String.eqb choice ?c] =>
             destruct (String.eqb_spec choice c) as [-> | _];
             [exfalso; apply Hc; cbn; tauto|]
         end.
  eexists. split; [reflexivity|]. fields. repeat split. apply last_snoc.
Qed.

Lemma menu_action_training_error (w : World) (d : Frame.t float) (e : exn) :
  dataset w d ->
  training d (features (self w)) float_0_2 42 = inl e ->
  exists w', menu_action "3" w = Raise e w'.
Proof.
  intros Hd He.
  pose proof (train_model_run w d float_0_2 42 Hd) as Hrun. rewrite He in Hrun.
  unfold menu_action. cbn [String.eqb Ascii.eqb Bool.eqb].
  unfold train_model_default, bind.
  destruct (train_model float_0_2 42 w) as [a w'|e' w'|]; [done| |done].
  injection Hrun as ->. by exists w'.
Qed.

(** C6, as amended.  The menu loop catches nothing: an exception that
    leaves a menu action leaves the loop, and the lines still on the
    input are never read.  So it is when the dataset file is missing or
    rejected by pandas (choices 1, 2 and 3 with no frame cached) and when
    training fails.
    Among the conditions that are handled inside their action, after
    which the loop goes on with the next choice: any answer to the
    selection prompt (choice 2 returns whatever the answer converts to),
    predicting before training, a missing log file and, for a line of
    ASCII text, an unknown choice; the last three print their message. *)
Theorem menu_failures (w : World) (raw : string) (rest : list string) :
  stdin (env w) = raw :: rest ->
  (forall e w', menu_turn w = Raise e w' -> menu_loop w = Raise e w') /\
  (In (PyStr.strip raw) ["1"; "2"; "3"] ->
   df (self w) = None ->
   forall e,
     load_failure w e ->
     exists w', menu_loop w = Raise e w' /\ stdin (env w') = rest) /\
  (PyStr.strip raw = "3" ->
   forall d e,
     dataset w d ->
     training d (features (self w)) float_0_2 42 = inl e ->
     exists w', menu_loop w = Raise e w') /\
  (PyStr.strip raw = "4" ->
   is_trained (self w) = false ->
   exists w1,
     menu_turn w = Ok None w1 /\ menu_loop w = menu_loop w1 /\
     stdin (env w1) = rest /\ self w1 = self w /\
     files (env w1) = files (env w) /\
     last (stdout (env w1))
     = Some ((nl +:+ "  [!] Model is not trained yet. Please train first.") +:+ nl)) /\
  (PyStr.strip raw = "5" ->
   files (env w) !! data_file (self w) = None ->
   exists w1,
     menu_turn w = Ok None w1 /\ menu_loop w = menu_loop w1 /\
     stdin (env w1) = rest /\ self w1 = self w /\
     ("  No predictions recorded yet." +:+ nl) ∈ stdout (env w1)) /\
  (PyStr.is_ascii raw = true ->
   ~ In (PyStr.strip raw) ["1"; "2"; "3"; "4"; "5"; "6"] ->
   exists w1,
     menu_turn w = Ok None w1 /\ menu_loop w = menu_loop w1 /\
     stdin (env w1) = rest /\ self w1 = self w /\
     last (stdout (env w1))
     = Some ((nl +:+ "  [!] Invalid choice. Please enter a number between 1 and 6.")
               +:+ nl)) /\
  (PyStr.strip raw = "2" ->
   forall d answer rest',
     dataset w d ->
     rest = answer :: rest' ->
     exists w1,
       menu_turn w = Ok None w1 /\ menu_loop w = menu_loop w1 /\
       stdin (env w1) = rest' /\ files (env w1) = files (env w) /\
       is_trained (self w1) = false).
Proof.
  intros Hin.
  destruct (menu_turn_choice w raw rest Hin)
    as (w0 & Hturn & Hin0 & (Hself & Hfiles & _)).
  split; [apply menu_loop_raise|].
  split; [|split; [|split; [|split; [|split]]]].
  - intros Hc Hd e Hf.
    destruct (menu_action_load_failure (PyStr.strip raw) w0 e Hc)
      as (w' & Hact & Hin');
      [by rewrite Hself | unfold load_failure in *; by rewrite Hself, Hfiles |].
    exists w'. split; [|congruence].
    apply menu_loop_raise. by rewrite Hturn.
  - intros Hc d e Hd He.
    assert (Hd0 : dataset w0 d).
    { unfold dataset in *. by rewrite Hself, Hfiles. }
    destruct (menu_action_training_error w0 d e Hd0) as (w' & Hact);
      [by rewrite Hself|].
    exists w'. apply menu_loop_raise. by rewrite Hturn, Hc.
  - intros Hc Hflag.
    destruct (menu_action_untrained w0) as (w1 & Hact & Hin1 & Hs1 & Hf1 & Hlast);
      [by rewrite Hself|].
    rewrite Hc in Hturn. rewrite Hact in Hturn.
    exists w1. split; [done|]. split; [by apply menu_loop_continue|].
    repeat split; congruence.
  - intros Hc Hf.
    destruct (menu_action_no_log w0) as (w1 & Hact & Hin1 & Hs1 & Hmsg);
      [by rewrite Hself, Hfiles|].
    rewrite Hc in Hturn. rewrite Hact in Hturn.
    exists w1. split; [done|]. split; [by apply menu_loop_continue|].
    repeat split; congruence.
  - intros _ Hc.
    destruct (menu_action_unknown (PyStr.strip raw) w0 Hc)
      as (w1 & Hact & Hin1 & Hs1 & Hf1 & Hlast).
    rewrite Hact in Hturn.
    exists w1. split; [done|]. split; [by apply menu_loop_continue|].
    repeat split; congruence.
  - intros Hc d answer rest' Hd ->.
    assert (Hd0 : dataset w0 d).
    { unfold dataset in *. by rewrite Hself, Hfiles. }
    destruct (select_features_run w0 d answer rest' Hd0 Hin0)
      as (w1 & Hsel & _ & Hflag & _ & _ & _ & Hin1 & Hf1).
    assert (Hturn1 : menu_turn w = Ok None w1).
    { rewrite Hturn, Hc. unfold menu_action.
      cbn [String.eqb Ascii.eqb Bool.eqb]. unfold bind. by rewrite Hsel. }
    exists w1. split; [done|]. split; [by apply menu_loop_continue|].
    repeat split; congruence.
Qed.

(* ================================================================== *)
(** * Further properties of the methods and of the session *)
(* ================================================================== *)

(* ---------------------------------------------------------------- *)
(** ** Relations kept by every statement *)

Section Keeps.
Context (R : World -> World -> Prop) `{!Ambient R}.

Lemma keeps_ret {A} (a : A) : keeps R (ret a).
Proof. intros w. apply ambient_refl. Qed.

Lemma keeps_raise {A} (e : exn) : keeps R (@raise _ A e).
Proof. intros w. apply ambient_refl. Qed.

Lemma keeps_get : keeps R get.
Proof. intros w. apply ambient_refl. Qed.

Lemma keeps_call {A} (r : exn + A) : keeps R (call r).
Proof. intros w. destruct r; apply ambient_refl. Qed.

Lemma keeps_modify (f : World -> World) :
  (forall w, R w (f w)) -> keeps R (modify f).
Proof. intros H w. apply H. Qed.

Lemma keeps_print (s : string) : keeps R (print s).
Proof. intros w. apply ambient_stdout. Qed.

Lemma keeps_input (prompt : string) : keeps R (input prompt).
Proof.
  intros w. unfold input.
  set (w1 := set_stdout (stdout (env w) ++ [prompt]) w).
  assert (H1 : R w w1) by apply ambient_stdout.
  destruct (stdin (env w1)) as [|l rest] eqn:Hin; [done|].
  eapply ambient_trans; [exact H1|]. by eapply ambient_stdin.
Qed.

Lemma keeps_pd_read_csv (path : string) : keeps R (pd_read_csv path).
Proof.
  intros w. unfold pd_read_csv.
  set (w1 := set_csv_reads (S (csv_reads (env w))) w).
  assert (H1 : R w w1) by apply ambient_csv_reads.
  destruct (files (env w1) !! path) as [text|]; [|done].
  by destruct (parse_csv text).
Qed.

Lemma keeps_datetime_now : keeps R datetime_now.
Proof. intros w. apply ambient_clock. Qed.

Lemma keeps_read_file_lines (path : string) : keeps R (read_file_lines path).
Proof.
  intros w. unfold read_file_lines.
  destruct (files (env w) !! path); apply ambient_refl.
Qed.

Lemma keeps_bind {A B} (m : M A) (k : A -> M B) :
  keeps R m -> (forall a, keeps R (k a)) -> keeps R (x <- m ;; k x).
Proof.
  intros Hm Hk w. unfold bind. specialize (Hm w).
  destruct (m w) as [a w1|e w1|]; [|done|done].
  specialize (Hk a w1).
  destruct (k a w1); [| |done]; by eapply ambient_trans.
Qed.

Lemma keeps_for_each {A} (l : list A) (body : A -> M unit) :
  (forall x, keeps R (body x)) -> keeps R (for_each l body).
Proof.
  intros Hb. induction l as [|x l IH]; cbn [for_each].
  - apply keeps_ret.
  - apply keeps_bind; [apply Hb | by intros _].
Qed.

Lemma keeps_comprehension {A B} (f : A -> M B) (l : list A) :
  (forall x, keeps R (f x)) -> keeps R (comprehension f l).
Proof.
  intros Hf. induction l as [|x l IH]; cbn [comprehension].
  - apply keeps_ret.
  - apply keeps_bind; [apply Hf | intros y].
    apply keeps_bind; [apply IH | intros ys; apply keeps_ret].
Qed.

Lemma keeps_try_except {A} (body handler : M A) (handles : exn -> bool) :
  keeps R body -> keeps R handler -> keeps R (try_except body handles handler).
Proof.
  intros Hb Hh w. unfold try_except. specialize (Hb w).
  destruct (body w) as [a w1|e w1|]; [done| |done].
  destruct (handles e); [|done]. specialize (Hh w1).
  destruct (handler w1); [| |done]; by eapply ambient_trans.
Qed.

Lemma keeps_while_true {A} (body : M (option A)) (fuel : nat) :
  keeps R body -> keeps R (while_true fuel body).
Proof.
  intros Hb. induction fuel as [|fuel IH]; [done|].
  cbn [while_true]. apply keeps_bind; [done|].
  intros [a|]; [apply keeps_ret | done].
Qed.

End Keeps.

(** Structural steps of a proof that a method keeps a relation; [leaf]
    settles a field assignment. *)
Ltac keeps_tac leaf :=
  repeat (cbv zeta;
          lazymatch goal with
          | |- keeps ?R (bind _ _) => apply (keeps_bind R); [|intros ?]
          | |- keeps ?R (ret _) => apply (keeps_ret R)
          | |- keeps ?R (raise _) => apply (keeps_raise R)
          | |- keeps ?R get => apply (keeps_get R)
          | |- keeps ?R (print _) => apply (keeps_print R)
          | |- keeps ?R (input _) => apply (keeps_input R)
          | |- keeps ?R (call _) => apply (keeps_call R)
          | |- keeps ?R datetime_now => apply (keeps_datetime_now R)
          | |- keeps ?R (read_file_lines _) => apply (keeps_read_file_lines R)
          | |- keeps ?R (modify _) => apply (keeps_modify R); intros ?; leaf
          | |- keeps ?R (for_each _ _) => apply (keeps_for_each R); intros ?
          | |- keeps ?R (comprehension _ _) =>
              apply (keeps_comprehension R); intros ?
          | |- keeps ?R (try_except _ _ _) => apply (keeps_try_except R)
          | |- keeps ?R (while_true _ _) => apply (keeps_while_true R)
          | |- keeps _ (match ?x with _ => _ end) => destruct x
          | |- keeps _ _ =>
              first [ assumption
                    | match goal with H : forall _, keeps _ _ |- _ => apply H end
                    | match goal with H : forall _ _, keeps _ _ |- _ => apply H end ]
          end).

(* ---------------------------------------------------------------- *)
(** ** Input in order, log only growing, frame kept *)

Lemma orderly_same (w w' : World) :
  stdin (env w') = stdin (env w) ->
  csv_path (self w') = csv_path (self w) ->
  data_file (self w') = data_file (self w) ->
  files (env w') = files (env w) ->
  df (self w') = df (self w) ->
  orderly w w'.
Proof.
  intros Hin Hcsv Hdata Hfiles Hdf. split; [|split].
  - unfold input_in_order. by rewrite Hin.
  - split; [done|]. split; [done|]. split; [by rewrite Hfiles|].
    exists "". unfold log_text. by rewrite Hfiles, Hdata, str_app_nil_r.
  - intros d. by rewrite Hdf.
Qed.

Lemma orderly_refl (w : World) : orderly w w.
Proof. by apply orderly_same. Qed.

Lemma orderly_trans (w1 w2 w3 : World) :
  orderly w1 w2 -> orderly w2 w3 -> orderly w1 w3.
Proof.
  intros (Hin1 & (Hc1 & Hd1 & Ho1 & (a1 & Ha1)) & Hf1)
         (Hin2 & (Hc2 & Hd2 & Ho2 & (a2 & Ha2)) & Hf2).
  split; [|split].
  - unfold input_in_order in *. by etrans.
  - split; [congruence|]. split; [congruence|]. split.
    + intros path Hp. rewrite Ho2, Ho1; [done..|congruence].
    + exists (a1 +:+ a2). by rewrite Ha2, Ha1, str_app_assoc.
  - intros d Hd. auto.
Qed.

#[local] Instance orderly_ambient : Ambient orderly.
Proof.
  split.
  - apply orderly_refl.
  - apply orderly_trans.
  - intros w out. by apply orderly_same.
  - intros w l rest Hin. split; [|split].
    + unfold input_in_order. fields. rewrite Hin. by apply suffix_cons_r.
    + split; [done|]. split; [done|]. split; [done|].
      exists "". by rewrite str_app_nil_r.
    + by intros d.
  - intros w n. by apply orderly_same.
  - intros w n. by apply orderly_same.
Qed.

Lemma orderly_cache (w w' : World) :
  stdin (env w') = stdin (env w) ->
  csv_path (self w') = csv_path (self w) ->
  data_file (self w') = data_file (self w) ->
  files (env w') = files (env w) ->
  df (self w) = None ->
  orderly w w'.
Proof.
  intros Hin Hcsv Hdata Hfiles Hdf. split; [|split].
  - unfold input_in_order. by rewrite Hin.
  - split; [done|]. split; [done|]. split; [by rewrite Hfiles|].
    exists "". unfold log_text. by rewrite Hfiles, Hdata, str_app_nil_r.
  - intros d. by rewrite Hdf.
Qed.

Lemma orderly_load_if_none : keeps orderly load_if_none.
Proof.
  intros w. unfold load_if_none, bind, get.
  destruct (df (self w)) as [d|] eqn:Hd; [apply orderly_refl|].
  unfold load_dataset, bind, get, pd_read_csv. fields.
  destruct (files (env w) !! csv_path (self w)) as [text|].
  - destruct (parse_csv text) as [e|d]; cbn; by apply orderly_cache.
  - by apply orderly_cache.
Qed.

Lemma orderly_save_prediction (values : Dict.t float) (price : float) :
  keeps orderly (save_prediction values price).
Proof.
  intros w.
  unfold save_prediction, bind, datetime_now, get, append_file, print, modify.
  fields. split; [by unfold input_in_order|]. split; [|by intros d].
  split; [done|]. split; [done|]. split.
  - intros path Hp. unfold TextFile.append. fields.
    by rewrite lookup_insert_ne.
  - eexists. unfold log_text, TextFile.append. fields.
    by rewrite lookup_insert_eq.
Qed.

Ltac orderly_leaf := by apply orderly_same.

Lemma orderly_the_df : keeps orderly the_df.
Proof. unfold the_df. keeps_tac orderly_leaf. Qed.

Lemma orderly_display_dataset_info : keeps orderly display_dataset_info.
Proof.
  unfold display_dataset_info.
  pose proof orderly_load_if_none. pose proof orderly_the_df.
  keeps_tac orderly_leaf.
Qed.

Lemma orderly_select_features : keeps orderly select_features.
Proof.
  unfold select_features, get_numeric_columns.
  pose proof orderly_load_if_none. pose proof orderly_the_df.
  keeps_tac orderly_leaf.
Qed.

Lemma orderly_train_model (test_size : float) (random_state : Z) :
  keeps orderly (train_model test_size random_state).
Proof.
  unfold train_model, train_split, model_predict, display_r_squared.
  pose proof orderly_load_if_none. pose proof orderly_the_df.
  keeps_tac orderly_leaf.
Qed.

Lemma orderly_predict_price : keeps orderly predict_price.
Proof.
  assert (Hvals : forall feats values, keeps orderly (ask_values feats values)).
  { induction feats as [|feat feats IH]; intros values; cbn [ask_values].
    - apply (keeps_ret orderly).
    - apply (keeps_bind orderly); [|apply IH].
      unfold ask_value, ask_turn. keeps_tac orderly_leaf. }
  pose proof orderly_save_prediction.
  unfold predict_price, model_predict.
  apply (keeps_bind orderly); [apply (keeps_get orderly) | intros w].
  destruct (negb (is_trained (self w))); keeps_tac orderly_leaf.
Qed.

Lemma orderly_load_predictions : keeps orderly load_predictions.
Proof. unfold load_predictions. keeps_tac orderly_leaf. Qed.

Lemma orderly_menu_turn : keeps orderly menu_turn.
Proof.
  pose proof orderly_display_dataset_info. pose proof orderly_select_features.
  pose proof orderly_train_model. pose proof orderly_predict_price.
  pose proof orderly_load_predictions.
  unfold menu_turn, display_menu, menu_action, train_model_default.
  keeps_tac orderly_leaf.
Qed.

Lemma orderly_menu_loop : keeps orderly menu_loop.
Proof.
  pose proof orderly_menu_turn. unfold menu_loop. keeps_tac orderly_leaf.
Qed.

Lemma orderly_at_menu (w0 w : World) : at_menu w0 w -> orderly w0 w.
Proof.
  induction 1 as [|w w' _ IH Hturn]; [apply orderly_refl|].
  pose proof (orderly_menu_turn w) as H. rewrite Hturn in H.
  by eapply orderly_trans.
Qed.

(* ---------------------------------------------------------------- *)
(** ** Leaving the menu loop *)

Lemma menu_action_break (choice : string) (w : World) (u : unit) (w' : World) :
  menu_action choice w = Ok (Some u) w' ->
  choice = "6" /\
  self w' = self w /\ stdin (env w') = stdin (env w) /\
  files (env w') = files (env w) /\
  last (stdout (env w')) = Some (("  Goodbye!" +:+ nl) +:+ nl).
Proof.
  unfold menu_action. intros H.
  repeat match type of H with
         | (if String.eqb choice ?c then _ else _) _ = _ =>
             destruct (String.eqb_spec choice c) as [-> | _]
         end;
    try (apply bind_ok_inv in H as (? & ? & _ & H); by inversion H).
  - split; [done|]. unfold bind, print, modify, ret in H. inversion H.
    fields. repeat split. apply last_snoc.
Qed.

Lemma menu_turn_eof (w : World) :
  stdin (env w) = [] ->
  exists w', menu_turn w = Raise EOFError w' /\
             self w' = self w /\ files (env w') = files (env w).
Proof.
  intros Hin. unfold menu_turn. unfold bind at 1.
  destruct (display_menu_run w) as (w0 & -> & Hin0 & (Hs & Hf & _)).
  unfold bind, input. fields. rewrite Hin0, Hin. eexists. by repeat split.
Qed.

Lemma menu_turn_break (w : World) (u : unit) (w' : World) :
  menu_turn w = Ok (Some u) w' ->
  exists raw rest,
    stdin (env w) = raw :: rest /\ PyStr.strip raw = "6" /\
    stdin (env w') = rest /\ self w' = self w /\
    files (env w') = files (env w) /\
    last (stdout (env w')) = Some (("  Goodbye!" +:+ nl) +:+ nl).
Proof.
  intros H. destruct (stdin (env w)) as [|raw rest] eqn:Hin.
  { destruct (menu_turn_eof w Hin) as (? & Hr & _). congruence. }
  destruct (menu_turn_choice w raw rest Hin) as (w0 & Hturn & Hin0 & (Hs & Hf & _)).
  rewrite Hturn in H.
  apply menu_action_break in H as (Hc & Hs' & Hin' & Hf' & Hlast).
  exists raw, rest. repeat split; congruence.
Qed.

(** A loop that returns has gone through turns that went on, then one
    that broke: a property of the worlds that every turn which goes on
    keeps holds where the breaking turn starts. *)
Lemma while_true_returns {A} (body : M (option A)) (P : World -> Prop) :
  (forall w w', P w -> body w = Ok None w' -> P w') ->
  forall (fuel : nat) (w : World) (a : A) (w' : World),
    P w ->
    while_true fuel body w = Ok a w' ->
    exists w1, P w1 /\ body w1 = Ok (Some a) w'.
Proof.
  intros Hstep fuel.
  induction fuel as [|fuel IH]; intros w a w' HP H; [done|].
  cbn [while_true] in H. unfold bind in H.
  destruct (body w) as [[a1|] w1|e w1|] eqn:Hturn; [| |done|done].
  - injection H as <- <-. by exists w.
  - eapply IH; [|exact H]. by eapply Hstep.
Qed.

Lemma while_true_menu_returns (w : World) (u : unit) (w' : World) :
  menu_loop w = Ok u w' ->
  exists w1, at_menu w w1 /\ menu_turn w1 = Ok (Some u) w'.
Proof.
  rewrite menu_loop_unfold.
  apply (while_true_returns menu_turn (at_menu w)).
  - intros w1 w2 Hat Hturn. by eapply at_menu_turn.
  - constructor.
Qed.

Lemma while_true_break {A} (body : M (option A)) (fuel : nat) (w w' : World)
      (a : A) :
  body w = Ok (Some a) w' -> while_true (S fuel) body w = Ok a w'.
Proof. intros H. cbn [while_true]. unfold bind. by rewrite H. Qed.

Lemma in_suffix {A} (x : A) (l1 l2 : list A) :
  l1 `suffix_of` l2 -> In x l1 -> In x l2.
Proof. intros [k ->] Hin. apply in_or_app. by right. Qed.

(** X1.  On an input of ASCII lines (on which the [strip] of this file
    is Python's) the menu loop returns only through choice 6: when it
    returns, some line of the input, read as a menu choice, strips to
    ["6"]; the loop stops right after that line, having printed its
    goodbye, and the lines after it are left unread.  On such an input
    without a line that strips to ["6"] the loop never returns: it ends
    with an exception. *)
Theorem menu_loop_returns_by_exit (w : World) :
  Forall (fun line => PyStr.is_ascii line = true) (stdin (env w)) ->
  (forall u w',
      menu_loop w = Ok u w' ->
      exists w1 raw rest,
        at_menu w w1 /\
        stdin (env w1) = raw :: rest /\ PyStr.strip raw = "6" /\
        In raw (stdin (env w)) /\
        stdin (env w') = rest /\ self w' = self w1 /\
        last (stdout (env w')) = Some (("  Goodbye!" +:+ nl) +:+ nl)) /\
  (Forall (fun line => PyStr.strip line <> "6") (stdin (env w)) ->
   exists e w', menu_loop w = Raise e w').
Proof.
  intros _.
  assert (Hret : forall u w',
             menu_loop w = Ok u w' ->
             exists w1 raw rest,
               at_menu w w1 /\
               stdin (env w1) = raw :: rest /\ PyStr.strip raw = "6" /\
               In raw (stdin (env w)) /\
               stdin (env w') = rest /\ self w' = self w1 /\
               last (stdout (env w')) = Some (("  Goodbye!" +:+ nl) +:+ nl)).
  { intros u w' H.
    apply while_true_menu_returns in H as (w1 & Hat & Hbreak).
    apply menu_turn_break in Hbreak as (raw & rest & Hin & Hc & Hin' & Hs & _ & Hl).
    exists w1, raw, rest. repeat (split; [done|]). split; [|done].
    destruct (orderly_at_menu w w1 Hat) as (Hsuf & _).
    eapply in_suffix; [exact Hsuf|]. rewrite Hin. by left. }
  split; [exact Hret|].
  intros Hno. pose proof (sound_menu_loop w) as Hs.
  destruct (menu_loop w) as [u w'|e w'|] eqn:Hrun; [|eauto|done].
  destruct (Hret u w' eq_refl) as (w1 & raw & rest & _ & _ & Hc & Hin & _).
  rewrite List.Forall_forall in Hno. by apply Hno in Hin.
Qed.

(** X2.  Choice 6 as the next line ends the loop at once: it returns,
    the session is as it was, no file has changed and the lines after the
    choice are left on the input.  At the end of the input the loop ends
    with [EOFError]. *)
Theorem menu_loop_exit (w : World) :
  (forall raw rest,
      stdin (env w) = raw :: rest -> PyStr.strip raw = "6" ->
      exists w',
        menu_loop w = Ok tt w' /\
        stdin (env w') = rest /\ self w' = self w /\
        files (env w') = files (env w)) /\
  (stdin (env w) = [] ->
   exists w', menu_loop w = Raise EOFError w' /\
              self w' = self w /\ files (env w') = files (env w)).
Proof.
  split.
  - intros raw rest Hin Hc.
    destruct (menu_turn_choice w raw rest Hin) as (w0 & Hturn & Hin0 & (Hs & Hf & _)).
    rewrite Hc in Hturn. unfold menu_action in Hturn.
    cbn [String.eqb Ascii.eqb Bool.eqb] in Hturn.
    unfold bind, print, modify, ret in Hturn.
    eexists. split.
    { rewrite menu_loop_unfold. apply while_true_break. exact Hturn. }
    fields. by repeat split.
  - intros Hin. destruct (menu_turn_eof w Hin) as (w' & Hturn & Hs & Hf).
    exists w'. split; [by apply menu_loop_raise|done].
Qed.

(* ---------------------------------------------------------------- *)
(** ** What a whole session does to the files and to the cached frame *)

(** X3.  Whatever the input, [main()] ends, by returning or by raising;
    the world it leaves has every file other than [data.txt] as it was,
    the text of [data.txt] is the text at the start with something added
    at its end, and the input left is an end piece of the input given. *)
Theorem main_writes_the_log_only (e : Env) :
  match main e with
  | Ok _ w' | Raise _ w' =>
      (forall path, path <> "data.txt" ->
                    files (env w') !! path = files e !! path) /\
      (exists added,
          default "" (files (env w') !! "data.txt")
          = default "" (files e !! "data.txt") +:+ added) /\
      stdin (env w') `suffix_of` stdin e
  | OutOfFuel => False
  end.
Proof.
  unfold main. set (w := mkWorld (init "kc_house_data.csv" "data.txt") e).
  pose proof (sound_menu_loop w) as Hs. pose proof (orderly_menu_loop w) as Ho.
  destruct (menu_loop w) as [u w'|ex w'|]; [| |done];
    destruct Ho as (Hin & (Hc & Hd & Hf & (added & Hadd)) & _);
    (split; [exact Hf|]); (split; [|exact Hin]);
    exists added; unfold log_text in Hadd; by rewrite Hd in Hadd.
Qed.

(** X4.  A data frame once cached is the frame of the rest of the
    session: it is the cached frame each time the menu is shown again,
    and in the world the loop leaves when it returns or raises. *)
Theorem cached_frame_is_kept (w : World) (d : Frame.t float) :
  df (self w) = Some d ->
  (forall w1, at_menu w w1 -> df (self w1) = Some d) /\
  match menu_loop w with
  | Ok _ w' | Raise _ w' => df (self w') = Some d
  | OutOfFuel => False
  end.
Proof.
  intros Hd. split.
  - intros w1 Hat. destruct (orderly_at_menu w w1 Hat) as (_ & _ & Hk). auto.
  - pose proof (sound_menu_loop w) as Hs. pose proof (orderly_menu_loop w) as Ho.
    destruct (menu_loop w) as [u w'|ex w'|]; [| |done];
      destruct Ho as (_ & _ & Hk); auto.
Qed.

(* ---------------------------------------------------------------- *)
(** ** Runs that raise *)

Lemma wpx_elim {A} (m : M A) e Q w :
  wpx m e Q w -> exists w', m w = Raise e w' /\ Q w'.
Proof.
  unfold wpx. destruct (m w) as [|e' w'|]; [done| |done].
  intros [-> HQ]. eauto.
Qed.

Lemma wpx_bind_ok {A B} (m : M A) (k : A -> M B) e Q w :
  wp m (fun a w' => wpx (k a) e Q w') w -> wpx (x <- m ;; k x) e Q w.
Proof. unfold wp, wpx, bind. by destruct (m w). Qed.

Lemma wpx_bind_raise {A B} (m : M A) (k : A -> M B) e Q w :
  wpx m e Q w -> wpx (x <- m ;; k x) e Q w.
Proof. unfold wpx, bind. by destruct (m w). Qed.

Lemma wpx_input_eof prompt Q w :
  stdin (env w) = [] ->
  Q (set_stdout (stdout (env w) ++ [prompt]) w) ->
  wpx (input prompt) EOFError Q w.
Proof. unfold wpx, input. cbn. by intros ->. Qed.

Ltac stepx :=
  cbv beta;
  lazymatch goal with
  | |- wpx (bind (input _) _) _ _ _ =>
      apply wpx_bind_raise; apply wpx_input_eof; fields
  | |- wpx (bind _ _) _ _ _ => apply wpx_bind_ok; step
  end.

Lemma dataset_or_failure (w : World) :
  (exists d, dataset w d) \/ (df (self w) = None /\ exists e, load_failure w e).
Proof.
  unfold dataset, load_failure.
  destruct (df (self w)) as [d|]; [left; eauto|].
  destruct (files (env w) !! csv_path (self w)) as [text|] eqn:Hf.
  - destruct (parse_csv text) as [e|d] eqn:Hp.
    + right. split; [done|]. exists e. right. eauto.
    + left. exists d. right. eauto.
  - right. split; [done|]. exists FileNotFoundError. by left.
Qed.

(** At the end of the input [select_features] raises at its prompt,
    before it has touched the feature list or the flag. *)
Lemma select_features_eof (w : World) (d : Frame.t float) :
  dataset w d ->
  stdin (env w) = [] ->
  exists w',
    select_features w = Raise EOFError w' /\
    features (self w') = features (self w) /\
    is_trained (self w') = is_trained (self w) /\
    df (self w') = Some d /\
    files (env w') = files (env w) /\
    model (self w') = model (self w) /\
    r2 (self w') = r2 (self w).
Proof.
  intros Hd Hin.
  cut (wpx select_features EOFError
         (fun w' =>
            features (self w') = features (self w) /\
            is_trained (self w') = is_trained (self w) /\
            df (self w') = Some d /\
            files (env w') = files (env w) /\
            model (self w') = model (self w) /\
            r2 (self w') = r2 (self w)) w).
  { intros (w' & Hrun & HQ)%wpx_elim. eauto. }
  unfold select_features, get_numeric_columns.
  apply wpx_bind_ok. steps.
  apply (wp_load_if_none _ d); [done|].
  intros w1 Hdf1 Hfe1 Hm1 Hr1 Hfl1 _ _ Hf1 Hin1 _ _ _.
  steps. apply (wp_the_df _ d); [done|]. steps.
  repeat stepx; [by rewrite Hin1, Hin|done].
Qed.

(* ---------------------------------------------------------------- *)
(** ** The state of a session between two menu actions *)

Lemma frame_kept_same (w w' : World) : df (self w') = df (self w) -> frame_kept w w'.
Proof. intros H d. by rewrite H. Qed.

Lemma model_state_kept_same (w w' : World) :
  features (self w') = features (self w) ->
  model (self w') = model (self w) ->
  r2 (self w') = r2 (self w) ->
  is_trained (self w') = is_trained (self w) ->
  df (self w') = df (self w) ->
  model_state_kept w w'.
Proof. intros. repeat (split; [done|]). by apply frame_kept_same. Qed.

#[local] Instance model_state_kept_ambient : Ambient model_state_kept.
Proof.
  split; try (intros; by apply model_state_kept_same).
  intros w1 w2 w3 (? & ? & ? & ? & Hk1) (? & ? & ? & ? & Hk2).
  repeat (split; [congruence|]). intros d Hd. auto.
Qed.

#[local] Instance features_kept_ambient : Ambient features_kept.
Proof.
  split; try (intros; split; [done | by apply frame_kept_same]).
  intros w1 w2 w3 (? & Hk1) (? & Hk2).
  split; [congruence|]. intros d Hd. auto.
Qed.

Lemma frame_kept_load_if_none (w : World) :
  match load_if_none w with
  | Ok _ w' | Raise _ w' =>
      features (self w') = features (self w) /\
      model (self w') = model (self w) /\
      r2 (self w') = r2 (self w) /\
      is_trained (self w') = is_trained (self w) /\
      frame_kept w w'
  | OutOfFuel => True
  end.
Proof.
  unfold load_if_none, bind, get.
  destruct (df (self w)) as [d|] eqn:Hd;
    [repeat (split; [done|]); by intros ?|].
  unfold load_dataset, bind, get, pd_read_csv. fields.
  assert (Hk : forall w', frame_kept w w') by (intros w' d; by rewrite Hd).
  destruct (files (env w) !! csv_path (self w)) as [text|];
    [|repeat (split; [done|]); apply Hk].
  destruct (parse_csv text) as [e|d]; cbn; repeat (split; [done|]); apply Hk.
Qed.

Lemma model_state_kept_load_if_none : keeps model_state_kept load_if_none.
Proof. intros w. apply frame_kept_load_if_none. Qed.

Lemma features_kept_load_if_none : keeps features_kept load_if_none.
Proof.
  intros w. pose proof (frame_kept_load_if_none w) as H.
  destruct (load_if_none w); [| |done]; by destruct H as (? & _ & _ & _ & ?).
Qed.

Ltac model_state_leaf := by apply model_state_kept_same.

Lemma model_state_kept_display_dataset_info :
  keeps model_state_kept display_dataset_info.
Proof.
  unfold display_dataset_info, the_df.
  pose proof model_state_kept_load_if_none.
  keeps_tac model_state_leaf.
Qed.

Lemma model_state_kept_predict_price : keeps model_state_kept predict_price.
Proof.
  assert (Hvals : forall feats values,
             keeps model_state_kept (ask_values feats values)).
  { induction feats as [|feat feats IH]; intros values; cbn [ask_values].
    - apply (keeps_ret model_state_kept).
    - apply (keeps_bind model_state_kept); [|apply IH].
      unfold ask_value, ask_turn. keeps_tac model_state_leaf. }
  unfold predict_price, model_predict, save_prediction, append_file.
  apply (keeps_bind model_state_kept);
    [apply (keeps_get model_state_kept) | intros w].
  destruct (negb (is_trained (self w))); keeps_tac model_state_leaf.
Qed.

Lemma model_state_kept_load_predictions : keeps model_state_kept load_predictions.
Proof. unfold load_predictions. keeps_tac model_state_leaf. Qed.

Lemma model_state_kept_menu_action (choice : string) :
  choice <> "2" -> choice <> "3" ->
  keeps model_state_kept (menu_action choice).
Proof.
  intros H2%String.eqb_neq H3%String.eqb_neq.
  pose proof model_state_kept_display_dataset_info.
  pose proof model_state_kept_predict_price.
  pose proof model_state_kept_load_predictions.
  unfold menu_action. rewrite H2, H3.
  keeps_tac model_state_leaf.
Qed.

Lemma features_kept_train_model (test_size : float) (random_state : Z) :
  keeps features_kept (train_model test_size random_state).
Proof.
  unfold train_model, train_split, model_predict, display_r_squared, the_df.
  pose proof features_kept_load_if_none.
  keeps_tac ltac:(by split; [|apply frame_kept_same]).
Qed.

Lemma well_formed_kept (w w' : World) :
  model_state_kept w w' -> well_formed w -> well_formed w'.
Proof.
  intros (Hfe & Hm & Hr & Hfl & Hk) (Hne & Hcols & Hfit).
  rewrite <- Hfe in Hne, Hcols. rewrite <- Hfl, <- Hm, <- Hr in Hfit.
  split; [done|]. split; [|done].
  destruct Hcols as [? | (d & Hd & Hall)]; [by left|]. right. eauto.
Qed.

Lemma selection_from_available (available : list string) (s : string) :
  selection available s = DEFAULT_FEATURES \/
  (selection available s <> [] /\
   Forall (fun f => In f available) (selection available s)).
Proof.
  unfold selection. destruct (String.eqb s ""); [by left|].
  destruct (mapM parse_index _) as [indices|]; [|by left].
  destruct (lookups_in_range available _ (filter_in_range _ indices))
    as (names & -> & Hn).
  destruct names as [|n names]; [by left|]. right. split; [done|].
  eapply Forall2_Forall_r; [exact Hn|].
  apply Forall_forall. intros i _ y Hy.
  apply list_elem_of_In. by eapply list_elem_of_lookup_2.
Qed.

Lemma select_features_well_formed (w : World) (u : unit) (w' : World) :
  select_features w = Ok u w' -> well_formed w'.
Proof.
  intros H. destruct (dataset_or_failure w) as [[d Hd] | (Hnone & e & Hfail)].
  - destruct (stdin (env w)) as [|raw rest] eqn:Hin.
    + destruct (select_features_eof w d Hd Hin) as (? & Hr & _). congruence.
    + destruct (select_features_run w d raw rest Hd Hin)
        as (w1 & Hr & Hfeat & Hflag & Hdf & _).
      rewrite Hr in H. injection H as _ <-.
      pose proof (selection_from_available (numeric_columns d) (PyStr.strip raw))
        as Hsel.
      rewrite <- Hfeat in Hsel.
      split; [|split].
      * by destruct Hsel as [-> | [? _]].
      * destruct Hsel as [? | [_ ?]]; [by left | right; eauto].
      * by rewrite Hflag.
  - destruct (load_if_none_fails w e Hnone Hfail) as (w1 & Hl & _).
    assert (Hr : select_features w = Raise e w1).
    { unfold select_features, get_numeric_columns. by do 2 apply bind_raise. }
    congruence.
Qed.

Lemma train_model_well_formed (test_size : float) (random_state : Z)
      (w : World) (u : unit) (w' : World) :
  train_model test_size random_state w = Ok u w' ->
  well_formed w -> well_formed w'.
Proof.
  intros H (Hne & Hcols & _).
  pose proof (features_kept_train_model test_size random_state w) as Hk.
  rewrite H in Hk. destruct Hk as [Hfe Hk].
  rewrite <- Hfe in Hne, Hcols.
  split; [done|]. split.
  { destruct Hcols as [? | (d & Hd & Hall)]; [by left|]. right. eauto. }
  intros _.
  destruct (dataset_or_failure w) as [[d Hd] | (Hnone & e & Hfail)].
  - pose proof (train_model_run w d test_size random_state Hd) as Hrun.
    rewrite H in Hrun. cbn [trained_state] in Hrun.
    destruct (training d (features (self w)) test_size random_state)
      as [e | [r score]]; [done|].
    injection Hrun as -> -> _. eauto.
  - destruct (load_if_none_fails w e Hnone Hfail) as (w1 & Hl & _).
    assert (Hr : train_model test_size random_state w = Raise e w1).
    { unfold train_model, train_split. by do 2 apply bind_raise. }
    congruence.
Qed.

Lemma menu_action_well_formed (choice : string) (w : World)
      (r : option unit) (w' : World) :
  menu_action choice w = Ok r w' -> well_formed w -> well_formed w'.
Proof.
  intros H Hwf.
  destruct (String.eqb_spec choice "2") as [-> | H2].
  { unfold menu_action in H. cbn [String.eqb Ascii.eqb Bool.eqb] in H.
    apply bind_ok_inv in H as (a & w1 & H1 & Hret). injection Hret as _ <-.
    by eapply select_features_well_formed. }
  destruct (String.eqb_spec choice "3") as [-> | H3].
  { unfold menu_action in H. cbn [String.eqb Ascii.eqb Bool.eqb] in H.
    apply bind_ok_inv in H as (a & w1 & H1 & Hret). injection Hret as _ <-.
    by eapply train_model_well_formed. }
  pose proof (model_state_kept_menu_action choice H2 H3 w) as Hk.
  rewrite H in Hk. by eapply well_formed_kept.
Qed.

Lemma menu_turn_well_formed (w : World) (r : option unit) (w' : World) :
  menu_turn w = Ok r w' -> well_formed w -> well_formed w'.
Proof.
  intros H Hwf. destruct (stdin (env w)) as [|raw rest] eqn:Hin.
  { destruct (menu_turn_eof w Hin) as (? & Hr & _). congruence. }
  destruct (menu_turn_choice w raw rest Hin) as (w0 & Hturn & _ & (Hs & _)).
  rewrite Hturn in H. eapply menu_action_well_formed; [exact H|].
  unfold well_formed in *. by rewrite Hs.
Qed.

(** X5.  Each time the menu of a session is shown, the session started
    from a fresh [HousePriceModel]: the feature list is not empty; it is
    the default list, or it is made of numeric columns of the cached data
    frame; and if the flag [is_trained] is up, the model is a fitted one
    and a score is stored. *)
Theorem session_well_formed (csv data : string) (e : Env) (w : World) :
  at_menu (mkWorld (init csv data) e) w -> well_formed w.
Proof.
  induction 1 as [|w w' _ IH Hturn].
  - split; [done|]. split; [by left|done].
  - by eapply menu_turn_well_formed.
Qed.

(* ---------------------------------------------------------------- *)
(** ** A run of [predict_price] with the flag up *)

Lemma bind_ok {A B} (m : M A) (k : A -> M B) w a w1 :
  m w = Ok a w1 -> (x <- m ;; k x) w = k a w1.
Proof. unfold bind. by intros ->. Qed.

Lemma bind_print {B} (s : string) (k : M B) (w : World) :
  (print s ;;; k) w = k (set_stdout (stdout (env w) ++ [s +:+ nl]) w).
Proof. reflexivity. Qed.

Lemma model_predict_run (X : Frame.t float) (w : World) :
  model_predict X w
  = match model_answer (model (self w)) X with
    | inl e => Raise e w
    | inr ys => Ok ys w
    end.
Proof.
  unfold model_predict, model_answer, bind, get.
  destruct (model (self w)) as [[|r|X0 y0]|]; [done| | |done]; unfold call.
  - by destruct (predict r X).
  - by destruct (predict_halted X0 y0 X).
Qed.

(** Every way [predict_price] can end once the flag is up. *)
Lemma predict_price_run (w : World) :
  is_trained (self w) = true ->
  match answers (features (self w)) [] (stdin (env w)) with
  | None =>
      exists w', predict_price w = Raise EOFError w' /\
                 self w' = self w /\ files (env w') = files (env w)
  | Some (values, rest) =>
      let failed e :=
        exists w', predict_price w = Raise e w' /\
                   self w' = self w /\ files (env w') = files (env w) in
      match model_answer (model (self w)) (Frame.of_row values) with
      | inl e => failed e
      | inr [] => failed IndexError
      | inr (p :: _) =>
          exists w',
            predict_price w = Ok (Some p) w' /\
            self w' = self w /\
            stdin (env w') = rest /\
            log_text w' =
              log_text w +:+
              log_line (DateTime.strftime
                          (clock (env w) (clock_reads (env w))))
                       values p /\
            (forall path, path <> data_file (self w) ->
                          files (env w') !! path = files (env w) !! path)
      end
  end.
Proof.
  intros Hflag. remember (predict_price w) as res eqn:Hres.
  unfold predict_price in Hres. unfold bind at 1 in Hres. cbn [get] in Hres.
  rewrite Hflag in Hres. cbn [negb] in Hres. rewrite !bind_print in Hres.
  match type of Hres with
  | context [bind (ask_values _ _) _ ?x] => set (w4 := x) in Hres
  end.
  pose proof (ask_values_run (features (self w)) [] w4) as Hask.
  change (stdin (env w4)) with (stdin (env w)) in Hask.
  destruct (answers (features (self w)) [] (stdin (env w)))
    as [[values rest]|].
  - destruct Hask as (w5 & Hrun & Hin5 & (Hs5 & Hf5 & Hc5 & Hn5 & _)).
    change (self w4) with (self w) in Hs5.
    change (files (env w4)) with (files (env w)) in Hf5.
    change (clock (env w4)) with (clock (env w)) in Hc5.
    change (clock_reads (env w4)) with (clock_reads (env w)) in Hn5.
    rewrite (bind_ok _ _ _ _ _ Hrun) in Hres. cbv zeta in *.
    unfold bind at 1 in Hres. rewrite model_predict_run, Hs5 in Hres.
    destruct (model_answer (model (self w)) (Frame.of_row values))
      as [e|[|p ps]];
      [exists w5; by repeat split|exists w5; by repeat split|].
    unfold bind at 1 in Hres.
    change (py_getitem (p :: ps) 0) with (Some p) in Hres.
    unfold ret at 1 in Hres. cbv beta iota in Hres.
    rewrite !bind_print in Hres.
    match type of Hres with
    | context [bind (save_prediction _ _) _ ?x] => set (w8 := x) in Hres
    end.
    destruct (save_prediction_run values p w8)
      as (w9 & Hsave & Hlog & Hs9 & Hin9 & _).
    pose proof (orderly_save_prediction values p w8) as Ho.
    rewrite Hsave in Ho. destruct Ho as (_ & (_ & _ & Hother & _) & _).
    rewrite (bind_ok _ _ _ _ _ Hsave) in Hres. exists w9.
    split; [exact Hres|].
    change (self w8) with (self w5) in *.
    change (stdin (env w8)) with (stdin (env w5)) in *.
    change (clock (env w8)) with (clock (env w5)) in *.
    change (clock_reads (env w8)) with (clock_reads (env w5)) in *.
    change (files (env w8)) with (files (env w5)) in *.
    assert (Hlog8 : log_text w8 = log_text w).
    { unfold log_text. change (files (env w8)) with (files (env w5)).
      change (self w8) with (self w5). by rewrite Hs5, Hf5. }
    rewrite Hlog8, Hc5, Hn5 in Hlog. rewrite Hs5 in Hs9, Hother.
    rewrite Hf5 in Hother.
    split; [done|]. split; [congruence|]. split; [done|]. exact Hother.
  - destruct Hask as (w5 & Hrun & (Hs5 & Hf5 & _)).
    exists w5. split; [|by split].
    rewrite Hres. by apply bind_raise.
Qed.

Lemma predict_price_outcome (w : World) (values : Dict.t float)
      (rest : list string) :
  is_trained (self w) = true ->
  answers (features (self w)) [] (stdin (env w)) = Some (values, rest) ->
  outcome (predict_price w)
  = Some match model_answer (model (self w)) (Frame.of_row values) with
         | inl e => inl e
         | inr [] => inl IndexError
         | inr (p :: _) => inr (Some p)
         end.
Proof.
  intros Hflag Hans. pose proof (predict_price_run w Hflag) as Hrun.
  rewrite Hans in Hrun. cbv zeta in Hrun.
  destruct (model_answer (model (self w)) (Frame.of_row values))
    as [e|[|p ps]]; destruct Hrun as (w' & -> & _); done.
Qed.

(** C10.  The row that [predict_price] hands to the model.  In a session
    with the flag up and a fitted model, how [predict_price] ends is
    decided by the model's [predict] on the one-row frame built from the
    answers.  When the names of the feature list are pairwise distinct
    and the input holds a line that converts for each, that frame has
    one column per feature, in the order of the list, each holding the
    one number answered for it.  Whatever the names, the frame has one
    row, every column holds one number, the columns are the features in
    order when the names are distinct, and there are fewer columns than
    features when a name is repeated.  When the lines run out the model
    is not called: the prompts raise [EOFError]. *)
Theorem predict_row_columns (w : World) (r : Regressor) :
  is_trained (self w) = true ->
  model (self w) = Some (Fitted r) ->
  let feats := features (self w) in
  let ends_by (input_df : Frame.t float) :=
    outcome (predict_price w)
    = Some match predict r input_df with
           | inl e => inl e
           | inr [] => inl IndexError
           | inr (p :: _) => inr (Some p)
           end in
  (forall lines vals rest,
      NoDup feats ->
      stdin (env w) = lines ++ rest ->
      Forall2 (fun a v => float_of_str a = Some v) lines vals ->
      length vals = length feats ->
      ends_by (Frame.mk 1
                 (map (fun kv => Frame.mkcol (fst kv) (Frame.Numbers [snd kv]))
                      (zip feats vals))) /\
      map fst (zip feats vals) = feats) /\
  (forall values rest,
      answers feats [] (stdin (env w)) = Some (values, rest) ->
      let input_df := Frame.of_row values in
      ends_by input_df /\
      Frame.nrows input_df = 1%nat /\
      Forall (fun c => exists v, Frame.values c = Frame.Numbers [v])
             (Frame.columns input_df) /\
      (NoDup feats -> Frame.column_names input_df = feats) /\
      (~ NoDup feats ->
       (length (Frame.columns input_df) < length feats)%nat)) /\
  (answers feats [] (stdin (env w)) = None ->
   outcome (predict_price w) = Some (inl EOFError)).
Proof.
  intros Hflag Hmodel feats ends_by.
  assert (Hends : forall values rest,
             answers feats [] (stdin (env w)) = Some (values, rest) ->
             ends_by (Frame.of_row values)).
  { intros values rest Hans. unfold ends_by.
    rewrite (predict_price_outcome w values rest Hflag Hans), Hmodel. done. }
  split; [|split].
  - intros lines vals rest Hnd Hin Hv Hlen. split.
    + apply (Hends (zip feats vals) rest). rewrite Hin.
      by rewrite (answers_all_valid feats [] lines vals rest).
    + apply fst_zip. lia.
  - intros values rest Hans input_df. split; [by eapply Hends|].
    split; [done|].
    pose proof (answers_keys _ _ _ _ _ Hans) as Hkeys. cbn in Hkeys.
    assert (Hcols : Frame.column_names input_df = Dict.keys values).
    { unfold input_df, Frame.column_names, Frame.of_row, Dict.keys, Dict.items.
      cbn. rewrite map_map. done. }
    split; [|split].
    + unfold input_df, Frame.of_row. cbn. apply Forall_map.
      apply Forall_true. intros [k v]. by exists v.
    + intros Hnd. rewrite Hcols, Hkeys. by apply (keys_after_fresh feats []).
    + intros Hdup.
      assert (Hlen : length (Frame.columns input_df) = length (Dict.keys values)).
      { rewrite <- Hcols. unfold Frame.column_names. by rewrite length_map. }
      rewrite Hlen, Hkeys.
      apply (keys_after_repeated feats []); [constructor|done].
  - intros Hnone. pose proof (predict_price_run w Hflag) as Hrun.
    fold feats in Hrun. rewrite Hnone in Hrun.
    by destruct Hrun as (w' & -> & _).
Qed.

(** X6.  A prediction that goes through.  With the flag up, a fitted
    model, a line that converts to a float for every feature and a
    non-empty answer of the model, [predict_price] returns the first
    number of the answer; it leaves the session as it was, has consumed
    the lines up to the last answer, has added to the log the one line of
    this prediction, stamped with the time read at the call, and has left
    every other file alone. *)
Theorem predict_price_records (w : World) (values : Dict.t float)
        (rest : list string) (r : Regressor) (p : float) (ps : list float) :
  is_trained (self w) = true ->
  answers (features (self w)) [] (stdin (env w)) = Some (values, rest) ->
  model (self w) = Some (Fitted r) ->
  predict r (Frame.of_row values) = inr (p :: ps) ->
  exists w',
    predict_price w = Ok (Some p) w' /\
    self w' = self w /\
    stdin (env w') = rest /\
    log_text w' =
      log_text w +:+
      log_line (DateTime.strftime (clock (env w) (clock_reads (env w))))
               values p /\
    (forall path, path <> data_file (self w) ->
                  files (env w') !! path = files (env w) !! path).
Proof.
  intros Hflag Hans Hmodel Hpred.
  pose proof (predict_price_run w Hflag) as Hrun.
  rewrite Hans in Hrun. cbv zeta in Hrun. unfold model_answer in Hrun.
  by rewrite Hmodel, Hpred in Hrun.
Qed.

(** X7.  A prediction that fails changes nothing but the console and the
    input: whenever [predict_price] raises, the session and every file,
    the log among them, are as they were before the call.  It raises
    with the flag up only, and exactly in these cases: [EOFError] when the
    lines run out before every feature has its number; [AttributeError]
    when there is no model; [NotFittedError] when the model is an
    estimator that was never fitted; on a fitted model, and on one that a
    [fit] has left when it raised, the exception of the library's
    [predict], or [IndexError] when its answer is empty. *)
Theorem predict_price_failure (w : World) (e : exn) (w' : World) :
  predict_price w = Raise e w' ->
  self w' = self w /\ files (env w') = files (env w) /\
  is_trained (self w) = true /\
  match answers (features (self w)) [] (stdin (env w)) with
  | None => e = EOFError
  | Some (values, _) =>
      match model (self w) with
      | None => e = AttributeError
      | Some Unfitted => e = NotFittedError
      | Some (Fitted r) =>
          match predict r (Frame.of_row values) with
          | inl e' => e = e'
          | inr ys => ys = [] /\ e = IndexError
          end
      | Some (Halted X y) =>
          match predict_halted X y (Frame.of_row values) with
          | inl e' => e = e'
          | inr ys => ys = [] /\ e = IndexError
          end
      end
  end.
Proof.
  intros Hraise.
  destruct (is_trained (self w)) eqn:Hflag.
  2:{ unfold predict_price in Hraise. unfold bind at 1 in Hraise.
      cbn [get] in Hraise. rewrite Hflag in Hraise. done. }
  pose proof (predict_price_run w Hflag) as Hrun.
  assert (Hcases :
            match answers (features (self w)) [] (stdin (env w)) with
            | None => e = EOFError
            | Some (values, _) =>
                match model_answer (model (self w)) (Frame.of_row values) with
                | inl e' => e = e'
                | inr ys => ys = [] /\ e = IndexError
                end
            end /\ self w' = self w /\ files (env w') = files (env w)).
  { destruct (answers (features (self w)) [] (stdin (env w)))
      as [[values rest]|]; cbv zeta in Hrun.
    - destruct (model_answer (model (self w)) (Frame.of_row values))
        as [e'|[|p ps]].
      + destruct Hrun as (w1 & Hr & ? & ?). rewrite Hr in Hraise.
        injection Hraise as <- <-. by repeat split.
      + destruct Hrun as (w1 & Hr & ? & ?). rewrite Hr in Hraise.
        injection Hraise as <- <-. by repeat split.
      + destruct Hrun as (w1 & Hr & _). congruence.
    - destruct Hrun as (w1 & Hr & ? & ?). rewrite Hr in Hraise.
      injection Hraise as <- <-. by repeat split. }
  destruct Hcases as (Hcases & Hs & Hf). repeat (split; [done|]).
  destruct (answers (features (self w)) [] (stdin (env w)))
    as [[values rest]|]; [|done].
  unfold model_answer in Hcases.
  by destruct (model (self w)) as [[|r|X y]|].
Qed.

(** X8.  In a session started from a fresh [HousePriceModel], choice 4
    never finds the model missing or unfitted: when the flag is up and
    the input answers every prompt, there is a fitted model, and how
    [predict_price] ends is decided by the answer of its [predict]: its
    exception, [IndexError] for an empty answer, or the first number. *)
Theorem session_predict_has_model (csv data : string) (e : Env) (w : World)
        (values : Dict.t float) (rest : list string) :
  at_menu (mkWorld (init csv data) e) w ->
  is_trained (self w) = true ->
  answers (features (self w)) [] (stdin (env w)) = Some (values, rest) ->
  exists r,
    model (self w) = Some (Fitted r) /\
    outcome (predict_price w)
    = Some match predict r (Frame.of_row values) with
           | inl e' => inl e'
           | inr [] => inl IndexError
           | inr (p :: _) => inr (Some p)
           end.
Proof.
  intros Hat Hflag Hans.
  assert (Hwf : well_formed w).
  { clear Hflag Hans. induction Hat as [|w w' _ IH Hturn].
    - split; [done|]. split; [by left|done].
    - by eapply menu_turn_well_formed. }
  destruct Hwf as (_ & _ & Hfit).
  destruct (Hfit Hflag) as (r & score & Hmodel & _).
  exists r. split; [done|].
  pose proof (predict_price_run w Hflag) as Hrun.
  rewrite Hans in Hrun. cbv zeta in Hrun. rewrite Hmodel in Hrun.
  cbn [model_answer] in Hrun.
  destruct (predict r (Frame.of_row values)) as [e'|[|p ps]];
    destruct Hrun as (w1 & -> & _); done.
Qed.

(* ---------------------------------------------------------------- *)
(** ** The prompt of one feature *)

Lemma while_true_next {A} (body : M (option A)) (fuel : nat) (w w1 : World) :
  body w = Ok None w1 -> while_true (S fuel) body w = while_true fuel body w1.
Proof. intros H. cbn [while_true]. unfold bind. by rewrite H. Qed.

Lemma ask_turn_valid_out (feat : string) (values : Dict.t float) (w : World)
      (l : string) (rest : list string) (v : float) :
  stdin (env w) = l :: rest -> float_of_str l = Some v ->
  exists w', ask_turn feat values w = Ok (Some (Dict.set feat v values)) w' /\
             stdin (env w') = rest /\
             stdout (env w') = stdout (env w) ++ ["    " +:+ feat +:+ ": "] /\
             console_only w w'.
Proof.
  intros Hin Hl. unfold ask_turn, try_except, bind, input. fields.
  rewrite Hin, Hl. eexists. split; [reflexivity|]. by repeat split.
Qed.

Lemma ask_turn_invalid_out (feat : string) (values : Dict.t float) (w : World)
      (l : string) (rest : list string) :
  stdin (env w) = l :: rest -> float_of_str l = None ->
  exists w', ask_turn feat values w = Ok None w' /\
             stdin (env w') = rest /\
             stdout (env w') = stdout (env w) ++ refused_answer feat /\
             console_only w w'.
Proof.
  intros Hin Hl. unfold ask_turn, try_except, bind, input. fields.
  rewrite Hin, Hl. eexists. split; [reflexivity|]. fields.
  unfold refused_answer. rewrite <- app_assoc. by repeat split.
Qed.

Lemma ask_loop_reprompts (feat : string) (values : Dict.t float) (v : float)
      (good : string) (rest : list string) :
  float_of_str good = Some v ->
  forall (bad : list string) (fuel : nat) (w : World),
    stdin (env w) = bad ++ good :: rest ->
    Forall (fun l => float_of_str l = None) bad ->
    (length bad < fuel)%nat ->
    exists w',
      while_true fuel (ask_turn feat values) w
      = Ok (Dict.set feat v values) w' /\
      stdin (env w') = rest /\
      stdout (env w')
      = stdout (env w) ++ concat (map (fun _ => refused_answer feat) bad)
          ++ ["    " +:+ feat +:+ ": "] /\
      console_only w w'.
Proof.
  intros Hgood. induction bad as [|l bad IH]; intros fuel w Hin Hbad Hfuel.
  - destruct fuel as [|fuel]; [cbn in Hfuel; lia|].
    destruct (ask_turn_valid_out feat values w good rest v Hin Hgood)
      as (w' & Hrun & ? & ? & ?).
    exists w'. split; [by apply while_true_break|done].
  - destruct fuel as [|fuel]; [cbn in Hfuel; lia|].
    inversion Hbad as [|? ? Hl Hbad']; subst.
    destruct (ask_turn_invalid_out feat values w l (bad ++ good :: rest) Hin Hl)
      as (w1 & Hrun & Hin1 & Hout1 & Hc1).
    assert (Hfuel' : (length bad < fuel)%nat) by (cbn in Hfuel; lia).
    destruct (IH fuel w1 Hin1 Hbad' Hfuel') as (w' & Hloop & ? & Hout & Hc).
    exists w'. split; [by rewrite (while_true_next _ _ _ _ Hrun)|].
    split; [done|]. split.
    + rewrite Hout, Hout1. cbn [map concat]. by rewrite <- !app_assoc.
    + by eapply console_only_trans.
Qed.

(** X9.  The prompt of a feature is repeated until a line converts to a
    float.  Each line before it that does not convert is consumed and
    answered with the complaint; the first line that converts is stored
    under the feature's name, and the lines after it are left on the
    input.  The session and the files are not touched. *)
Theorem ask_value_reprompts (feat : string) (values : Dict.t float)
        (w : World) (bad : list string) (good : string) (rest : list string)
        (v : float) :
  stdin (env w) = bad ++ good :: rest ->
  Forall (fun l => float_of_str l = None) bad ->
  float_of_str good = Some v ->
  exists w',
    ask_value feat values w = Ok (Dict.set feat v values) w' /\
    stdin (env w') = rest /\
    stdout (env w')
    = stdout (env w) ++ concat (map (fun _ => refused_answer feat) bad)
        ++ ["    " +:+ feat +:+ ": "] /\
    self w' = self w /\
    files (env w') = files (env w).
Proof.
  intros Hin Hbad Hgood. unfold ask_value. unfold bind at 1. cbn [get].
  destruct (ask_loop_reprompts feat values v good rest Hgood bad
              (loop_bound w) w Hin Hbad)
    as (w' & Hrun & ? & ? & (? & ? & _)).
  { unfold loop_bound. rewrite Hin, length_app. lia. }
  exists w'. by repeat split.
Qed.

(* ---------------------------------------------------------------- *)
(** ** The history on the console *)

Lemma enumerate_lookup {A} (l : list A) :
  forall (start k : nat) (x : A),
    l !! k = Some x -> enumerate start l !! k = Some ((start + k)%nat, x).
Proof.
  induction l as [|y l IH]; intros start k x Hk; [done|].
  destruct k as [|k].
  - cbn in *. injection Hk as ->. by rewrite Nat.add_0_r.
  - change (enumerate (S start) l !! k = Some ((start + S k)%nat, x)).
    rewrite (IH (S start) k x Hk). f_equal. f_equal. lia.
Qed.

Lemma enumerate_length {A} (l : list A) :
  forall start, length (enumerate start l) = length l.
Proof. induction l as [|y l IH]; intros start; cbn; [done|]. by rewrite IH. Qed.

Lemma shown_length (lines : list string) :
  length (shown lines) = Nat.max 1 (length lines).
Proof.
  destruct lines as [|l lines]; [done|].
  unfold shown. rewrite length_map, enumerate_length. cbn. lia.
Qed.

Lemma shown_lookup (lines : list string) (k : nat) (line : string) :
  lines !! k = Some line ->
  shown lines !! k
  = Some (("  " +:+ pretty (S k) +:+ ". " +:+ PyStr.strip line) +:+ nl).
Proof.
  intros Hk. destruct lines as [|l lines]; [done|].
  unfold shown. rewrite list_lookup_fmap.
  by rewrite (enumerate_lookup _ 1 k line Hk).
Qed.

(** X10.  On a log of ASCII text (which decodes, and on which the
    [strip] of this file is Python's), or with no log file,
    [load_predictions] returns and only writes to the console.  After
    its three heading lines it shows the line of the log at position [k]
    as the entry numbered [k + 1], stripped; a log that is missing and a
    log without a line are shown alike, by the one line saying that
    nothing is recorded. *)
Theorem load_predictions_shows (w : World) :
  PyStr.is_ascii (log_text w) = true ->
  exists w',
    load_predictions w = Ok tt w' /\
    self w' = self w /\
    files (env w') = files (env w) /\
    stdin (env w') = stdin (env w) /\
    length (stdout (env w'))
    = (length (stdout (env w)) + 4 + Nat.max 1 (length (history w)))%nat /\
    (history w = [] ->
     stdout (env w') !! (length (stdout (env w)) + 3)%nat
     = Some ("  No predictions recorded yet." +:+ nl)) /\
    (forall k line,
        history w !! k = Some line ->
        stdout (env w') !! (length (stdout (env w)) + 3 + k)%nat
        = Some (("  " +:+ pretty (S k) +:+ ". " +:+ PyStr.strip line) +:+ nl)).
Proof.
  intros _.
  destruct (load_predictions_run w) as (w' & Hrun & Hout & Hs & Hf & Hin).
  exists w'. repeat (split; [done|]).
  rewrite Hout. rewrite (app_assoc (stdout (env w))).
  set (before := stdout (env w) ++ _).
  assert (Hlen : length before = (length (stdout (env w)) + 3)%nat).
  { unfold before. by rewrite length_app. }
  split; [|split].
  - rewrite !length_app, Hlen, shown_length. cbn. lia.
  - intros Hnone. rewrite Hnone, <- Hlen. cbn [shown].
    rewrite lookup_app_r, Nat.sub_diag; [done|lia].
  - intros k line Hk.
    rewrite lookup_app_r; [|lia].
    replace (length (stdout (env w)) + 3 + k - length before)%nat with k by lia.
    apply lookup_app_l_Some. by apply shown_lookup.
Qed.

(* ---------------------------------------------------------------- *)
(** ** Every way a training can end *)

Lemma load_if_none_world (w : World) (d : Frame.t float) :
  dataset w d ->
  exists w0,
    load_if_none w = Ok tt w0 /\
    df (self w0) = Some d /\
    features (self w0) = features (self w) /\
    model (self w0) = model (self w) /\
    r2 (self w0) = r2 (self w) /\
    is_trained (self w0) = is_trained (self w) /\
    files (env w0) = files (env w) /\
    stdin (env w0) = stdin (env w) /\
    stdout (env w0) = stdout (env w) /\
    clock (env w0) = clock (env w) /\
    clock_reads (env w0) = clock_reads (env w).
Proof.
  intros Hd.
  assert (H : wp load_if_none
                 (fun _ w0 =>
                    df (self w0) = Some d /\
                    features (self w0) = features (self w) /\
                    model (self w0) = model (self w) /\
                    r2 (self w0) = r2 (self w) /\
                    is_trained (self w0) = is_trained (self w) /\
                    files (env w0) = files (env w) /\
                    stdin (env w0) = stdin (env w) /\
                    stdout (env w0) = stdout (env w) /\
                    clock (env w0) = clock (env w) /\
                    clock_reads (env w0) = clock_reads (env w)) w).
  { apply (wp_load_if_none _ d); [done|]. by intros. }
  apply wp_elim in H as ([] & w0 & ? & ?). eauto.
Qed.

Lemma train_split_world (w : World) (d : Frame.t float)
      (test_size : float) (random_state : Z) :
  dataset w d ->
  exists w0,
    train_split test_size random_state w
    = match splitting d (features (self w)) test_size random_state with
      | inl e => Raise e w0
      | inr parts => Ok parts w0
      end /\
    df (self w0) = Some d /\
    features (self w0) = features (self w) /\
    model (self w0) = model (self w) /\
    r2 (self w0) = r2 (self w) /\
    is_trained (self w0) = is_trained (self w) /\
    files (env w0) = files (env w) /\
    stdin (env w0) = stdin (env w) /\
    stdout (env w0) = stdout (env w) /\
    clock (env w0) = clock (env w) /\
    clock_reads (env w0) = clock_reads (env w).
Proof.
  intros Hd.
  destruct (load_if_none_world w d Hd) as (w0 & Hload & Hdf & Hfe & Hrest).
  exists w0. split; [|done].
  unfold train_split, splitting, splitting_at, the_df.
  unfold bind, get, ret, raise.
  rewrite Hload. cbv beta iota. rewrite Hdf. cbv beta iota. rewrite Hfe.
  destruct (Frame.select d (features (self w))); [|done].
  destruct (Frame.getitem d "price"); [|done].
  rewrite (train_test_split_seeded _ _ _ _ (np_random (env w0)) 0).
  by destruct (train_test_split _ _ _ _ _).
Qed.

Lemma bind_modify {B} (f : World -> World) (k : M B) (w : World) :
  (modify f ;;; k) w = k (f w).
Proof. reflexivity. Qed.

Lemma bind_call {A B} (r : exn + A) (k : A -> M B) (w : World) :
  (x <- call r ;; k x) w
  = match r with inl e => Raise e w | inr a => k a w end.
Proof. by destruct r. Qed.

(** What [display_r_squared] prints once a score is stored. *)
Lemma display_r_squared_run (w : World) (score : float) :
  r2 (self w) = Some score ->
  exists w',
    display_r_squared w = Ok tt w' /\
    self w' = self w /\ files (env w') = files (env w) /\
    stdin (env w') = stdin (env w) /\
    clock (env w') = clock (env w) /\
    clock_reads (env w') = clock_reads (env w) /\
    stdout (env w')
    = stdout (env w)
        ++ [(nl +:+ rule) +:+ nl;
            "           MODEL EVALUATION" +:+ nl;
            rule +:+ nl;
            ("  Features used : " +:+ repr_str_list (features (self w))) +:+ nl;
            ("  R-squared     : " +:+ fmt_4f score) +:+ nl;
            rule +:+ nl].
Proof.
  intros Hr.
  cut (wp display_r_squared
         (fun _ w' =>
            self w' = self w /\ files (env w') = files (env w) /\
            stdin (env w') = stdin (env w) /\
            clock (env w') = clock (env w) /\
            clock_reads (env w') = clock_reads (env w) /\
            stdout (env w')
            = stdout (env w)
                ++ [(nl +:+ rule) +:+ nl;
                    "           MODEL EVALUATION" +:+ nl;
                    rule +:+ nl;
                    ("  Features used : "
                       +:+ repr_str_list (features (self w))) +:+ nl;
                    ("  R-squared     : " +:+ fmt_4f score) +:+ nl;
                    rule +:+ nl]) w).
  { intros ([] & w' & ? & ?)%wp_elim. eauto. }
  unfold display_r_squared. steps. rewrite Hr. steps.
  repeat split. by rewrite <- !app_assoc.
Qed.

(** Every way [train_model] can end on a dataset that loads. *)
Lemma train_model_cases (w : World) (d : Frame.t float)
      (test_size : float) (random_state : Z) :
  dataset w d ->
  let kept w' :=
    features (self w') = features (self w) /\ df (self w') = Some d /\
    files (env w') = files (env w) /\ stdin (env w') = stdin (env w) /\
    clock (env w') = clock (env w) /\
    clock_reads (env w') = clock_reads (env w) in
  let stale w' :=
    r2 (self w') = r2 (self w) /\
    is_trained (self w') = is_trained (self w) in
  match splitting d (features (self w)) test_size random_state with
  | inl e =>
      exists w', train_model test_size random_state w = Raise e w' /\
                 kept w' /\ stale w' /\ model (self w') = model (self w)
  | inr (X_train, X_test, y_train, y_test) =>
      match fit X_train y_train with
      | inl e =>
          exists w', train_model test_size random_state w = Raise e w' /\
                     kept w' /\ stale w' /\
                     model (self w') = Some (Halted X_train y_train)
      | inr r =>
          let fitted e :=
            exists w', train_model test_size random_state w = Raise e w' /\
                       kept w' /\ stale w' /\
                       model (self w') = Some (Fitted r) in
          match predict r X_test with
          | inl e => fitted e
          | inr y_pred =>
              match r2_score y_test y_pred with
              | inl e => fitted e
              | inr score =>
                  exists w',
                    train_model test_size random_state w = Ok tt w' /\
                    kept w' /\
                    model (self w') = Some (Fitted r) /\
                    r2 (self w') = Some score /\
                    is_trained (self w') = true /\
                    stdout (env w')
                    = stdout (env w)
                        ++ [(nl +:+ rule) +:+ nl;
                            "           MODEL EVALUATION" +:+ nl;
                            rule +:+ nl;
                            ("  Features used : "
                               +:+ repr_str_list (features (self w))) +:+ nl;
                            ("  R-squared     : " +:+ fmt_4f score) +:+ nl;
                            rule +:+ nl]
              end
          end
      end
  end.
Proof.
  intros Hd kept stale.
  destruct (train_split_world w d test_size random_state Hd)
    as (w0 & Hsplit & Hdf & Hfe & Hm & Hr & Hfl & Hfi & Hin & Hout & Hc & Hn).
  remember (train_model test_size random_state w) as res eqn:Hres.
  unfold train_model in Hres.
  destruct (splitting d (features (self w)) test_size random_state)
    as [e|[[[X_train X_test] y_train] y_test]].
  { rewrite (bind_raise _ _ _ _ _ Hsplit) in Hres.
    exists w0. by repeat split. }
  rewrite (bind_ok _ _ _ _ _ Hsplit) in Hres. cbv beta iota in Hres.
  rewrite bind_modify in Hres. unfold bind at 1 in Hres.
  destruct (fit X_train y_train) as [e|r].
  { rewrite bind_modify in Hres. unfold raise in Hres.
    eexists. split; [exact Hres|]. unfold kept, stale. fields.
    by repeat split. }
  unfold ret at 1 in Hres. cbv beta iota in Hres.
  rewrite bind_modify in Hres. unfold bind at 1 in Hres.
  rewrite model_predict_run in Hres. fields. cbn [model_answer] in Hres.
  destruct (predict r X_test) as [e|y_pred].
  { eexists. split; [exact Hres|]. unfold kept, stale. fields.
    by repeat split. }
  rewrite bind_call in Hres.
  destruct (r2_score y_test y_pred) as [e|score].
  { eexists. split; [exact Hres|]. unfold kept, stale. fields.
    by repeat split. }
  rewrite !bind_modify in Hres.
  match type of Hres with _ = display_r_squared ?x => set (w1 := x) in Hres end.
  destruct (display_r_squared_run w1 score eq_refl)
    as (w' & Hshow & Hs' & Hf' & Hin' & Hc' & Hn' & Hout').
  rewrite Hshow in Hres. exists w'. split; [exact Hres|].
  unfold kept. rewrite Hs', Hf', Hin', Hc', Hn', Hout'. subst w1. fields.
  rewrite Hout, Hfe. by repeat split.
Qed.

(** X11.  How [train_model] ends on a dataset that loads.  When it
    returns, the model in the session is the one fitted on the training
    rows of the split for the current feature list, the score is the one
    of its predictions on the test rows, the flag is up and the six lines
    of the evaluation have been printed.  When it raises, the exception
    is the first one met in splitting, fitting, predicting and scoring,
    and the score and the flag are those of before the call.  In both
    cases the feature list, the cached frame, the files and the input are
    as they were. *)
Theorem train_model_result (w : World) (d : Frame.t float)
        (test_size : float) (random_state : Z) :
  dataset w d ->
  match train_model test_size random_state w with
  | Ok _ w' =>
      exists r score,
        training d (features (self w)) test_size random_state = inr (r, score) /\
        model (self w') = Some (Fitted r) /\
        r2 (self w') = Some score /\
        is_trained (self w') = true /\
        features (self w') = features (self w) /\ df (self w') = Some d /\
        files (env w') = files (env w) /\ stdin (env w') = stdin (env w) /\
        stdout (env w')
        = stdout (env w)
            ++ [(nl +:+ rule) +:+ nl;
                "           MODEL EVALUATION" +:+ nl;
                rule +:+ nl;
                ("  Features used : "
                   +:+ repr_str_list (features (self w))) +:+ nl;
                ("  R-squared     : " +:+ fmt_4f score) +:+ nl;
                rule +:+ nl]
  | Raise e w' =>
      training d (features (self w)) test_size random_state = inl e /\
      r2 (self w') = r2 (self w) /\
      is_trained (self w') = is_trained (self w) /\
      features (self w') = features (self w) /\ df (self w') = Some d /\
      files (env w') = files (env w) /\ stdin (env w') = stdin (env w)
  | OutOfFuel => False
  end.
Proof.
  intros Hd.
  pose proof (train_model_cases w d test_size random_state Hd) as H.
  cbv zeta in H. unfold training.
  destruct (splitting d (features (self w)) test_size random_state)
    as [e|[[[X_train X_test] y_train] y_test]].
  { destruct H as (w' & -> & (? & ? & ? & ? & _) & (? & ?) & _).
    by repeat split. }
  destruct (fit X_train y_train) as [e|r].
  { destruct H as (w' & -> & (? & ? & ? & ? & _) & (? & ?) & _).
    by repeat split. }
  destruct (predict r X_test) as [e|y_pred].
  { destruct H as (w' & -> & (? & ? & ? & ? & _) & (? & ?) & _).
    by repeat split. }
  destruct (r2_score y_test y_pred) as [e|score].
  { destruct H as (w' & -> & (? & ? & ? & ? & _) & (? & ?) & _).
    by repeat split. }
  destruct H as (w' & -> & (? & ? & ? & ? & _) & ? & ? & ? & ?).
  exists r, score. by repeat split.
Qed.

(** X12.  A training that fails in [fit] leaves in [self.model] the
    estimator on which [fit] raised, not the model of before, while the
    flag keeps its value.  Started with the flag up, the session is then
    left with the flag up and no fitted model: a caller that goes on to
    [predict_price] is asked every value, and how the call ends is then
    decided by the library's [predict] on that estimator; when it raises,
    [predict_price] raises the same exception and no file has changed. *)
Theorem failed_fit_leaves_flag_up (w : World) (d : Frame.t float)
        (test_size : float) (random_state : Z)
        (X_train X_test : Frame.t float) (y_train y_test : Frame.column float)
        (e : exn) :
  dataset w d ->
  is_trained (self w) = true ->
  splitting d (features (self w)) test_size random_state
  = inr (X_train, X_test, y_train, y_test) ->
  fit X_train y_train = inl e ->
  exists w',
    train_model test_size random_state w = Raise e w' /\
    is_trained (self w') = true /\
    model (self w') = Some (Halted X_train y_train) /\
    features (self w') = features (self w) /\
    stdin (env w') = stdin (env w) /\
    (forall values rest,
        answers (features (self w')) [] (stdin (env w')) = Some (values, rest) ->
        outcome (predict_price w')
        = Some match predict_halted X_train y_train (Frame.of_row values) with
               | inl e' => inl e'
               | inr [] => inl IndexError
               | inr (p :: _) => inr (Some p)
               end /\
        forall e',
          predict_halted X_train y_train (Frame.of_row values) = inl e' ->
          exists w'', predict_price w' = Raise e' w'' /\
                      files (env w'') = files (env w)).
Proof.
  intros Hd Hflag Hsplit Hfit.
  pose proof (train_model_cases w d test_size random_state Hd) as H.
  cbv zeta in H. rewrite Hsplit, Hfit in H.
  destruct H as (w' & Hrun & (Hfe & _ & Hfi & Hin & _) & (_ & Hfl) & Hm).
  rewrite Hflag in Hfl.
  exists w'. repeat (split; [done|]).
  intros values rest Hans.
  pose proof (predict_price_run w' Hfl) as Hp.
  rewrite Hans in Hp. cbv zeta in Hp. rewrite Hm in Hp.
  cbn [model_answer] in Hp.
  destruct (predict_halted X_train y_train (Frame.of_row values))
    as [e0|[|p ps]].
  - destruct Hp as (w'' & Hp & _ & Hf''). split; [by rewrite Hp|].
    intros e' [= <-]. exists w''. split; [done|]. congruence.
  - destruct Hp as (w'' & Hp & _). split; [by rewrite Hp|]. done.
  - destruct Hp as (w'' & Hp & _). split; [by rewrite Hp|]. done.
Qed.

(* ---------------------------------------------------------------- *)
(** ** Selecting, then predicting or training *)

Lemma select_features_ok_inv (w : World) (u : unit) (w' : World) :
  select_features w = Ok u w' ->
  exists d raw,
    dataset w d /\
    stdin (env w) = raw :: stdin (env w') /\
    features (self w') = selection (numeric_columns d) (PyStr.strip raw) /\
    is_trained (self w') = false /\
    df (self w') = Some d /\
    model (self w') = model (self w) /\
    r2 (self w') = r2 (self w) /\
    files (env w') = files (env w).
Proof.
  intros H. destruct (dataset_or_failure w) as [[d Hd] | (Hnone & e & Hfail)].
  - destruct (stdin (env w)) as [|raw rest] eqn:Hin.
    + destruct (select_features_eof w d Hd Hin) as (? & Hr & _). congruence.
    + destruct (select_features_run w d raw rest Hd Hin)
        as (w1 & Hr & ? & ? & ? & ? & ? & Hin1 & ?).
      rewrite Hr in H. injection H as _ <-.
      exists d, raw. rewrite Hin1. by repeat split.
  - destruct (load_if_none_fails w e Hnone Hfail) as (w1 & Hl & _).
    assert (Hr : select_features w = Raise e w1).
    { unfold select_features, get_numeric_columns. by do 2 apply bind_raise. }
    congruence.
Qed.

Lemma predict_price_refused (w : World) :
  is_trained (self w) = false ->
  exists w',
    predict_price w = Ok None w' /\
    self w' = self w /\ files (env w') = files (env w) /\
    stdin (env w') = stdin (env w).
Proof.
  intros Hflag. unfold predict_price. unfold bind at 1. cbn [get].
  rewrite Hflag. cbn [negb]. unfold bind, print, modify, ret.
  eexists. split; [reflexivity|]. fields. by repeat split.
Qed.

(** X13.  After a selection the model of before is out of use whatever
    was selected: [predict_price] is refused, asking nothing and writing
    nothing, until a training returns; and the model that a training then
    stores is the one fitted on the feature list the selection has left,
    taken from the frame the selection has cached. *)
Theorem select_then_train (w : World) (u : unit) (w1 : World) :
  select_features w = Ok u w1 ->
  (exists w2,
      predict_price w1 = Ok None w2 /\
      self w2 = self w1 /\ files (env w2) = files (env w1) /\
      stdin (env w2) = stdin (env w1)) /\
  exists d,
    df (self w1) = Some d /\
    forall test_size random_state u' w2,
      train_model test_size random_state w1 = Ok u' w2 ->
      exists r score,
        training d (features (self w1)) test_size random_state
        = inr (r, score) /\
        model (self w2) = Some (Fitted r) /\
        r2 (self w2) = Some score /\
        is_trained (self w2) = true /\
        features (self w2) = features (self w1).
Proof.
  intros Hsel.
  apply select_features_ok_inv in Hsel
    as (d & raw & Hd & Hin & Hfe & Hfl & Hdf & _).
  split; [by apply predict_price_refused|].
  exists d. split; [done|].
  intros test_size random_state u' w2 Htrain.
  assert (Hd1 : dataset w1 d) by (by left).
  pose proof (train_model_cases w1 d test_size random_state Hd1) as H.
  cbv zeta in H. unfold training.
  destruct (splitting d _ test_size random_state)
    as [e|[[[X_train X_test] y_train] y_test]].
  { destruct H as (? & Hr & _). congruence. }
  destruct (fit X_train y_train) as [e|r].
  { destruct H as (? & Hr & _). congruence. }
  destruct (predict r X_test) as [e|y_pred].
  { destruct H as (? & Hr & _). congruence. }
  destruct (r2_score y_test y_pred) as [e|score].
  { destruct H as (? & Hr & _). congruence. }
  destruct H as (w' & Hr & (? & _) & ? & ? & ? & _).
  rewrite Hr in Htrain. injection Htrain as _ <-.
  exists r, score. by repeat split.
Qed.

(* ---------------------------------------------------------------- *)
(** ** The selected features as columns of the frame *)

Lemma getitem_of_name (d : Frame.t float) (k : string) :
  In k (Frame.column_names d) ->
  exists c, Frame.getitem d k = Some c /\ Frame.name c = k.
Proof.
  unfold Frame.column_names, Frame.getitem.
  induction (Frame.columns d) as [|c cols IH]; cbn; [done|].
  destruct (String.eqb_spec (Frame.name c) k) as [Heq | Hne].
  - intros _. by exists c.
  - intros [? | Hin]; [done|]. by apply IH.
Qed.

Lemma select_of_columns (d : Frame.t float) (feats : list string) :
  Forall (fun f => In f (Frame.column_names d)) feats ->
  exists X, Frame.select d feats = Some X /\ Frame.column_names X = feats.
Proof.
  intros Hall.
  assert (Hcols : exists cols,
             Forall2 (fun k c => Frame.getitem d k = Some c) feats cols /\
             map Frame.name cols = feats).
  { induction Hall as [|f feats Hf _ (cols & Hcols & Hnames)].
    - by exists [].
    - destruct (getitem_of_name d f Hf) as (c & Hc & Hname).
      exists (c :: cols). split; [by constructor|]. cbn. by rewrite Hname, Hnames. }
  destruct Hcols as (cols & Hcols & Hnames).
  unfold Frame.select. rewrite (mapM_Some_2 _ _ _ Hcols). cbn.
  eexists. split; [reflexivity|]. exact Hnames.
Qed.

Lemma numeric_columns_in (d : Frame.t float) (f : string) :
  In f (numeric_columns d) ->
  In f (Frame.column_names d) /\ f <> "id" /\ f <> "date" /\ f <> "price".
Proof.
  unfold numeric_columns. intros [Hin Hex]%filter_In. split.
  - unfold Frame.number_column_names, Frame.column_names in *.
    apply list_elem_of_In in Hin. apply list_elem_of_In.
    apply list_elem_of_fmap in Hin as (c & -> & Hc).
    apply list_elem_of_filter in Hc as [_ Hc].
    by apply list_elem_of_fmap_2.
  - apply negb_true_iff in Hex. unfold str_in in Hex. cbn in Hex.
    repeat split; intros ->; by cbn in Hex.
Qed.

(** X14.  A feature list that is not the default list names columns of
    the cached frame: in a well-formed session [df[self.features]] then
    finds every column, in the order of the list, so that a [KeyError] on
    the features can only come from the default list; and neither [id],
    [date] nor the target [price] is among the features. *)
Theorem selected_features_are_columns (w : World) (d : Frame.t float) :
  well_formed w ->
  df (self w) = Some d ->
  features (self w) <> DEFAULT_FEATURES ->
  (exists X,
      Frame.select d (features (self w)) = Some X /\
      Frame.column_names X = features (self w)) /\
  Forall (fun f => f <> "id" /\ f <> "date" /\ f <> "price")
         (features (self w)).
Proof.
  intros (_ & [Hdef | (d' & Hd' & Hall)] & _) Hd Hne; [done|].
  assert (d' = d) as -> by congruence.
  split.
  - apply select_of_columns. eapply Forall_impl; [exact Hall|].
    intros f Hf. by apply numeric_columns_in in Hf as [? _].
  - eapply Forall_impl; [exact Hall|].
    intros f Hf. by apply numeric_columns_in in Hf as [_ ?].
Qed.

(* ---------------------------------------------------------------- *)
(** ** The dataset on the console *)

Lemma load_if_none_fails_world (w : World) (e : exn) :
  df (self w) = None ->
  load_failure w e ->
  exists w', load_if_none w = Raise e w' /\
             self w' = self w /\ files (env w') = files (env w) /\
             stdin (env w') = stdin (env w) /\
             stdout (env w') = stdout (env w).
Proof.
  intros Hd Hfail. unfold load_if_none, load_dataset, bind, get, pd_read_csv.
  fields. rewrite Hd. fields.
  destruct Hfail as [[Hf ->] | (text & Hf & Hp)]; rewrite Hf.
  - eexists. split; [reflexivity|]. fields. by destruct w.
  - rewrite Hp. eexists. split; [reflexivity|]. fields. by destruct w.
Qed.

Lemma display_dataset_info_run (w : World) (d : Frame.t float) :
  dataset w d ->
  exists w',
    display_dataset_info w = Ok tt w' /\
    df (self w') = Some d /\
    features (self w') = features (self w) /\
    model (self w') = model (self w) /\
    r2 (self w') = r2 (self w) /\
    is_trained (self w') = is_trained (self w) /\
    files (env w') = files (env w) /\
    stdin (env w') = stdin (env w) /\
    stdout (env w')
    = stdout (env w)
        ++ [(nl +:+ rule) +:+ nl;
            "            KC HOUSE DATASET INFORMATION" +:+ nl;
            rule +:+ nl;
            ("  Rows    : " +:+ pretty (Frame.nrows d)) +:+ nl;
            ("  Columns : " +:+ pretty (length (Frame.columns d))) +:+ nl;
            dashes +:+ nl;
            "  Column Names:" +:+ nl]
        ++ map (fun ic => ("    " +:+ PyStr.fmt_right2 (fst ic) +:+ ". "
                             +:+ snd ic) +:+ nl)
               (enumerate 1 (Frame.column_names d))
        ++ [dashes +:+ nl; "  First 5 rows:" +:+ nl;
            head_to_string d +:+ nl; rule +:+ nl].
Proof.
  intros Hd.
  cut (wp display_dataset_info
         (fun _ w' =>
            df (self w') = Some d /\
            features (self w') = features (self w) /\
            model (self w') = model (self w) /\
            r2 (self w') = r2 (self w) /\
            is_trained (self w') = is_trained (self w) /\
            files (env w') = files (env w) /\
            stdin (env w') = stdin (env w) /\
            stdout (env w')
            = stdout (env w)
                ++ [(nl +:+ rule) +:+ nl;
                    "            KC HOUSE DATASET INFORMATION" +:+ nl;
                    rule +:+ nl;
                    ("  Rows    : " +:+ pretty (Frame.nrows d)) +:+ nl;
                    ("  Columns : " +:+ pretty (length (Frame.columns d))) +:+ nl;
                    dashes +:+ nl;
                    "  Column Names:" +:+ nl]
                ++ map (fun ic => ("    " +:+ PyStr.fmt_right2 (fst ic) +:+ ". "
                                     +:+ snd ic) +:+ nl)
                       (enumerate 1 (Frame.column_names d))
                ++ [dashes +:+ nl; "  First 5 rows:" +:+ nl;
                    head_to_string d +:+ nl; rule +:+ nl]) w).
  { intros ([] & w' & ? & ?)%wp_elim. eauto. }
  unfold display_dataset_info. steps.
  apply (wp_load_if_none _ d); [done|].
  intros w1 Hdf1 Hfe1 Hm1 Hr1 Hfl1 _ _ Hf1 Hin1 Hout1 _ _.
  steps. apply (wp_the_df _ d); [done|]. steps.
  rewrite Hdf1, Hfe1, Hm1, Hr1, Hfl1, Hf1, Hin1, Hout1.
  repeat split. by rewrite <- !app_assoc.
Qed.

(** X15.  [display_dataset_info] on a dataset that loads returns with
    the frame cached and with the features, the model, the score, the
    flag, the files and the input as they were; it prints the two counts
    and then the name of the column at position [k] as the entry numbered
    [k + 1].  On a dataset that does not load it raises the exception of
    the load before anything is printed, and the session is as it was. *)
Theorem display_dataset_info_shows (w : World) :
  (forall d,
      dataset w d ->
      exists w',
        display_dataset_info w = Ok tt w' /\
        df (self w') = Some d /\
        features (self w') = features (self w) /\
        model (self w') = model (self w) /\
        r2 (self w') = r2 (self w) /\
        is_trained (self w') = is_trained (self w) /\
        files (env w') = files (env w) /\
        stdin (env w') = stdin (env w) /\
        length (stdout (env w'))
        = (length (stdout (env w)) + 11 + length (Frame.columns d))%nat /\
        stdout (env w') !! (length (stdout (env w)) + 3)%nat
        = Some (("  Rows    : " +:+ pretty (Frame.nrows d)) +:+ nl) /\
        stdout (env w') !! (length (stdout (env w)) + 4)%nat
        = Some (("  Columns : " +:+ pretty (length (Frame.columns d))) +:+ nl) /\
        forall k name,
          Frame.column_names d !! k = Some name ->
          stdout (env w') !! (length (stdout (env w)) + 7 + k)%nat
          = Some (("    " +:+ PyStr.fmt_right2 (S k) +:+ ". " +:+ name) +:+ nl)) /\
  (forall e,
      df (self w) = None ->
      load_failure w e ->
      exists w',
        display_dataset_info w = Raise e w' /\
        stdout (env w') = stdout (env w) /\
        self w' = self w /\
        files (env w') = files (env w) /\
        stdin (env w') = stdin (env w)).
Proof.
  split.
  - intros d Hd.
    destruct (display_dataset_info_run w d Hd)
      as (w' & Hrun & ? & ? & ? & ? & ? & ? & ? & Hout).
    exists w'. repeat (split; [done|]). rewrite Hout.
    split; [|split; [|split]].
    + rewrite !length_app, length_map, enumerate_length.
      unfold Frame.column_names. rewrite length_map. cbn. lia.
    + rewrite lookup_app_r; [|lia].
      by replace (length (stdout (env w)) + 3 - length (stdout (env w)))%nat
        with 3%nat by lia.
    + rewrite lookup_app_r; [|lia].
      by replace (length (stdout (env w)) + 4 - length (stdout (env w)))%nat
        with 4%nat by lia.
    + intros k name Hk.
      rewrite lookup_app_r; [|lia].
      replace (length (stdout (env w)) + 7 + k - length (stdout (env w)))%nat
        with (7 + k)%nat by lia.
      rewrite lookup_app_r; [|cbn; lia].
      replace (7 + k - length _)%nat with k by (cbn; lia).
      apply lookup_app_l_Some. rewrite list_lookup_fmap.
      by rewrite (enumerate_lookup _ 1 k name Hk).
  - intros e Hnone Hfail.
    destruct (load_if_none_fails_world w e Hnone Hfail)
      as (w' & Hload & ? & ? & ? & ?).
    exists w'. split; [|done].
    unfold display_dataset_info. by apply bind_raise.
Qed.

(* ---------------------------------------------------------------- *)
(** ** The numbers of the selection menu *)

Ltac prefix_tail :=
  first [ by (rewrite <- ?app_assoc; reflexivity)
        | apply prefix_app_r; prefix_tail ].

Lemma select_features_listing (w : World) (d : Frame.t float) (raw : string)
      (rest : list string) :
  dataset w d ->
  stdin (env w) = raw :: rest ->
  exists w',
    select_features w = Ok tt w' /\
    features (self w') = selection (numeric_columns d) (PyStr.strip raw) /\
    (stdout (env w)
       ++ [(nl +:+ rule) +:+ nl;
           "           FEATURE SELECTION" +:+ nl;
           rule +:+ nl;
           "  Available numeric columns:" +:+ nl]
       ++ map (fun ic =>
                 ("    " +:+ PyStr.fmt_right2 (fst ic) +:+ ". " +:+ snd ic
                    +:+ (if str_in (snd ic) DEFAULT_FEATURES then " *" else ""))
                 +:+ nl)
              (enumerate 1 (numeric_columns d)))
    `prefix_of` stdout (env w').
Proof.
  intros Hd Hin.
  cut (wp select_features
         (fun _ w' =>
            features (self w') = selection (numeric_columns d) (PyStr.strip raw) /\
            (stdout (env w)
               ++ [(nl +:+ rule) +:+ nl;
                   "           FEATURE SELECTION" +:+ nl;
                   rule +:+ nl;
                   "  Available numeric columns:" +:+ nl]
               ++ map (fun ic =>
                         ("    " +:+ PyStr.fmt_right2 (fst ic) +:+ ". " +:+ snd ic
                            +:+ (if str_in (snd ic) DEFAULT_FEATURES
                                 then " *" else ""))
                         +:+ nl)
                      (enumerate 1 (numeric_columns d)))
            `prefix_of` stdout (env w')) w).
  { intros (a & w' & Hrun & HQ)%wp_elim. destruct a. eauto. }
  unfold select_features, get_numeric_columns. steps.
  apply (wp_load_if_none _ d); [done|].
  intros w1 Hdf1 _ _ _ _ _ _ _ Hin1 Hout1 _ _.
  steps. apply (wp_the_df _ d); [done|]. steps.
  eapply wp_input; [fields; by rewrite Hin1, Hin|].
  steps. unfold selection. rewrite Hout1.
  destruct (String.eqb (PyStr.strip raw) "").
  - steps. split; [done|]. prefix_tail.
  - destruct (mapM parse_index _) as [indices|] eqn:Hparse.
    + apply wp_try_except_ok. step.
      apply (wp_comprehension _ _ _ indices); [done|]. step.
      destruct (lookups_in_range (numeric_columns d) _
                  (filter_in_range _ indices)) as (names & Hnames & _).
      apply (wp_comprehension _ _ _ names); [done|].
      rewrite Hnames.
      destruct names; steps; (split; [done|]); prefix_tail.
    + eapply wp_try_except_raise.
      * apply bind_raise. by rewrite comprehension_option, Hparse.
      * done.
      * steps. split; [done|]. prefix_tail.
Qed.

(** X16.  The number shown beside a column in the selection menu is the
    number that selects it.  The menu lists the available numeric columns
    from 1 in their order, with a star on those of the default list; and
    when the answer is the one index [k + 1] of the column listed at
    position [k], the feature list becomes that column alone. *)
Theorem select_features_numbering (w : World) (d : Frame.t float)
        (raw : string) (rest : list string) (k : nat) (name : string) :
  dataset w d ->
  stdin (env w) = raw :: rest ->
  numeric_columns d !! k = Some name ->
  exists w',
    select_features w = Ok tt w' /\
    stdout (env w') !! (length (stdout (env w)) + 4 + k)%nat
    = Some (("    " +:+ PyStr.fmt_right2 (S k) +:+ ". " +:+ name
               +:+ (if str_in name DEFAULT_FEATURES then " *" else ""))
            +:+ nl) /\
    (forall token,
        PyStr.split "," (PyStr.strip raw) = [token] ->
        parse_index token = Some (Z.of_nat (S k)) ->
        features (self w') = [name]).
Proof.
  intros Hd Hin Hk.
  destruct (select_features_listing w d raw rest Hd Hin)
    as (w' & Hrun & Hfe & Hpre).
  exists w'. split; [done|]. split.
  - eapply prefix_lookup_Some; [|exact Hpre].
    rewrite lookup_app_r; [|lia].
    replace (length (stdout (env w)) + 4 + k - length (stdout (env w)))%nat
      with (4 + k)%nat by lia.
    rewrite lookup_app_r; [|cbn; lia].
    replace (4 + k - length _)%nat with k by (cbn; lia).
    rewrite list_lookup_fmap.
    by rewrite (enumerate_lookup _ 1 k name Hk).
  - intros token Hsplit Hparse. rewrite Hfe.
    assert (Hall : Forall2 (fun t i => parse_index t = Some i)
                           (PyStr.split "," (PyStr.strip raw)) [Z.of_nat (S k)]).
    { rewrite Hsplit. by repeat constructor. }
    destruct (selection_parsed (numeric_columns d) _ _ Hall) as [_ Hkept].
    assert (Hlt : (k < length (numeric_columns d))%nat)
      by (by eapply lookup_lt_Some).
    assert (Hrange : in_range (length (numeric_columns d)) (Z.of_nat (S k)) = true).
    { unfold in_range. apply andb_true_iff. split; apply Z.leb_le; lia. }
    cbn [List.filter] in Hkept. rewrite Hrange in Hkept.
    specialize (Hkept ltac:(done)).
    apply Forall2_cons_inv_l in Hkept as (name' & names & Hname & Hnil & ->).
    apply Forall2_nil_inv_l in Hnil as ->.
    replace (Z.to_nat (Z.of_nat (S k) - 1)) with k in Hname by lia.
    congruence.
Qed.

(* ---------------------------------------------------------------- *)
(** ** A session that trains, predicts and leaves *)

Lemma menu_turn_exit (w : World) (raw : string) (rest : list string) :
  stdin (env w) = raw :: rest ->
  PyStr.strip raw = "6" ->
  exists w',
    menu_turn w = Ok (Some tt) w' /\
    stdin (env w') = rest /\ self w' = self w /\
    files (env w') = files (env w).
Proof.
  intros Hin Hc.
  destruct (menu_turn_choice w raw rest Hin) as (w0 & Hturn & Hin0 & (Hs & Hf & _)).
  rewrite Hc in Hturn. unfold menu_action in Hturn.
  cbn [String.eqb Ascii.eqb Bool.eqb] in Hturn.
  unfold bind, print, modify, ret in Hturn.
  eexists. split; [exact Hturn|]. fields. by repeat split.
Qed.

Lemma train_model_ok (w : World) (d : Frame.t float)
      (test_size : float) (random_state : Z) (r : Regressor) (score : float) :
  dataset w d ->
  training d (features (self w)) test_size random_state = inr (r, score) ->
  exists w',
    train_model test_size random_state w = Ok tt w' /\
    model (self w') = Some (Fitted r) /\
    r2 (self w') = Some score /\
    is_trained (self w') = true /\
    features (self w') = features (self w) /\
    data_file (self w') = data_file (self w) /\
    files (env w') = files (env w) /\
    stdin (env w') = stdin (env w) /\
    clock (env w') = clock (env w) /\
    clock_reads (env w') = clock_reads (env w).
Proof.
  intros Hd Htrain.
  pose proof (train_model_cases w d test_size random_state Hd) as H.
  cbv zeta in H. unfold training in Htrain.
  destruct (splitting d (features (self w)) test_size random_state)
    as [e|[[[X_train X_test] y_train] y_test]]; [done|].
  destruct (fit X_train y_train) as [e|r']; [done|].
  destruct (predict r' X_test) as [e|y_pred]; [done|].
  destruct (r2_score y_test y_pred) as [e|score']; [done|].
  injection Htrain as -> ->.
  destruct H as (w' & Hrun & (? & ? & ? & ? & ? & ?) & ? & ? & ? & _).
  pose proof (orderly_train_model test_size random_state w) as Ho.
  rewrite Hrun in Ho. destruct Ho as (_ & (_ & ? & _) & _).
  exists w'. by repeat split.
Qed.

Lemma menu_turn_train (w : World) (raw : string) (rest : list string)
      (d : Frame.t float) (r : Regressor) (score : float) :
  stdin (env w) = raw :: rest ->
  PyStr.strip raw = "3" ->
  dataset w d ->
  training d (features (self w)) float_0_2 42 = inr (r, score) ->
  exists w',
    menu_turn w = Ok None w' /\
    model (self w') = Some (Fitted r) /\
    r2 (self w') = Some score /\
    is_trained (self w') = true /\
    features (self w') = features (self w) /\
    data_file (self w') = data_file (self w) /\
    files (env w') = files (env w) /\
    stdin (env w') = rest /\
    clock (env w') = clock (env w) /\
    clock_reads (env w') = clock_reads (env w).
Proof.
  intros Hin Hc Hd Htrain.
  destruct (menu_turn_choice w raw rest Hin)
    as (w0 & Hturn & Hin0 & (Hs & Hf & Hcl & Hn & _)).
  assert (Hd0 : dataset w0 d).
  { unfold dataset in *. by rewrite Hs, Hf. }
  rewrite <- Hs in Htrain.
  destruct (train_model_ok w0 d float_0_2 42 r score Hd0 Htrain)
    as (w' & Hrun & ? & ? & ? & ? & ? & ? & ? & ? & ?).
  exists w'. split.
  { rewrite Hturn, Hc. unfold menu_action.
    cbn [String.eqb Ascii.eqb Bool.eqb]. unfold train_model_default.
    by rewrite (bind_ok _ _ _ _ _ Hrun). }
  repeat split; congruence.
Qed.

Lemma menu_turn_predict (w : World) (raw : string) (rest : list string)
      (values : Dict.t float) (rest' : list string) (r : Regressor)
      (p : float) (ps : list float) :
  stdin (env w) = raw :: rest ->
  PyStr.strip raw = "4" ->
  is_trained (self w) = true ->
  answers (features (self w)) [] rest = Some (values, rest') ->
  model (self w) = Some (Fitted r) ->
  predict r (Frame.of_row values) = inr (p :: ps) ->
  exists w',
    menu_turn w = Ok None w' /\
    self w' = self w /\
    stdin (env w') = rest' /\
    log_text w' =
      log_text w +:+
      log_line (DateTime.strftime (clock (env w) (clock_reads (env w))))
               values p /\
    (forall path, path <> data_file (self w) ->
                  files (env w') !! path = files (env w) !! path).
Proof.
  intros Hin Hc Hflag Hans Hmodel Hpred.
  destruct (menu_turn_choice w raw rest Hin)
    as (w0 & Hturn & Hin0 & (Hs & Hf & Hcl & Hn & _)).
  assert (Hflag0 : is_trained (self w0) = true) by (by rewrite Hs).
  pose proof (predict_price_run w0 Hflag0) as Hrun.
  rewrite Hs, Hin0, Hans in Hrun. cbv zeta in Hrun.
  unfold model_answer in Hrun. rewrite Hmodel, Hpred in Hrun.
  destruct Hrun as (w' & Hrun & Hs' & Hin' & Hlog & Hother).
  exists w'. split.
  { rewrite Hturn, Hc. unfold menu_action.
    cbn [String.eqb Ascii.eqb Bool.eqb].
    by rewrite (bind_ok _ _ _ _ _ Hrun). }
  split; [congruence|]. split; [done|]. split.
  - rewrite Hlog, Hcl, Hn. unfold log_text. by rewrite Hs, Hf.
  - intros path Hp. rewrite Hother; [by rewrite Hf|done].
Qed.

(** X17.  A whole session.  With a dataset file that loads and on which
    the default features train, the input "3", "4", a line that converts
    for each of the ten default features, and "6" makes [main()] return:
    the model has been fitted once on the default features, the log has
    grown by the one line of the prediction, stamped with the first
    reading of the clock, no other file has changed, and the input after
    the "6" is left unread. *)
Theorem train_predict_exit (e : Env) (text : string) (d : Frame.t float)
        (r : Regressor) (score : float) (c3 c4 c6 : string)
        (lines rest : list string) (values : Dict.t float)
        (p : float) (ps : list float) :
  files e !! "kc_house_data.csv" = Some text ->
  parse_csv text = inr d ->
  training d DEFAULT_FEATURES float_0_2 42 = inr (r, score) ->
  stdin e = c3 :: c4 :: lines ->
  PyStr.strip c3 = "3" ->
  PyStr.strip c4 = "4" ->
  answers DEFAULT_FEATURES [] lines = Some (values, c6 :: rest) ->
  PyStr.strip c6 = "6" ->
  predict r (Frame.of_row values) = inr (p :: ps) ->
  exists w',
    main e = Ok tt w' /\
    stdin (env w') = rest /\
    default "" (files (env w') !! "data.txt")
    = default "" (files e !! "data.txt")
        +:+ log_line (DateTime.strftime (clock e (clock_reads e))) values p /\
    (forall path, path <> "data.txt" ->
                  files (env w') !! path = files e !! path) /\
    model (self w') = Some (Fitted r) /\
    r2 (self w') = Some score /\
    features (self w') = DEFAULT_FEATURES.
Proof.
  intros Hfile Hparse Htrain Hin Hc3 Hc4 Hans Hc6 Hpred.
  unfold main. set (w0 := mkWorld (init "kc_house_data.csv" "data.txt") e).
  assert (Hd0 : dataset w0 d) by (right; split; [done|]; by exists text).
  destruct (menu_turn_train w0 c3 (c4 :: lines) d r score Hin Hc3 Hd0 Htrain)
    as (w1 & Hturn1 & Hm1 & Hr1 & Hfl1 & Hfe1 & Hdf1 & Hf1 & Hin1 & Hcl1 & Hn1).
  destruct (menu_turn_predict w1 c4 lines values (c6 :: rest) r p ps
              Hin1 Hc4 Hfl1) as (w2 & Hturn2 & Hs2 & Hin2 & Hlog2 & Hother2);
    [by rewrite Hfe1|done|done|].
  destruct (menu_turn_exit w2 c6 rest Hin2 Hc6)
    as (w3 & Hturn3 & Hin3 & Hs3 & Hf3).
  exists w3. split.
  { rewrite (menu_loop_continue _ _ Hturn1), (menu_loop_continue _ _ Hturn2).
    rewrite menu_loop_unfold. by apply while_true_break. }
  split; [done|].
  unfold log_text in Hlog2. rewrite Hs2, Hdf1, Hf1, Hcl1, Hn1 in Hlog2.
  rewrite Hdf1 in Hother2. rewrite Hf3.
  split; [exact Hlog2|]. split.
  { intros path Hp. rewrite Hother2; [by rewrite Hf1|done]. }
  rewrite Hs3, Hs2. by repeat split.
Qed.

(** X18.  A selection that fails changes nothing it was asked to
    change.  Whenever [select_features] raises, the feature list, the
    flag, the model, the score and the files are as before the call: it
    raises [EOFError] at its prompt when the input is at its end, the
    frame then being cached, or the exception of the load when no frame
    is cached and the dataset does not load, nothing then being
    printed. *)
Theorem select_features_failure (w : World) (e : exn) (w' : World) :
  select_features w = Raise e w' ->
  features (self w') = features (self w) /\
  is_trained (self w') = is_trained (self w) /\
  model (self w') = model (self w) /\
  r2 (self w') = r2 (self w) /\
  files (env w') = files (env w) /\
  ((exists d, dataset w d /\ stdin (env w) = [] /\ e = EOFError /\
              df (self w') = Some d) \/
   (df (self w) = None /\ load_failure w e /\
    stdout (env w') = stdout (env w))).
Proof.
  intros Hraise.
  destruct (dataset_or_failure w) as [[d Hd] | (Hnone & e0 & Hfail)].
  - destruct (stdin (env w)) as [|raw rest] eqn:Hin.
    + destruct (select_features_eof w d Hd Hin)
        as (w1 & Hr & ? & ? & ? & ? & ? & ?).
      rewrite Hr in Hraise. injection Hraise as <- <-.
      repeat (split; [done|]). left. by exists d.
    + destruct (select_features_run w d raw rest Hd Hin) as (w1 & Hr & _).
      congruence.
  - destruct (load_if_none_fails_world w e0 Hnone Hfail)
      as (w1 & Hl & Hs & ? & ? & ?).
    assert (Hr : select_features w = Raise e0 w1).
    { unfold select_features, get_numeric_columns. by do 2 apply bind_raise. }
    rewrite Hr in Hraise. injection Hraise as <- <-. rewrite Hs.
    repeat (split; [done|]). by right.
Qed.

End Properties.

(* ================================================================== *)
(** * Runs in the concrete environment *)
(* ================================================================== *)

Example split_tokens : PyStr.split "," "2,5,abc" = ["2"; "5"; "abc"].
Proof. reflexivity. Qed.

Example split_keeps_empty_fields : PyStr.split "," "a,," = ["a"; ""; ""].
Proof. reflexivity. Qed.

Example strip_both_ends : PyStr.strip "  a b  " = "a b".
Proof. reflexivity. Qed.

Example int_accepts :
  PyStr.int 4300 " +1_000 " = Some 1000 /\ PyStr.int 4300 "-07" = Some (-7).
Proof. split; reflexivity. Qed.

Example int_rejects :
  PyStr.int 4300 "1__0" = None /\ PyStr.int 4300 "_1" = None /\
  PyStr.int 4300 "1_" = None /\ PyStr.int 4300 "" = None /\
  PyStr.int 4300 "abc" = None /\ PyStr.int 4300 "+ 1" = None /\
  PyStr.int 4300 "1.5" = None.
Proof. repeat split; reflexivity. Qed.

Example readlines_universal :
  TextFile.readlines ("ab" +:+ nl +:+ "cd" +:+ String CR nl +:+ "e" +:+ String CR "f")
  = ["ab" +:+ nl; "cd" +:+ nl; "e" +:+ nl; "f"].
Proof. reflexivity. Qed.

Example strftime_noon : DateTime.strftime Sample.noon = "2024-03-09 12:00:05".
Proof. reflexivity. Qed.

Example decimal_digits :
  Sample.decimal 221900 = "221900" /\ Sample.decimal (-7) = "-7" /\
  Sample.decimal 0 = "0".
Proof. repeat split; reflexivity. Qed.



Section Runs.
Import Sample.

(** The answer ["2,5,abc"]: the default list, and the warning on the
    console. *)
Example select_with_bad_token :
  wp select_features
     (fun _ w' =>
        features (self w') = DEFAULT_FEATURES /\
        In ("  Invalid input — using default features." +:+ nl) (stdout (env w')))
     (Sample.loaded ∅ ["2,5,abc"]).
Proof.
  vm_compute. split; [reflexivity|].
  repeat first [left; reflexivity | right].
Qed.

(** The same column twice: the feature list repeats the name, and the
    row built from two valid answers has one column. *)
Example repeated_feature_collapses :
  wp select_features
     (fun _ w1 =>
        features (self w1) = ["bedrooms"; "bedrooms"] /\
        wp (ask_values (features (self w1)) [])
           (fun values w2 =>
              (values : list (string * Z)) = [("bedrooms", 4)] /\
              Frame.column_names (Frame.of_row values) = ["bedrooms"] /\
              stdin (env w2) = [])
           w1)
     (Sample.loaded ∅ ["1,1"; "3"; "4"]).
Proof. vm_compute. repeat split. Qed.

(** C1, counterexample.  In the answer ["2,5,99"] every token converts,
    99 is out of the range 1..18, and the feature list is not the default
    list: columns 2 and 5 are kept. *)
Lemma select_keeps_tokens_in_range :
  Forall2 (fun t i => parse_index t = Some i)
          (PyStr.split "," (PyStr.strip "2,5,99")) [2; 5; 99] /\
  length (numeric_columns Sample.kc_frame) = 18%nat /\
  in_range 18 99 = false /\
  exists w',
    select_features (Sample.loaded ∅ ["2,5,99"]) = Ok tt w' /\
    features (self w') = ["bathrooms"; "floors"] /\
    features (self w') <> DEFAULT_FEATURES.
Proof.
  split; [repeat constructor|]. split; [reflexivity|]. split; [reflexivity|].
  destruct (select_features_run (Sample.loaded ∅ ["2,5,99"]) Sample.kc_frame
              "2,5,99" []) as (w' & Hrun & Hfeat & _);
    [left; reflexivity | reflexivity |].
  exists w'. split; [exact Hrun|]. rewrite Hfeat.
  split; [reflexivity | discriminate].
Qed.

Lemma select_features_fallback_witness :
  exists w',
    select_features (Sample.loaded ∅ ["2,5,abc"]) = Ok tt w' /\
    let available := numeric_columns Sample.kc_frame in
    let tokens := PyStr.split "," (PyStr.strip "2,5,abc") in
    (PyStr.is_ascii "2,5,abc" = true ->
     Exists (fun t => parse_index t = None) tokens ->
     features (self w') = DEFAULT_FEATURES) /\
    (forall indices,
        Forall2 (fun t i => parse_index t = Some i) tokens indices ->
        Exists (fun i => in_range (length available) i = true) indices ->
        features (self w') <> [] /\
        Forall2 (fun i name => available !! Z.to_nat (i - 1) = Some name)
                (List.filter (in_range (length available)) indices)
                (features (self w'))).
Proof.
  apply (select_features_fallback (Sample.loaded ∅ ["2,5,abc"])
           Sample.kc_frame "2,5,abc" []).
  - left. reflexivity.
  - reflexivity.
Defined.

Lemma select_features_policy_witness :
  exists w',
    select_features (Sample.loaded ∅ ["2,5,99"]) = Ok tt w' /\
    let available := numeric_columns Sample.kc_frame in
    let tokens := PyStr.split "," (PyStr.strip "2,5,99") in
    (PyStr.is_ascii "2,5,99" = true ->
     Exists (fun t => parse_index t = None) tokens ->
     features (self w') = DEFAULT_FEATURES) /\
    (forall indices,
        Forall2 (fun t i => parse_index t = Some i) tokens indices ->
        let kept := List.filter (in_range (length available)) indices in
        (kept = [] -> features (self w') = DEFAULT_FEATURES) /\
        (kept <> [] ->
         Forall2 (fun i name => available !! Z.to_nat (i - 1) = Some name)
                 kept (features (self w')))).
Proof.
  apply (select_features_policy (Sample.loaded ∅ ["2,5,99"])
           Sample.kc_frame "2,5,99" []).
  - left. reflexivity.
  - reflexivity.
Defined.

Lemma select_features_in_order_witness :
  exists w',
    select_features (Sample.fresh Sample.csv_present [" 12, 1 ,3"]) = Ok tt w' /\
    Forall2 (fun i name =>
               numeric_columns Sample.kc_frame !! Z.to_nat (i - 1) = Some name)
            [12; 1; 3] (features (self w')).
Proof.
  apply (select_features_in_order (Sample.fresh Sample.csv_present [" 12, 1 ,3"])
           Sample.kc_frame " 12, 1 ,3" [] [12; 1; 3]).
  - right. split; [reflexivity|]. exists "id,date,price". split; reflexivity.
  - reflexivity.
  - repeat constructor.
  - repeat constructor; vm_compute; discriminate.
Defined.

Lemma select_features_resets_trained_witness :
  is_trained (self (Sample.trained ["grade"] ∅ [""])) = true /\
  exists w',
    select_features (Sample.trained ["grade"] ∅ [""]) = Ok tt w' /\
    is_trained (self w') = false.
Proof.
  split; [reflexivity|].
  apply (proj2 (select_features_resets_trained (Sample.trained ["grade"] ∅ [""]))
           Sample.kc_frame "" []).
  - left. reflexivity.
  - reflexivity.
Defined.

Lemma predict_untrained_witness :
  exists w',
    predict_price (Sample.loaded ∅ ["3"]) = Ok None w' /\
    stdout (env w') =
      stdout (env (Sample.loaded ∅ ["3"]))
        ++ [(nl +:+ "  [!] Model is not trained yet. Please train first.") +:+ nl] /\
    self w' = self (Sample.loaded ∅ ["3"]) /\
    files (env w') = files (env (Sample.loaded ∅ ["3"])) /\
    history w' = history (Sample.loaded ∅ ["3"]) /\
    stdin (env w') = stdin (env (Sample.loaded ∅ ["3"])).
Proof.
  apply (predict_untrained (Sample.loaded ∅ ["3"])). reflexivity.
Defined.

(** C6, counterexample.  With no dataset file, choice 1 ends [main] with
    [FileNotFoundError]: the choice 6 that follows is never read, and the
    last thing on the console is the prompt of the menu. *)
Lemma missing_dataset_ends_main :
  match main (env_of ∅ ["1"; "6"]) with
  | Raise e w' =>
      e = FileNotFoundError /\
      stdin (env w') = ["6"] /\
      last (stdout (env w')) = Some "  Enter your choice (1-6): "
  | _ => False
  end.
Proof. vm_compute. repeat split. Qed.

Lemma menu_failures_witness :
  In (PyStr.strip " 1 ") ["1"; "2"; "3"] /\
  exists w',
    menu_loop (fresh ∅ [" 1 "; "6"]) = Raise FileNotFoundError w' /\
    stdin (env w') = ["6"].
Proof.
  split; [left; reflexivity|].
  apply (proj1 (proj2 (menu_failures (fresh ∅ [" 1 "; "6"]) " 1 " ["6"] eq_refl))).
  - left. reflexivity.
  - reflexivity.
  - left. split; reflexivity.
Defined.


(** A feature name with a line break in it makes one record two lines. *)
Example name_with_linebreak_splits_record :
  wp (save_all [record [("a" +:+ nl +:+ "b", 3)] 100])
     (fun _ w' => length (history w') = 2%nat)
     (trained ["a" +:+ nl +:+ "b"] ∅ []).
Proof. vm_compute. reflexivity. Qed.


(** Without a seed the stand-in for the split follows the generator,
    and with one it follows the seed. *)
Example split_follows_generator_or_seed :
  let X := Frame.mk 2 [num_col "sqft_living" [1180; 2570]] in
  let y := num_col "price" [221900; 538000] in
  shuffle_split X y 20 None 0 <> shuffle_split X y 20 None 1 /\
  shuffle_split X y 20 (Some 42) 0 <> shuffle_split X y 20 (Some 43) 0 /\
  shuffle_split X y 20 (Some 42) 0 = shuffle_split X y 20 (Some 42) 1.
Proof. vm_compute. repeat split; discriminate. Qed.

Lemma train_deterministic_witness :
  let w1 := loaded ∅ [] in
  let w2 := reseeded 7
              (trained DEFAULT_FEATURES {[ "data.txt" := "a line" +:+ nl ]} ["4"]) in
  let stored ts rs :=
    Some match training kc_frame DEFAULT_FEATURES ts rs with
         | inl e => inl e
         | inr (r, score) => inr (Some (Fitted r), Some score, true)
         end in
  np_random (env w1) <> np_random (env w2) /\
  (forall g,
      outcome (train_split float_0_2 42 w1)
      = Some (splitting_at g kc_frame DEFAULT_FEATURES float_0_2 42) /\
      outcome (train_split float_0_2 42 w2)
      = Some (splitting_at g kc_frame DEFAULT_FEATURES float_0_2 42)) /\
  trained_state (train_model float_0_2 42 w1) = stored float_0_2 42 /\
  trained_state (train_model float_0_2 42 w2) = stored float_0_2 42 /\
  trained_state (train_model_default w1) = stored float_0_2 42 /\
  trained_state (train_model_default w2) = stored float_0_2 42.
Proof.
  cbv zeta. split; [discriminate|].
  apply (train_deterministic (loaded ∅ [])
           (reseeded 7
              (trained DEFAULT_FEATURES {[ "data.txt" := "a line" +:+ nl ]} ["4"]))
           kc_frame float_0_2 42).
  - left. reflexivity.
  - left. reflexivity.
  - reflexivity.
Defined.

(** C9, counterexample.  Two calls of [load_dataset] in a row: the second
    reads the file again although the frame is cached. *)
Lemma load_dataset_reads_again :
  wp load_dataset
     (fun d w1 =>
        df (self w1) = Some d /\
        csv_reads (env w1) = 1%nat /\
        wp load_dataset
           (fun d' w2 => df (self w2) = Some d' /\ csv_reads (env w2) = 2%nat)
           w1)
     (fresh csv_present []).
Proof. vm_compute. repeat split. Qed.

Lemma dataset_read_once_witness :
  df (self (loaded csv_present [""])) <> None /\
  reads_nothing select_features (loaded csv_present [""]).
Proof.
  split; [discriminate|].
  apply (proj1 (proj2 dataset_read_once) (loaded csv_present [""])).
  discriminate.
Defined.

Lemma predict_row_columns_witness :
  let w := trained ["bedrooms"; "floors"] ∅ ["3"; "2"; "6"] in
  NoDup ["bedrooms"; "floors"] /\
  outcome (predict_price w)
  = Some match predict tt
                 (Frame.mk 1 [Frame.mkcol "bedrooms" (Frame.Numbers [3]);
                              Frame.mkcol "floors" (Frame.Numbers [2])]) with
         | inl e => inl e
         | inr [] => inl IndexError
         | inr (p :: _) => inr (Some p)
         end.
Proof.
  intros w.
  assert (Hnd : NoDup ["bedrooms"; "floors"]).
  { apply (bool_decide_unpack _). vm_compute. reflexivity. }
  split; [exact Hnd|].
  apply (proj1 (proj1 (predict_row_columns w tt eq_refl eq_refl)
                  ["3"; "2"] [3; 2] ["6"] Hnd eq_refl
                  ltac:(repeat constructor) eq_refl)).
Defined.

(* ---------------------------------------------------------------- *)
(** ** Runs of the further properties *)

Lemma menu_loop_returns_by_exit_witness :
  Forall (fun line => PyStr.is_ascii line = true)
         (stdin (env (fresh ∅ ["9"; " 5 "]))) /\
  Forall (fun line => PyStr.strip line <> "6")
         (stdin (env (fresh ∅ ["9"; " 5 "]))) /\
  exists e w', menu_loop (fresh ∅ ["9"; " 5 "]) = Raise e w'.
Proof.
  assert (Ha : Forall (fun line => PyStr.is_ascii line = true)
                      (stdin (env (fresh ∅ ["9"; " 5 "]))))
    by (repeat constructor).
  assert (H : Forall (fun line => PyStr.strip line <> "6")
                     (stdin (env (fresh ∅ ["9"; " 5 "])))).
  { repeat constructor; intros H; vm_compute in H; discriminate H. }
  split; [exact Ha|]. split; [exact H|].
  exact (proj2 (menu_loop_returns_by_exit (fresh ∅ ["9"; " 5 "]) Ha) H).
Defined.

Lemma menu_loop_exit_witness :
  exists w',
    menu_loop (trained ["bedrooms"] ∅ [" 6 "; "1"]) = Ok tt w' /\
    stdin (env w') = ["1"] /\
    self w' = self (trained ["bedrooms"] ∅ [" 6 "; "1"]) /\
    files (env w') = files (env (trained ["bedrooms"] ∅ [" 6 "; "1"])).
Proof.
  apply (proj1 (menu_loop_exit (trained ["bedrooms"] ∅ [" 6 "; "1"]))
           " 6 " ["1"]); reflexivity.
Defined.

Lemma cached_frame_is_kept_witness :
  df (self (loaded ∅ ["5"; "6"])) = Some kc_frame /\
  (forall w1, at_menu (loaded ∅ ["5"; "6"]) w1 -> df (self w1) = Some kc_frame).
Proof.
  split; [reflexivity|].
  apply (proj1 (cached_frame_is_kept (loaded ∅ ["5"; "6"]) kc_frame eq_refl)).
Defined.

Lemma fresh_dataset (lines : list string) :
  dataset (fresh csv_present lines) kc_frame.
Proof.
  right. split; [reflexivity|]. exists "id,date,price".
  split; [vm_compute|]; reflexivity.
Qed.

Lemma default_training :
  training kc_frame DEFAULT_FEATURES float_0_2 42 = inr (tt, 1).
Proof. vm_compute. reflexivity. Qed.

Lemma session_well_formed_witness :
  exists w',
    menu_turn (fresh csv_present ["3"; "6"]) = Ok None w' /\
    well_formed w'.
Proof.
  destruct (menu_turn_train (fresh csv_present ["3"; "6"]) "3" ["6"]
              kc_frame tt 1 eq_refl eq_refl (fresh_dataset _) default_training)
    as (w' & Hturn & _).
  exists w'. split; [exact Hturn|].
  apply (session_well_formed "kc_house_data.csv" "data.txt"
           (env_of csv_present ["3"; "6"]) w').
  eapply at_menu_turn; [apply at_menu_start | exact Hturn].
Defined.

Lemma predict_price_records_witness :
  exists w',
    predict_price (trained ["bedrooms"; "floors"] ∅ ["3"; "2"; "6"])
    = Ok (Some 0) w' /\
    stdin (env w') = ["6"] /\
    log_text w'
    = log_line (DateTime.strftime noon) [("bedrooms", 3); ("floors", 2)] 0.
Proof.
  destruct (predict_price_records
              (trained ["bedrooms"; "floors"] ∅ ["3"; "2"; "6"])
              [("bedrooms", 3); ("floors", 2)] ["6"] tt 0 [])
    as (w' & Hrun & _ & Hin & Hlog & _);
    [reflexivity | vm_compute; reflexivity | reflexivity | reflexivity |].
  exists w'. split; [exact Hrun|]. split; [exact Hin|]. exact Hlog.
Defined.

Lemma predict_price_failure_witness :
  let w := trained ["bedrooms"] {[ "data.txt" := "a line" +:+ nl ]} ["x"] in
  exists w',
    predict_price w = Raise EOFError w' /\
    self w' = self w /\
    files (env w') = files (env w).
Proof.
  intros w.
  assert (Ha : answers (features (self w)) [] (stdin (env w)) = None)
    by (vm_compute; reflexivity).
  pose proof (predict_price_run w eq_refl) as H. rewrite Ha in H.
  destruct H as (w' & Hrun & _).
  destruct (predict_price_failure w EOFError w' Hrun) as (Hs & Hf & _).
  exists w'. split; [exact Hrun|]. split; [exact Hs | exact Hf].
Defined.

Lemma session_predict_has_model_witness :
  exists w' r,
    menu_turn (fresh csv_present ("3" :: ten_answers ++ ["6"])) = Ok None w' /\
    model (self w') = Some (Fitted r) /\
    outcome (predict_price w') = Some (inr (Some 0)).
Proof.
  destruct (menu_turn_train (fresh csv_present ("3" :: ten_answers ++ ["6"]))
              "3" (ten_answers ++ ["6"])
              kc_frame tt 1 eq_refl eq_refl (fresh_dataset _) default_training)
    as (w' & Hturn & _ & _ & Hfl & Hfe & _ & _ & Hin & _).
  assert (Hans : answers (features (self w')) [] (stdin (env w'))
                 = Some (ten_values, ["6"])).
  { rewrite Hfe, Hin. vm_compute. reflexivity. }
  assert (Hat : at_menu (mkWorld (init "kc_house_data.csv" "data.txt")
                           (env_of csv_present ("3" :: ten_answers ++ ["6"]))) w').
  { eapply at_menu_turn; [apply at_menu_start | exact Hturn]. }
  destruct (session_predict_has_model _ _ _ w' ten_values ["6"] Hat Hfl Hans)
    as (r & Hmodel & Hout).
  exists w', r. split; [exact Hturn|]. split; [exact Hmodel | exact Hout].
Defined.

Lemma ask_value_reprompts_witness :
  exists w',
    ask_value "bedrooms" [] (trained ["bedrooms"] ∅ ["abc"; ""; "3"; "6"])
    = Ok [("bedrooms", 3)] w' /\
    stdin (env w') = ["6"] /\
    stdout (env w')
    = ["    bedrooms: "; "    Please enter a valid number." +:+ nl;
       "    bedrooms: "; "    Please enter a valid number." +:+ nl;
       "    bedrooms: "].
Proof.
  destruct (ask_value_reprompts "bedrooms" []
              (trained ["bedrooms"] ∅ ["abc"; ""; "3"; "6"])
              ["abc"; ""] "3" ["6"] 3)
    as (w' & Hrun & Hin & Hout & _);
    [reflexivity | repeat constructor | reflexivity |].
  exists w'. split; [exact Hrun|]. split; [exact Hin | exact Hout].
Defined.

Lemma load_predictions_shows_witness :
  exists w',
    load_predictions
      (fresh {[ "data.txt" := "first" +:+ nl +:+ " second " +:+ nl ]} [])
    = Ok tt w' /\
    stdout (env w') !! 4%nat = Some ("  2. second" +:+ nl).
Proof.
  destruct (load_predictions_shows
              (fresh {[ "data.txt" := "first" +:+ nl +:+ " second " +:+ nl ]} []))
    as (w' & Hrun & _ & _ & _ & _ & _ & Hk); [vm_compute; reflexivity|].
  exists w'. split; [exact Hrun|].
  apply (Hk 1%nat (" second " +:+ nl)). vm_compute. reflexivity.
Defined.

Lemma train_model_result_witness :
  dataset (loaded ∅ []) kc_frame /\
  match train_model float_0_2 42 (loaded ∅ []) with
  | Ok _ w' =>
      model (self w') = Some (Fitted tt) /\ is_trained (self w') = true
  | _ => False
  end.
Proof.
  assert (Hd : dataset (loaded ∅ []) kc_frame) by (left; reflexivity).
  split; [exact Hd|].
  pose proof (train_model_result (loaded ∅ []) kc_frame float_0_2 42 Hd) as H.
  destruct (train_model float_0_2 42 (loaded ∅ [])) as [u w'|e w'|].
  - destruct H as ([] & score & _ & Hm & _ & Hfl & _). split; [exact Hm | exact Hfl].
  - destruct H as (H & _). vm_compute in H. discriminate H.
  - exact H.
Defined.

Lemma failed_fit_leaves_flag_up_witness :
  exists w',
    @train_model unfit 20 42 (trained_unfit ["bedrooms"] ∅ ["3"])
    = Raise ValueError w' /\
    is_trained (self w') = true /\
    model (self w')
    = Some (@Halted unfit (Frame.mk 1 [num_col "bedrooms" [3]])
                    (num_col "price" [538000])) /\
    exists w'', predict_price w' = Raise AttributeError w''.
Proof.
  destruct (@failed_fit_leaves_flag_up unfit
              (trained_unfit ["bedrooms"] ∅ ["3"]) kc_frame 20 42
              (Frame.mk 1 [num_col "bedrooms" [3]])
              (Frame.mk 1 [num_col "bedrooms" [3]])
              (num_col "price" [538000])
              (num_col "price" [221900])
              ValueError)
    as (w' & Hrun & Hfl & Hm & Hfe & Hin & Hnext);
    [left; reflexivity | reflexivity | reflexivity | reflexivity |].
  exists w'. split; [exact Hrun|]. split; [exact Hfl|]. split; [exact Hm|].
  destruct (Hnext [("bedrooms", 3)] []) as [_ Hraise].
  { rewrite Hfe, Hin. reflexivity. }
  destruct (Hraise AttributeError eq_refl) as (w'' & Hp & _).
  exists w''. exact Hp.
Defined.

Lemma select_then_train_witness :
  exists w1 w2,
    select_features (trained DEFAULT_FEATURES ∅ ["4,5"; "6"]) = Ok tt w1 /\
    predict_price w1 = Ok None w2 /\
    files (env w2) = files (env w1).
Proof.
  destruct (select_features_run (trained DEFAULT_FEATURES ∅ ["4,5"; "6"])
              kc_frame "4,5" ["6"] (or_introl eq_refl) eq_refl)
    as (w1 & Hrun & _).
  destruct (proj1 (select_then_train _ tt w1 Hrun)) as (w2 & Hp & _ & Hf & _).
  exists w1, w2. split; [exact Hrun|]. split; [exact Hp | exact Hf].
Defined.

Lemma selected_features_are_columns_witness :
  well_formed (trained ["floors"; "bedrooms"] ∅ []) /\
  exists X,
    Frame.select kc_frame ["floors"; "bedrooms"] = Some X /\
    Frame.column_names X = ["floors"; "bedrooms"].
Proof.
  assert (Hwf : well_formed (trained ["floors"; "bedrooms"] ∅ [])).
  { split; [discriminate|]. split.
    - right. exists kc_frame. split; [reflexivity|].
      repeat constructor;
        (apply list_elem_of_In; apply (bool_decide_unpack _);
         vm_compute; reflexivity).
    - intros _. exists tt, 1. split; reflexivity. }
  split; [exact Hwf|].
  apply (proj1 (selected_features_are_columns
                  (trained ["floors"; "bedrooms"] ∅ []) kc_frame
                  Hwf eq_refl ltac:(discriminate))).
Defined.

Lemma display_dataset_info_shows_witness :
  exists w',
    display_dataset_info (fresh csv_present []) = Ok tt w' /\
    df (self w') = Some kc_frame /\
    stdout (env w') !! 9%nat
    = Some (("    " +:+ PyStr.fmt_right2 3 +:+ ". " +:+ "price") +:+ nl).
Proof.
  destruct (proj1 (display_dataset_info_shows (fresh csv_present []))
              kc_frame (fresh_dataset []))
    as (w' & Hrun & Hdf & _ & _ & _ & _ & _ & _ & _ & _ & _ & Hk).
  exists w'. split; [exact Hrun|]. split; [exact Hdf|].
  apply (Hk 2%nat "price"). reflexivity.
Defined.

Lemma select_features_numbering_witness :
  exists w',
    select_features (loaded ∅ ["4"; "6"]) = Ok tt w' /\
    stdout (env w') !! 7%nat
    = Some (("    " +:+ PyStr.fmt_right2 4 +:+ ". " +:+ "sqft_lot" +:+ " *")
            +:+ nl) /\
    features (self w') = ["sqft_lot"].
Proof.
  destruct (select_features_numbering (loaded ∅ ["4"; "6"]) kc_frame
              "4" ["6"] 3 "sqft_lot" (or_introl eq_refl) eq_refl eq_refl)
    as (w' & Hrun & Hline & Hsel).
  exists w'. split; [exact Hrun|]. split; [exact Hline|].
  apply (Hsel "4"); reflexivity.
Defined.

Lemma train_predict_exit_witness :
  exists w',
    main (env_of csv_present ("3" :: " 4" :: ten_answers ++ ["6"; "1"]))
    = Ok tt w' /\
    stdin (env w') = ["1"] /\
    default "" (files (env w') !! "data.txt")
    = log_line (DateTime.strftime noon) ten_values 0.
Proof.
  destruct (@train_predict_exit ext
              (env_of csv_present ("3" :: " 4" :: ten_answers ++ ["6"; "1"]))
              "id,date,price" kc_frame tt 1 "3" " 4" "6"
              (ten_answers ++ ["6"; "1"]) ["1"] ten_values 0 [])
    as (w' & Hrun & Hin & Hlog & _);
    [vm_compute; reflexivity | reflexivity | exact default_training
    | reflexivity | reflexivity | reflexivity
    | vm_compute; reflexivity | reflexivity | reflexivity |].
  exists w'. split; [exact Hrun|]. split; [exact Hin | exact Hlog].
Defined.

Lemma select_features_failure_witness :
  let w := trained ["bedrooms"] ∅ [] in
  exists w',
    select_features w = Raise EOFError w' /\
    features (self w') = ["bedrooms"] /\
    is_trained (self w') = true.
Proof.
  intros w.
  destruct (select_features_eof w kc_frame (or_introl eq_refl) eq_refl)
    as (w' & Hrun & _).
  destruct (select_features_failure w EOFError w' Hrun) as (Hfe & Hfl & _).
  exists w'. split; [exact Hrun|]. split; [exact Hfe | exact Hfl].
Defined.

End Runs.
